(** * Shallow embedding of the Saby (SBIS) upload server

    The development follows [src/uiServer.ts] (the upload pipeline) and the
    [SabyClient] class (token caching).  JavaScript strings are sequences of
    UTF-16 code units, [undefined] is [None], a thrown exception is the left
    injection of a sum, and everything the code does to the outside world
    (HTTP requests, drawing UUIDs, reading the clock) goes through an
    explicit [World]. *)

From Stdlib Require Import ZArith List Bool Lia String Ascii.
Import ListNotations.
Open Scope Z_scope.

(** ** JavaScript strings *)

Module JS.

(** A string is the list of its UTF-16 code units. *)
Definition jsstring : Type := list Z.

Definition isDigit (c : Z) : bool := (48 <=? c) && (c <=? 57).

(** The class [\s] of a regular expression, which is also what
    [String.prototype.trim] removes: WhiteSpace and LineTerminator. *)
Definition isWhiteSpace (c : Z) : bool :=
  ((9 <=? c) && (c <=? 13)) || (c =? 32) || (c =? 0xA0) || (c =? 0x1680)
  || ((0x2000 <=? c) && (c <=? 0x200A))
  || (c =? 0x2028) || (c =? 0x2029) || (c =? 0x202F) || (c =? 0x205F)
  || (c =? 0x3000) || (c =? 0xFEFF).

Fixpoint trimStart (s : jsstring) : jsstring :=
  match s with
  | c :: r => if isWhiteSpace c then trimStart r else s
  | [] => []
  end.

Definition trimEnd (s : jsstring) : jsstring := rev (trimStart (rev s)).

Definition trim (s : jsstring) : jsstring := trimEnd (trimStart s).

(** [s.replace(/\s+/g, '')] *)
Definition stripWhitespace (s : jsstring) : jsstring :=
  filter (fun c => negb (isWhiteSpace c)) s.

(** [/^\d+$/.test(s)] *)
Definition allDigits1 (s : jsstring) : bool :=
  match s with
  | [] => false
  | _ => forallb isDigit s
  end.

(** Truthiness of a value of type [string | undefined]. *)
Definition truthy (o : option jsstring) : bool :=
  match o with
  | Some (_ :: _) => true
  | _ => false
  end.

(** *** UTF-8 decoding, as [Buffer.prototype.toString('utf8')] does it
    (the WHATWG decoder: an ill-formed sequence gives U+FFFD and the
    offending byte is read again). *)

Record dstate := { cp : Z; need : nat; lo : Z; hi : Z }.

Definition st0 : dstate := {| cp := 0; need := 0; lo := 0x80; hi := 0xBF |}.

Definition lead (b : Z) : list Z * dstate :=
  if b <=? 0x7F then ([b], st0)
  else if (0xC2 <=? b) && (b <=? 0xDF) then
    ([], {| cp := Z.land b 0x1F; need := 1; lo := 0x80; hi := 0xBF |})
  else if (0xE0 <=? b) && (b <=? 0xEF) then
    ([], {| cp := Z.land b 0xF; need := 2;
            lo := if b =? 0xE0 then 0xA0 else 0x80;
            hi := if b =? 0xED then 0x9F else 0xBF |})
  else if (0xF0 <=? b) && (b <=? 0xF4) then
    ([], {| cp := Z.land b 7; need := 3;
            lo := if b =? 0xF0 then 0x90 else 0x80;
            hi := if b =? 0xF4 then 0x8F else 0xBF |})
  else ([0xFFFD], st0).

(** A code point as one code unit or a surrogate pair. *)
Definition utf16 (c : Z) : list Z :=
  if c <? 0x10000 then [c]
  else [0xD800 + Z.shiftr (c - 0x10000) 10; 0xDC00 + Z.land (c - 0x10000) 0x3FF].

Fixpoint utf8_go (bs : list Z) (s : dstate) : jsstring :=
  match bs with
  | [] => match need s with O => [] | S _ => [0xFFFD] end
  | b :: rest =>
      match need s with
      | O => let (out, s') := lead b in out ++ utf8_go rest s'
      | S n =>
          if (lo s <=? b) && (b <=? hi s) then
            let c := Z.lor (Z.shiftl (cp s) 6) (Z.land b 0x3F) in
            match n with
            | O => utf16 c ++ utf8_go rest st0
            | S _ => utf8_go rest {| cp := c; need := n; lo := 0x80; hi := 0xBF |}
            end
          else 0xFFFD :: (let (out, s') := lead b in out ++ utf8_go rest s')
      end
  end.

Definition utf8_decode (bs : list Z) : jsstring := utf8_go bs st0.

Fixpoint bytes_of (s : string) : list Z :=
  match s with
  | EmptyString => []
  | String a r => Z.of_N (N_of_ascii a) :: bytes_of r
  end.

(** A literal of this file (UTF-8 text) as the JavaScript string it denotes. *)
Definition js (s : string) : jsstring := utf8_decode (bytes_of s).

(** [Buffer.from(s, 'latin1')]: the low byte of every code unit. *)
Definition latin1_bytes (s : jsstring) : list Z := map (fun c => Z.land c 0xFF) s.

(** Decimal digits of a natural number, for [String(n)]. *)
Fixpoint digits_fuel (fuel : nat) (n : Z) (acc : jsstring) : jsstring :=
  match fuel with
  | O => acc
  | S f => let acc' := (48 + n mod 10) :: acc in
           if n <? 10 then acc' else digits_fuel f (n / 10) acc'
  end.

(** [String(n)] for an integer [n] below 1e21 in absolute value. *)
Definition numberToString (n : Z) : jsstring :=
  let m := Z.abs n in
  let ds := digits_fuel (S (Z.to_nat (Z.log2 m))) m [] in
  if n <? 0 then 45 :: ds else ds.

(** [a.join(sep)] *)
Fixpoint join (sep : jsstring) (parts : list jsstring) : jsstring :=
  match parts with
  | [] => []
  | [p] => p
  | p :: rest => p ++ sep ++ join sep rest
  end.

(** [s.split(sep)] for a separator of one code unit: never empty. *)
Fixpoint split (sep : Z) (s : jsstring) : list jsstring :=
  match s with
  | [] => [[]]
  | c :: r =>
      if c =? sep then [] :: split sep r
      else match split sep r with
           | p :: ps => (c :: p) :: ps
           | [] => [[c]]
           end
  end.

(** [s.slice(0, n)] *)
Definition slice0 (n : nat) (s : jsstring) : jsstring := firstn n s.

End JS.
Import JS.

(** ** Errors and participants *)

(** What the code throws: an [HttpError] with its status code, or any other
    [Error] (a rejected [fetch], a body that cannot be read), of which only
    the message is ever looked at. *)
Inductive Error : Type :=
| HttpError (statusCode : Z) (message : jsstring)
| OtherError (message : jsstring).

Definition errorMessage (e : Error) : jsstring :=
  match e with
  | HttpError _ m => m
  | OtherError m => m
  end.

Record ParticipantInput := {
  inn : option jsstring;
  kpp : option jsstring;
  lastName : option jsstring;
  firstName : option jsstring;
  middleName : option jsstring;
  snils : option jsstring
}.

(** The object [buildParticipant] returns: one key, [СвЮЛ] (legal entity) or
    [СвФЛ] (individual); an optional field is [None] when the key is not set. *)
Inductive Participant : Type :=
| СвЮЛ (ИНН : jsstring) (КПП : option jsstring)
| СвФЛ (ИНН : jsstring) (Фамилия Имя Отчество СНИЛС : option jsstring).

(** [...(x ? { Key: x.trim() } : {})] *)
Definition spreadTrimmed (x : option jsstring) : option jsstring :=
  match x with
  | Some (c :: r) => Some (trim (c :: r))
  | _ => None
  end.

Definition msg_inn_required : jsstring := js "ИНН обязателен для формирования реквизитов".
Definition msg_inn_digits : jsstring := js "ИНН должен содержать только цифры".
Definition msg_inn_length : jsstring := js "ИНН должен содержать 10 или 12 цифр".

Definition buildParticipant (params : ParticipantInput) : Error + Participant :=
  match inn params with
  | None | Some [] => inl (HttpError 400 msg_inn_required)
  | Some inn =>
      let normalizedInn := stripWhitespace inn in
      if negb (allDigits1 normalizedInn) then inl (HttpError 400 msg_inn_digits)
      else if (List.length normalizedInn =? 10)%nat then
        inr (СвЮЛ normalizedInn (spreadTrimmed (kpp params)))
      else if (List.length normalizedInn =? 12)%nat then
        inr (СвФЛ normalizedInn
               (spreadTrimmed (lastName params)) (spreadTrimmed (firstName params))
               (spreadTrimmed (middleName params)) (spreadTrimmed (snils params)))
      else inl (HttpError 400 msg_inn_length)
  end.

Definition onlyInn (s : jsstring) : ParticipantInput :=
  {| inn := Some s; kpp := None; lastName := None; firstName := None;
     middleName := None; snils := None |}.

(** A validation error is an [HttpError] with status 400. *)
Definition isValidationError {A : Type} (r : Error + A) : Prop :=
  exists m, r = inl (HttpError 400 m).

Definition sampleOrganization : ParticipantInput :=
  {| inn := Some (js "77 1234 5678"); kpp := Some (js " 771201001 ");
     lastName := None; firstName := None; middleName := None; snils := None |}.

Definition sampleIndividual : ParticipantInput :=
  {| inn := Some (js "500100732259"); kpp := None;
     lastName := Some (js " Иванов"); firstName := Some (js "Иван ");
     middleName := Some []; snils := None |}.

(** ** The [Date] object

    Time values are milliseconds since 1970-01-01T00:00Z; [None] is the NaN
    time value of an invalid date.  The definitions are those of the
    ECMAScript specification (section "Date objects"), with its names. *)

Module JSDate.

Definition msPerDay : Z := 86400000.

Definition Day (t : Z) : Z := t / msPerDay.

Definition TimeWithinDay (t : Z) : Z := t mod msPerDay.

Definition DaysInYear (y : Z) : Z :=
  if (y mod 4 =? 0) && (negb (y mod 100 =? 0) || (y mod 400 =? 0)) then 366 else 365.

Definition DayFromYear (y : Z) : Z :=
  365 * (y - 1970) + (y - 1969) / 4 - (y - 1901) / 100 + (y - 1601) / 400.

(** The largest [y] with [DayFromYear y <= Day t] (see [YearFromTime_spec]):
    the estimate [e] is off by one at most. *)
Definition YearFromTime (t : Z) : Z :=
  let d := Day t in
  let e := 1970 + (400 * d) / 146097 in
  if DayFromYear (e + 1) <=? d then e + 1
  else if DayFromYear e <=? d then e
  else e - 1.

Definition InLeapYear (t : Z) : Z := DaysInYear (YearFromTime t) - 365.

Definition DayWithinYear (t : Z) : Z := Day t - DayFromYear (YearFromTime t).

(** Number of the first day of month [m] (from 0) within a year; [leap] is 0 or 1. *)
Definition monthStart (leap m : Z) : Z :=
  match m with
  | 0 => 0 | 1 => 31 | 2 => 59 + leap | 3 => 90 + leap | 4 => 120 + leap
  | 5 => 151 + leap | 6 => 181 + leap | 7 => 212 + leap | 8 => 243 + leap
  | 9 => 273 + leap | 10 => 304 + leap | _ => 334 + leap
  end.

Definition MonthFromTime (t : Z) : Z :=
  let d := DayWithinYear t in
  let l := InLeapYear t in
  if d <? 31 then 0 else if d <? 59 + l then 1 else if d <? 90 + l then 2
  else if d <? 120 + l then 3 else if d <? 151 + l then 4 else if d <? 181 + l then 5
  else if d <? 212 + l then 6 else if d <? 243 + l then 7 else if d <? 273 + l then 8
  else if d <? 304 + l then 9 else if d <? 334 + l then 10 else 11.

Definition DateFromTime (t : Z) : Z :=
  DayWithinYear t - monthStart (InLeapYear t) (MonthFromTime t) + 1.

(** 0 is Sunday, 4 is Thursday (the day of time value 0). *)
Definition WeekDay (t : Z) : Z := (Day t + 4) mod 7.

(** Months beyond 0..11 carry into the year and days beyond the month carry
    on: nothing is rejected. *)
Definition MakeDay (year month date : Z) : Z :=
  let ym := year + month / 12 in
  let mn := month mod 12 in
  DayFromYear ym + monthStart (DaysInYear ym - 365) mn + date - 1.

Definition MakeDate (day time : Z) : Z := day * msPerDay + time.

Definition TimeClip (t : Z) : option Z :=
  if Z.abs t <=? 8640000000000000 then Some t else None.

(** [Date.UTC(year, month, date)]: a year from 0 to 99 stands for 1900 + year. *)
Definition Date_UTC (year month date : Z) : option Z :=
  let yr := if (0 <=? year) && (year <=? 99) then 1900 + year else year in
  TimeClip (MakeDate (MakeDay yr month date) 0).

Definition getUTCDay (t : Z) : Z := WeekDay t.
Definition getUTCDate (t : Z) : Z := DateFromTime t.
Definition getUTCFullYear (t : Z) : Z := YearFromTime t.

(** [d.setUTCDate(dt)]: the new time value of [d]. *)
Definition setUTCDate (t dt : Z) : option Z :=
  TimeClip (MakeDate (MakeDay (YearFromTime t) (MonthFromTime t) dt) (TimeWithinDay t)).

(** [Math.ceil(a / b)] for [b > 0]. *)
Definition ceilDiv (a b : Z) : Z := - ((- a) / b).

End JSDate.
Import JSDate.

(** ** [extractWeekDescription] *)

(** The inner [getIsoWeek]; [None] is NaN.  [(diff / 86400000 + 1) / 7] is
    the quotient [(diff + 86400000) / (7 * 86400000)], which the floating
    point operations of the code do not round across an integer. *)
Definition getIsoWeek (d : Z) : option Z :=
  let target := d in
  let dayNum := if getUTCDay target =? 0 then 7 else getUTCDay target in
  match setUTCDate target (getUTCDate target + 4 - dayNum) with
  | None => None
  | Some target =>
      match Date_UTC (getUTCFullYear target) 0 1 with
      | None => None
      | Some yearStart =>
          let diff := target - yearStart in
          Some (ceilDiv (diff + 86400000) (7 * 86400000))
      end
  end.

(** The regular expression [(\d{2})-(\d{2})-(\d{4})] tried at the head of [s]. *)
Definition matchDateHere (s : jsstring) : option (jsstring * jsstring * jsstring) :=
  match s with
  | d1 :: d2 :: h1 :: m1 :: m2 :: h2 :: y1 :: y2 :: y3 :: y4 :: _ =>
      if isDigit d1 && isDigit d2 && (h1 =? 45) && isDigit m1 && isDigit m2
         && (h2 =? 45) && isDigit y1 && isDigit y2 && isDigit y3 && isDigit y4
      then Some ([d1; d2], [m1; m2], [y1; y2; y3; y4])
      else None
  | _ => None
  end.

(** [name.match(/(\d{2})-(\d{2})-(\d{4})/)]: the leftmost match. *)
Fixpoint matchDate (s : jsstring) : option (jsstring * jsstring * jsstring) :=
  match matchDateHere s with
  | Some r => Some r
  | None => match s with
            | [] => None
            | _ :: r => matchDate r
            end
  end.

(** [Number(s)] for a string of decimal digits; [None] (NaN) otherwise. *)
Definition Number (s : jsstring) : option Z :=
  if allDigits1 s then Some (fold_left (fun acc c => 10 * acc + (c - 48)) s 0)
  else None.

Definition weekLabel (week : option Z) : jsstring :=
  js "Еженедельный отчет по выручке и наценке ("
  ++ match week with Some w => numberToString w | None => js "NaN" end
  ++ js " неделя)".

Definition extractWeekDescription (name : jsstring) : option jsstring :=
  match matchDate name with
  | None => None
  | Some (dayStr, monthStr, yearStr) =>
      match Number dayStr, Number monthStr, Number yearStr with
      | Some day, Some month, Some year =>
          match Date_UTC year (month - 1) day with
          | None => None
          | Some date => Some (weekLabel (getIsoWeek date))
          end
      | _, _, _ => None
      end
  end.

(** ** JSON values and the builtins of the engine *)

(** A value [JSON.parse] returns, over the numbers [N] of the engine.  An
    object lists its own properties, each key once. *)
#[warnings="-register-all"]
Inductive json (N : Type) : Type :=
| JNull
| JBool (b : bool)
| JNumber (n : N)
| JString (s : jsstring)
| JArray (items : list (json N))
| JObject (properties : list (jsstring * json N)).

Arguments JNull {N}.
Arguments JBool {N} b.
Arguments JNumber {N} n.
Arguments JString {N} s.
Arguments JArray {N} items.
Arguments JObject {N} properties.

(** What the code takes from the engine without this development looking
    inside: its numbers, whether one is neither 0 nor NaN, how one prints,
    and [JSON.parse] ([None] when it throws). *)
Class Runtime : Type := {
  Num : Type;
  numTruthy : Num -> bool;
  numToString : Num -> jsstring;
  JSON_parse : jsstring -> option (json Num)
}.

Section Values.
Context {RT : Runtime}.

(** A JavaScript value here is a JSON value or [undefined] ([None]). *)
Definition value : Type := option (json Num).

Fixpoint lookup (key : jsstring) (ps : list (jsstring * json Num)) : value :=
  match ps with
  | [] => None
  | (k, v) :: r => if list_eq_dec Z.eq_dec k key then Some v else lookup key r
  end.

(** [v?.key] for a key that no prototype defines. *)
Definition getOpt (v : value) (key : jsstring) : value :=
  match v with
  | Some (JObject ps) => lookup key ps
  | _ => None
  end.

Definition isTruthy (v : value) : bool :=
  match v with
  | None | Some JNull => false
  | Some (JBool b) => b
  | Some (JNumber n) => numTruthy n
  | Some (JString s) => match s with [] => false | _ => true end
  | Some (JArray _) | Some (JObject _) => true
  end.

(** [a || b] *)
Definition orElse (a b : value) : value := if isTruthy a then a else b.

(** [String(v)] *)
Fixpoint toString (j : json Num) : jsstring :=
  match j with
  | JNull => js "null"
  | JBool b => if b then js "true" else js "false"
  | JNumber n => numToString n
  | JString s => s
  | JArray items =>
      join (js ",") (map (fun i => match i with JNull => [] | _ => toString i end) items)
  | JObject _ => js "[object Object]"
  end.

End Values.

(** ** The outside world of the upload server *)

(** [buf.toString('base64')] *)
Definition b64char (n : Z) : Z :=
  if n <? 26 then 65 + n
  else if n <? 52 then 97 + (n - 26)
  else if n <? 62 then 48 + (n - 52)
  else if n =? 62 then 43 else 47.

Fixpoint base64 (bs : list Z) : jsstring :=
  match bs with
  | [] => []
  | [a] => [b64char (Z.shiftr a 2); b64char (Z.shiftl (Z.land a 3) 4); 61; 61]
  | [a; b] =>
      [b64char (Z.shiftr a 2);
       b64char (Z.lor (Z.shiftl (Z.land a 3) 4) (Z.shiftr b 4));
       b64char (Z.shiftl (Z.land b 15) 2); 61]
  | a :: b :: c :: rest =>
      [b64char (Z.shiftr a 2);
       b64char (Z.lor (Z.shiftl (Z.land a 3) 4) (Z.shiftr b 4));
       b64char (Z.lor (Z.shiftl (Z.land b 15) 2) (Z.shiftr c 6));
       b64char (Z.land c 63)] ++ base64 rest
  end.

(** [Buffer.from(name, 'latin1').toString('utf8')] *)
Definition decodeFilename (name : jsstring) : jsstring :=
  utf8_decode (latin1_bytes name).

(** An uploaded file as multer hands it over. *)
Record UploadedFile := {
  originalname : jsstring;
  buffer : list Z
}.

Record UploadParams := {
  sessionId : option jsstring;
  docBaseUrl : option jsstring;
  client : ParticipantInput;
  our : ParticipantInput;
  docType : option jsstring;
  number : option jsstring;
  date : option jsstring;
  note : option jsstring;
  file : option UploadedFile
}.

(** The one element of [Вложение]. *)
Record Attachment := {
  att_Идентификатор : jsstring;
  att_Тип : jsstring;
  att_Подтип : jsstring;
  att_Название : jsstring;
  att_Файл_ДвоичныеДанные : jsstring;
  att_Файл_Имя : jsstring
}.

Record Document := {
  Вложение : list Attachment;
  Дата : jsstring;
  Номер : jsstring;
  Идентификатор : jsstring;
  Контрагент : Participant;
  НашаОрганизация : Participant;
  Примечание : jsstring;
  Тип : jsstring
}.

(** The object given to [JSON.stringify]. *)
Record RpcBody := {
  jsonrpc : jsstring;
  method : jsstring;
  params_Документ : Document;
  id : Z
}.

(** A call of [fetch]: the URL and the options. *)
Record Request := {
  req_url : jsstring;
  req_method : jsstring;
  req_ContentType : jsstring;
  req_X_SBISSessionID : jsstring;
  req_body : RpcBody
}.

(** A response; reading its text gives the text or fails with a message. *)
Record Response := {
  status : Z;
  statusText : jsstring;
  text : jsstring + jsstring
}.

(** [response.ok] *)
Definition ok (r : Response) : bool := (200 <=? status r) && (status r <=? 299).

Inductive FetchOutcome : Type :=
| Rejected (message : jsstring)
| Responded (r : Response).

(** The remote side (it sees the earlier requests and the present one), the
    source of UUIDs and the clock. *)
Record Env := {
  respond : list Request -> Request -> FetchOutcome;
  uuid : nat -> jsstring;
  clock : nat -> jsstring
}.

(** What the server has done so far: the requests in the order issued, the
    number of UUIDs drawn, the number of times the clock was read. *)
Record World := {
  calls : list Request;
  uuidsDrawn : nat;
  clockReads : nat
}.

(** Computations that may throw and that act on the world. *)
Definition M (A : Type) : Type := World -> (Error + A) * World.

Definition ret {A : Type} (a : A) : M A := fun w => (inr a, w).

Definition throw {A : Type} (e : Error) : M A := fun w => (inl e, w).

Definition bind {A B : Type} (m : M A) (k : A -> M B) : M B :=
  fun w => match m w with
           | (inl e, w') => (inl e, w')
           | (inr a, w') => k a w'
           end.

Notation "x <- m ;; k" := (bind m (fun x => k))
  (at level 61, m at next level, right associativity).

(** [try { m } catch (error) { h error }] *)
Definition tryCatch {A : Type} (m : M A) (h : Error -> M A) : M A :=
  fun w => match m w with
           | (inl e, w') => h e w'
           | (inr a, w') => (inr a, w')
           end.

Definition liftE {A : Type} (r : Error + A) : M A :=
  match r with
  | inl e => throw e
  | inr a => ret a
  end.

Definition randomUUID (env : Env) : M jsstring :=
  fun w => (inr (uuid env (uuidsDrawn w)),
            {| calls := calls w; uuidsDrawn := S (uuidsDrawn w); clockReads := clockReads w |}).

(** [new Date().toISOString()] *)
Definition nowISOString (env : Env) : M jsstring :=
  fun w => (inr (clock env (clockReads w)),
            {| calls := calls w; uuidsDrawn := uuidsDrawn w; clockReads := S (clockReads w) |}).

Definition fetch (env : Env) (req : Request) : M Response :=
  fun w =>
    let w' := {| calls := calls w ++ [req]; uuidsDrawn := uuidsDrawn w;
                 clockReads := clockReads w |} in
    match respond env (calls w) req with
    | Rejected m => (inl (OtherError m), w')
    | Responded r => (inr r, w')
    end.

(** [await response.text()] *)
Definition responseText (r : Response) : M jsstring :=
  match text r with
  | inl t => ret t
  | inr m => throw (OtherError m)
  end.

(** ** [parseInnKppFromFilename] *)

(** A code unit that matches the letter [upper] under the flag [i]: the
    letter or its lower case, 32 further on for the Cyrillic capitals. *)
Definition matchesIgnoreCase (upper c : Z) : bool := (c =? upper) || (c =? upper + 32).

Definition startsWithIgnoreCase (a b c' : Z) (s : jsstring) : option jsstring :=
  match s with
  | x :: y :: z :: r =>
      if matchesIgnoreCase a x && matchesIgnoreCase b y && matchesIgnoreCase c' z
      then Some r else None
  | _ => None
  end.

(** [\d{n}] at the head of [s]. *)
Definition digitsPrefix (n : nat) (s : jsstring) : option jsstring :=
  let p := firstn n s in
  if (List.length p =? n)%nat && forallb isDigit p then Some p else None.

(** [/ИНН(\d{12}|\d{10})/i] at the head of [s]: the first group. *)
Definition matchInnHere (s : jsstring) : option jsstring :=
  match startsWithIgnoreCase 0x418 0x41D 0x41D s with
  | Some r => match digitsPrefix 12 r with
              | Some d => Some d
              | None => digitsPrefix 10 r
              end
  | None => None
  end.

(** [/КПП(\d{9})/i] at the head of [s]. *)
Definition matchKppHere (s : jsstring) : option jsstring :=
  match startsWithIgnoreCase 0x41A 0x41F 0x41F s with
  | Some r => digitsPrefix 9 r
  | None => None
  end.

(** The leftmost match of a pattern given by its match at the head. *)
Fixpoint firstMatch (here : jsstring -> option jsstring) (s : jsstring) : option jsstring :=
  match here s with
  | Some g => Some g
  | None => match s with
            | [] => None
            | _ :: r => firstMatch here r
            end
  end.

Definition parseInnKppFromFilename (name : jsstring) : option jsstring * option jsstring :=
  let decoded := decodeFilename name in
  (firstMatch matchInnHere decoded, firstMatch matchKppHere decoded).

(** ** [performUpload] *)

Record UploadResult {RT : Runtime} := {
  res_status : Z;
  res_statusText : jsstring;
  rawBody : jsstring;
  jsonBody : json Num;
  documentId : json Num
}.

Definition DEFAULT_SERVICE_URL : jsstring := js "https://online.sbis.ru/service/?srv=1".

Definition msg_session_required : jsstring := js "sessionId (X-SBISSessionID) обязателен".
Definition msg_file_required : jsstring := js "Файл обязателен".
Definition msg_inns_required : jsstring := js "clientInn и ourInn обязательны для загрузки".
Definition msg_kpp_required : jsstring :=
  js "Для ИНН с 10 цифрами необходимо указать КПП (например, добавьте его в имя файла).".

(** [a || b] on strings. *)
Definition orString (a : option jsstring) (b : jsstring) : jsstring :=
  match a with
  | Some (c :: r) => c :: r
  | _ => b
  end.

(** [today.split('-').reverse().join('.')] *)
Definition toWireDate (today : jsstring) : jsstring := join [46] (rev (split 45 today)).

(** [performUpload] up to the call of [fetch]: the checks, in their order,
    and the request that [fetch] is given. *)
Definition buildUploadRequest (env : Env) (params : UploadParams) : M Request :=
  match sessionId params with
  | None | Some [] => throw (HttpError 400 msg_session_required)
  | Some sessionId =>
  match file params with
  | None => throw (HttpError 400 msg_file_required)
  | Some file =>
  match inn (client params), inn (our params) with
  | Some ((_ :: _) as clientInn), Some (_ :: _) =>
      let serviceUrl := orString (option_map trim (docBaseUrl params)) DEFAULT_SERVICE_URL in
      let fileNameUtf :=
        decodeFilename (orString (Some (originalname file)) (js "document.docx")) in
      let description := extractWeekDescription fileNameUtf in
      let normalizedNote := option_map trim (note params) in
      today <- match date params with
               | Some (c :: r) => ret (c :: r)
               | _ => iso <- nowISOString env ;; ret (slice0 10 iso)
               end ;;
      let normalizedClientInn := stripWhitespace clientInn in
      let effectiveClientKpp := option_map trim (kpp (client params)) in
      if (List.length normalizedClientInn =? 10)%nat && negb (truthy effectiveClientKpp)
      then throw (HttpError 400 msg_kpp_required)
      else
        counterparty <- liftE (buildParticipant
                                 {| inn := Some normalizedClientInn;
                                    kpp := effectiveClientKpp;
                                    lastName := lastName (client params);
                                    firstName := firstName (client params);
                                    middleName := middleName (client params);
                                    snils := snils (client params) |}) ;;
        ourSide <- liftE (buildParticipant
                            {| inn := inn (our params);
                               kpp := kpp (our params);
                               lastName := lastName (our params);
                               firstName := firstName (our params);
                               middleName := middleName (our params);
                               snils := snils (our params) |}) ;;
        documentId <- randomUUID env ;;
        attachmentId <- randomUUID env ;;
        let binaryBase64 := base64 (buffer file) in
        let body :=
          {| jsonrpc := js "2.0";
             method := js "СБИС.ЗаписатьДокумент";
             params_Документ :=
               {| Вложение :=
                    [ {| att_Идентификатор := attachmentId;
                         att_Тип := js "Прочее";
                         att_Подтип := js "Приложение";
                         att_Название := fileNameUtf;
                         att_Файл_ДвоичныеДанные := binaryBase64;
                         att_Файл_Имя := fileNameUtf |} ];
                  Дата := toWireDate today;
                  Номер := orString (number params) [];
                  Идентификатор := documentId;
                  Контрагент := counterparty;
                  НашаОрганизация := ourSide;
                  Примечание := orString normalizedNote (orString description []);
                  Тип := orString (docType params) (js "ДоговорИсх") |};
             id := 0 |} in
        ret {| req_url := serviceUrl;
               req_method := js "POST";
               req_ContentType := js "application/json; charset=UTF-8";
               req_X_SBISSessionID := sessionId;
               req_body := body |}
  | _, _ => throw (HttpError 400 msg_inns_required)
  end
  end
  end.

Section Upload.
Context {RT : Runtime}.

(** [String(v)] when [v] is the message given to [new Error]. *)
Definition toStringValue (v : value) : jsstring :=
  match v with
  | Some j => toString j
  | None => []
  end.

(** [performUpload] from the response on. *)
Definition readUploadResponse (response : Response) : M UploadResult :=
  text <- responseText response ;;
  let parsed := match JSON_parse text with
                | Some j => j
                | None => JNull
                end in
  let result := getOpt (Some parsed) (js "result") in
  let createdDocumentId :=
    orElse (orElse (getOpt (getOpt result (js "Документ")) (js "Идентификатор"))
                   (getOpt result (js "Идентификатор")))
           (Some JNull) in
  if negb (ok response) then
    let errorMessage :=
      orElse (getOpt (getOpt (Some parsed) (js "error")) (js "message"))
             (Some (JString (statusText response))) in
    throw (HttpError (status response) (toStringValue errorMessage))
  else
    ret {| res_status := status response;
           res_statusText := statusText response;
           rawBody := text;
           jsonBody := parsed;
           documentId := match createdDocumentId with
                         | Some j => j
                         | None => JNull
                         end |}.

Definition performUpload (env : Env) (params : UploadParams) : M UploadResult :=
  request <- buildUploadRequest env params ;;
  response <- fetch env request ;;
  readUploadResponse response.

(** ** The batch endpoint *)

(** The fields of [req.body]. *)
Record BatchBody := {
  body_docBaseUrl : option jsstring;
  body_sessionId : option jsstring;
  ourInn : option jsstring;
  ourKpp : option jsstring;
  ourLastName : option jsstring;
  ourFirstName : option jsstring;
  ourMiddleName : option jsstring;
  ourSnils : option jsstring;
  body_docType : option jsstring;
  body_number : option jsstring;
  body_date : option jsstring;
  body_note : option jsstring
}.

(** An element of [results]; a key that is not set is [None]. *)
Record BatchEntry := {
  fileName : jsstring;
  entry_ok : bool;
  entry_documentId : option (json Num);
  entry_error : option jsstring
}.

(** What the handler sends: [res.status(code).json({ error })] or
    [res.json({ total, results })]. *)
Inductive BatchResponse : Type :=
| BatchError (statusCode : Z) (error : jsstring)
| BatchReport (total : Z) (results : list BatchEntry).

Definition msg_no_files : jsstring := js "Выберите минимум один файл".
Definition msg_inn_not_found : jsstring := js "Не найден ИНН в названии файла".

Definition batchParams (body : BatchBody) (file : UploadedFile)
    (parsedInn parsedKpp : option jsstring) : UploadParams :=
  {| sessionId := body_sessionId body;
     docBaseUrl := body_docBaseUrl body;
     client := {| inn := parsedInn; kpp := parsedKpp; lastName := None;
                  firstName := None; middleName := None; snils := None |};
     our := {| inn := ourInn body; kpp := ourKpp body; lastName := ourLastName body;
               firstName := ourFirstName body; middleName := ourMiddleName body;
               snils := ourSnils body |};
     docType := body_docType body;
     number := body_number body;
     date := body_date body;
     note := body_note body;
     file := Some file |}.

(** The body of the loop: the entry pushed for [file]. *)
Definition batchItem (env : Env) (body : BatchBody) (file : UploadedFile)
    : World -> BatchEntry * World :=
  fun w =>
    let parsed := parseInnKppFromFilename (orString (Some (originalname file)) []) in
    match fst parsed with
    | Some (_ :: _) =>
        match performUpload env (batchParams body file (fst parsed) (snd parsed)) w with
        | (inr result, w') =>
            ({| fileName := originalname file; entry_ok := true;
                entry_documentId := Some (documentId result); entry_error := None |}, w')
        | (inl error, w') =>
            ({| fileName := originalname file; entry_ok := false;
                entry_documentId := None; entry_error := Some (errorMessage error) |}, w')
        end
    | _ =>
        ({| fileName := originalname file; entry_ok := false;
            entry_documentId := None; entry_error := Some msg_inn_not_found |}, w)
    end.

(** [for (const file of files) { ... results.push(...) }] *)
Fixpoint batchLoop (env : Env) (body : BatchBody) (files : list UploadedFile)
    (results : list BatchEntry) : World -> list BatchEntry * World :=
  fun w =>
    match files with
    | [] => (results, w)
    | file :: rest =>
        let (entry, w') := batchItem env body file w in
        batchLoop env body rest (results ++ [entry]) w'
    end.

(** The handler of [POST /api/upload/batch]. *)
Definition uploadBatch (env : Env) (body : BatchBody) (files : list UploadedFile)
    : World -> BatchResponse * World :=
  fun w =>
    match files with
    | [] => (BatchError 400 msg_no_files, w)
    | _ :: _ =>
        let (results, w') := batchLoop env body files [] w in
        (BatchReport (Z.of_nat (List.length files)) results, w')
    end.

End Upload.

(** ** The endpoint [POST /api/upload] *)

Module SingleUpload.
Section SingleUpload.
Context {RT : Runtime}.

(** The fields of [req.body]. *)
Record Body := {
  b_docBaseUrl : option jsstring;
  b_sessionId : option jsstring;
  clientInn : option jsstring;
  clientKpp : option jsstring;
  clientLastName : option jsstring;
  clientFirstName : option jsstring;
  clientMiddleName : option jsstring;
  clientSnils : option jsstring;
  ourInn : option jsstring;
  ourKpp : option jsstring;
  ourLastName : option jsstring;
  ourFirstName : option jsstring;
  ourMiddleName : option jsstring;
  ourSnils : option jsstring;
  b_docType : option jsstring;
  b_number : option jsstring;
  b_date : option jsstring;
  b_note : option jsstring
}.

(** What the handler sends: [res.json(result)] or
    [res.status(status).json({ error })]. *)
Inductive Reply : Type :=
| ReplyResult (result : UploadResult)
| ReplyError (status : Z) (error : jsstring).

Definition paramsOf (body : Body) (file : option UploadedFile) : UploadParams :=
  {| sessionId := b_sessionId body;
     docBaseUrl := b_docBaseUrl body;
     client := {| inn := clientInn body; kpp := clientKpp body;
                  lastName := clientLastName body; firstName := clientFirstName body;
                  middleName := clientMiddleName body; snils := clientSnils body |};
     our := {| inn := ourInn body; kpp := ourKpp body;
               lastName := ourLastName body; firstName := ourFirstName body;
               middleName := ourMiddleName body; snils := ourSnils body |};
     docType := b_docType body;
     number := b_number body;
     date := b_date body;
     note := b_note body;
     file := file |}.

(** [error instanceof HttpError ? error.statusCode : 500] *)
Definition statusOf (e : Error) : Z :=
  match e with
  | HttpError statusCode _ => statusCode
  | OtherError _ => 500
  end.

Definition handler (env : Env) (body : Body) (file : option UploadedFile)
    : World -> Reply * World :=
  fun w =>
    match performUpload env (paramsOf body file) w with
    | (inr result, w') => (ReplyResult result, w')
    | (inl error, w') => (ReplyError (statusOf error) (errorMessage error), w')
    end.

End SingleUpload.
End SingleUpload.

(** ** The endpoint [POST /api/auth] *)

Module AuthEndpoint.
Section AuthEndpoint.
Context {RT : Runtime}.

(** The fields of [req.body]. *)
Record Body := {
  baseUrl : option jsstring;
  login : option jsstring;
  password : option jsstring
}.

(** The object given to [JSON.stringify]: the method and its parameters. *)
Inductive RpcCall : Type :=
| Аутентифицировать (Логин Пароль : jsstring)
| СписокНашихОрганизаций.

Definition methodOf (c : RpcCall) : jsstring :=
  match c with
  | Аутентифицировать _ _ => js "СБИС.Аутентифицировать"
  | СписокНашихОрганизаций => js "СБИС.СписокНашихОрганизаций"
  end.

Record Request := {
  url : jsstring;
  method : jsstring;
  ContentType : jsstring;
  X_SBISSessionID : option jsstring;
  body : RpcCall
}.

(** A response; reading its text gives the text or fails. *)
Record Response := {
  status : Z;
  statusText : jsstring;
  headers : list (jsstring * jsstring);
  text : jsstring + jsstring
}.

(** A rejected [fetch] is seen through [String(error)] only. *)
Inductive FetchOutcome : Type :=
| Rejected (errorString : jsstring)
| Responded (r : Response).

Definition Remote : Type := list Request -> Request -> FetchOutcome.

(** The object given to [res.json] when all went well; [sessionId] is
    [None] for [null]. *)
Record Summary := {
  s_status : Z;
  s_statusText : jsstring;
  s_headers : list (jsstring * jsstring);
  rawBody : jsstring;
  jsonBody : json Num;
  sessionId : option jsstring;
  ourOrganizations : json Num
}.

Inductive Reply : Type :=
| ReplyError (status : Z) (error : jsstring)
| ReplySummary (s : Summary).

Definition DEFAULT_AUTH_URL : jsstring := js "https://online.sbis.ru/auth/service/".

Definition msg_credentials : jsstring := js "baseUrl, login и password обязательны".

(** [a ?? b] *)
Definition nullish (a b : value) : value :=
  match a with
  | None | Some JNull => b
  | _ => a
  end.

(** The inner [try]: the list of our organizations, [null] when anything
    goes wrong.  The state is the list of the requests sent so far. *)
Definition listOurOrganizations (remote : Remote) (session : jsstring)
    (sent : list Request) : json Num * list Request :=
  let req := {| url := DEFAULT_SERVICE_URL;
                method := js "POST";
                ContentType := js "application/json; charset=UTF-8";
                X_SBISSessionID := Some session;
                body := СписокНашихОрганизаций |} in
  (match remote sent req with
   | Rejected _ => JNull
   | Responded orgResponse =>
       match text orgResponse with
       | inr _ => JNull
       | inl orgText =>
           match JSON_parse orgText with
           | None | Some JNull => JNull
           | Some orgJson =>
               match nullish (getOpt (getOpt (Some orgJson) (js "result"))
                                     (js "НашаОрганизация")) (Some JNull) with
               | Some j => j
               | None => JNull
               end
           end
       end
   end, sent ++ [req]).

Definition handler (remote : Remote) (b : Body) (sent : list Request)
    : Reply * list Request :=
  let url := orString (baseUrl b) DEFAULT_AUTH_URL in
  match login b, password b with
  | Some ((_ :: _) as login), Some ((_ :: _) as password) =>
      let req := {| url := url;
                    method := js "POST";
                    ContentType := js "application/json; charset=UTF-8";
                    X_SBISSessionID := None;
                    body := Аутентифицировать login password |} in
      match remote sent req with
      | Rejected errorString => (ReplyError 500 errorString, sent ++ [req])
      | Responded response =>
          match text response with
          | inr errorString => (ReplyError 500 errorString, sent ++ [req])
          | inl text =>
              let parsed := match JSON_parse text with
                            | Some j => j
                            | None => JNull
                            end in
              let result := nullish (getOpt (Some parsed) (js "result"))
                                    (getOpt (Some parsed) (js "answer")) in
              let (ourOrgs, sent') :=
                match result with
                | Some (JString session) => listOurOrganizations remote session (sent ++ [req])
                | _ => (JNull, sent ++ [req])
                end in
              (ReplySummary
                 {| s_status := status response;
                    s_statusText := statusText response;
                    s_headers := headers response;
                    rawBody := text;
                    jsonBody := parsed;
                    sessionId := match result with
                                 | Some (JString session) => Some session
                                 | _ => None
                                 end;
                    ourOrganizations := ourOrgs |},
               sent')
          end
      end
  | _, _ => (ReplyError 400 msg_credentials, sent)
  end.

End AuthEndpoint.
End AuthEndpoint.

(** ** [SabyClient] *)

Module Client.
Section Client.
Context {RT : Runtime}.

Record Config := {
  baseUrl : jsstring;
  login : jsstring;
  password : jsstring
}.

(** The object: [this.config] and [this.token]. *)
Record SabyClient := {
  config : Config;
  token : value
}.

(** [new SabyClient(config)] *)
Definition new (c : Config) : SabyClient := {| config := c; token := Some JNull |}.

(** The object given to [JSON.stringify] as the body of a request. *)
Inductive Body : Type :=
| AuthBody (login password : jsstring)
| SendDocBody (meta : json Num) (file fileName : jsstring).

Record Request := {
  url : jsstring;
  method : jsstring;
  Authorization : option jsstring;
  ContentType : jsstring;
  body : Body
}.

(** A response; [res.json()] gives a value or fails with a message. *)
Record Response := {
  status : Z;
  statusText : jsstring;
  json_ : jsstring + json Num
}.

Definition ok (r : Response) : bool := (200 <=? status r) && (status r <=? 299).

Inductive FetchOutcome : Type :=
| Rejected (message : jsstring)
| Responded (r : Response).

(** The remote side. *)
Definition Remote : Type := list Request -> Request -> FetchOutcome.

(** The client object and the requests issued so far, oldest first. *)
Record State := {
  self : SabyClient;
  calls : list Request
}.

Definition M (A : Type) : Type := State -> (Error + A) * State.

Definition ret {A : Type} (a : A) : M A := fun st => (inr a, st).

Definition throw {A : Type} (e : Error) : M A := fun st => (inl e, st).

Definition bind {A B : Type} (m : M A) (k : A -> M B) : M B :=
  fun st => match m st with
            | (inl e, st') => (inl e, st')
            | (inr a, st') => k a st'
            end.

Definition fetch (remote : Remote) (req : Request) : M Response :=
  fun st =>
    let st' := {| self := self st; calls := calls st ++ [req] |} in
    match remote (calls st) req with
    | Rejected m => (inl (OtherError m), st')
    | Responded r => (inr r, st')
    end.

(** [this.token = t] *)
Definition setToken (t : value) : M unit :=
  fun st => (inr tt, {| self := {| config := config (self st); token := t |};
                        calls := calls st |}).

Definition getSelf : M SabyClient := fun st => (inr (self st), st).

(** [await res.json()] *)
Definition responseJson (r : Response) : M (json Num) :=
  match json_ r with
  | inl m => throw (OtherError m)
  | inr j => ret j
  end.

(** A value inside a template literal. *)
Definition interpolate (v : value) : jsstring :=
  match v with
  | Some j => toString j
  | None => js "undefined"
  end.

Definition authenticate (remote : Remote) : M value :=
  bind getSelf (fun this =>
  if isTruthy (token this) then ret (token this)
  else
    bind (fetch remote
            {| url := baseUrl (config this) ++ js "/auth";
               method := js "POST";
               Authorization := None;
               ContentType := js "application/json";
               body := AuthBody (login (config this)) (password (config this)) |})
      (fun res =>
       if negb (ok res) then
         throw (OtherError (js "Saby auth failed: " ++ numberToString (status res)
                            ++ js " " ++ statusText res))
       else
         bind (responseJson res) (fun data =>
         match data with
         | JNull => throw (OtherError (js "Cannot read properties of null (reading 'token')"))
         | _ =>
             bind (setToken (getOpt (Some data) (js "token"))) (fun _ =>
             bind getSelf (fun this => ret (token this)))
         end))).

Definition uploadDraftDocument (remote : Remote)
    (meta : json Num) (fileBuffer : list Z) (fileName : jsstring) : M (json Num) :=
  bind (authenticate remote) (fun token =>
  bind getSelf (fun this =>
  bind (fetch remote
          {| url := baseUrl (config this) ++ js "/edo/send_doc";
             method := js "POST";
             Authorization := Some (js "Bearer " ++ interpolate token);
             ContentType := js "application/json";
             body := SendDocBody meta (base64 fileBuffer) fileName |})
    (fun res =>
     if negb (ok res) then
       throw (OtherError (js "Upload draft failed: " ++ numberToString (status res)
                          ++ js " " ++ statusText res))
     else responseJson res))).

(** Whether a request is an authentication request. *)
Definition isAuthRequest (r : Request) : bool :=
  match body r with
  | AuthBody _ _ => true
  | SendDocBody _ _ _ => false
  end.

(** A call of a method on the client, and a sequence of such calls, each
    awaited before the next. *)
Inductive Call : Type :=
| CallAuthenticate
| CallUploadDraftDocument (meta : json Num) (fileBuffer : list Z) (fileName : jsstring).

Definition runCall (remote : Remote) (c : Call) : M value :=
  match c with
  | CallAuthenticate => authenticate remote
  | CallUploadDraftDocument meta fileBuffer fileName =>
      bind (uploadDraftDocument remote meta fileBuffer fileName) (fun j => ret (Some j))
  end.

Fixpoint runCalls (remote : Remote) (cs : list Call) (st : State)
    : list (Call * (Error + value)) * State :=
  match cs with
  | [] => ([], st)
  | c :: rest =>
      let (r, st') := runCall remote c st in
      let (rs, st'') := runCalls remote rest st' in
      ((c, r) :: rs, st'')
  end.

End Client.
End Client.

(** ** [loadDocumentForEdo] and the folder loop of the command line *)

Module Loader.
Section Loader.
Context {RT : Runtime}.

(** [/[/\\]/] *)
Definition isSeparator (c : Z) : bool := (c =? 47) || (c =? 92).

(** [s.split(re)] for a character class [re]: never empty. *)
Fixpoint splitBy (sep : Z -> bool) (s : jsstring) : list jsstring :=
  match s with
  | [] => [[]]
  | c :: r =>
      if sep c then [] :: splitBy sep r
      else match splitBy sep r with
           | p :: ps => (c :: p) :: ps
           | [] => [[c]]
           end
  end.

(** [pathToDoc.split(/[/\\]/).pop() || 'document.doc'] *)
Definition fileNameOf (pathToDoc : jsstring) : jsstring :=
  orString (Some (last (splitBy isSeparator pathToDoc) [])) (js "document.doc").

(** [readFile]: the bytes, or the message of the error. *)
Definition FileSystem : Type := jsstring -> jsstring + list Z.

Record Loaded := {
  filePath : jsstring;
  fileName : jsstring;
  sabyResult : json Num
}.

Definition loadDocumentForEdo (fs : FileSystem) (remote : Client.Remote)
    (pathToDoc : jsstring) (meta : json Num) : Client.M Loaded :=
  match fs pathToDoc with
  | inl m => Client.throw (OtherError m)
  | inr buffer =>
      let fileName := fileNameOf pathToDoc in
      Client.bind (Client.uploadDraftDocument remote meta buffer fileName) (fun result =>
      Client.ret {| filePath := pathToDoc; fileName := fileName; sabyResult := result |})
  end.

(** [/\.(docx?)$/i.test(name)] *)
Definition isDocName (name : jsstring) : bool :=
  match rev name with
  | x :: c :: o :: d :: dot :: _ =>
      (matchesIgnoreCase 88 x && matchesIgnoreCase 67 c && matchesIgnoreCase 79 o
       && matchesIgnoreCase 68 d && (dot =? 46))
      || (matchesIgnoreCase 67 x && matchesIgnoreCase 79 c && matchesIgnoreCase 68 o
          && (d =? 46))
  | [c; o; d; dot] =>
      matchesIgnoreCase 67 c && matchesIgnoreCase 79 o && matchesIgnoreCase 68 d
      && (dot =? 46)
  | _ => false
  end.

(** An element of [results] in the folder loop. *)
Record FolderEntry := {
  entry_file : jsstring;
  entry_ok : bool;
  entry_error : option jsstring
}.

(** The loop over [docFiles]: each file is loaded with the same client, a
    failure is caught and recorded.  What the loop prints is not modelled. *)
Fixpoint folderLoop (fs : FileSystem) (remote : Client.Remote) (meta : json Num)
    (docFiles : list jsstring) (results : list FolderEntry)
    : Client.State -> list FolderEntry * Client.State :=
  fun st =>
    match docFiles with
    | [] => (results, st)
    | filePath :: rest =>
        match loadDocumentForEdo fs remote filePath meta st with
        | (inr _, st') =>
            folderLoop fs remote meta rest
              (results ++ [{| entry_file := filePath; entry_ok := true;
                              entry_error := None |}]) st'
        | (inl error, st') =>
            folderLoop fs remote meta rest
              (results ++ [{| entry_file := filePath; entry_ok := false;
                              entry_error := Some (errorMessage error) |}]) st'
        end
    end.

(** [entries.filter(...).map((name) => path.join(folderPath, name))], with
    [path.join(folderPath, .)] as [joinFolder]. *)
Definition docFilesOf (joinFolder : jsstring -> jsstring) (entries : list jsstring)
    : list jsstring :=
  map joinFolder (filter isDocName entries).

(** [results.filter((r) => r.ok).length] *)
Definition successCount (results : list FolderEntry) : nat :=
  List.length (filter entry_ok results).

End Loader.
End Loader.

(** ** Reference calendar, from the words of the specification

    "ISO-8601 week number (Monday-start weeks, week 1 = the week containing
    the year's first Thursday)", over the proleptic Gregorian calendar.  Days
    are numbered from 1970-01-01 (a Thursday), which is day 0. *)

Module Calendar.

Definition isLeap (y : Z) : bool :=
  (y mod 4 =? 0) && (negb (y mod 100 =? 0) || (y mod 400 =? 0)).

Definition daysInMonth (y m : Z) : Z :=
  match m with
  | 1 => 31 | 2 => if isLeap y then 29 else 28 | 3 => 31 | 4 => 30 | 5 => 31
  | 6 => 30 | 7 => 31 | 8 => 31 | 9 => 30 | 10 => 31 | 11 => 30 | 12 => 31
  | _ => 0
  end.

(** The components form a calendar date. *)
Definition validDate (y m d : Z) : bool :=
  (1 <=? m) && (m <=? 12) && (1 <=? d) && (d <=? daysInMonth y m).

(** Days of the months before month [m] of year [y]. *)
Definition daysBeforeMonth (y m : Z) : Z :=
  fold_right Z.add 0
    (map (fun k => daysInMonth y (Z.of_nat k)) (seq 1 (Z.to_nat (m - 1)))).

(** Number of the day [y]-[m]-[d]. *)
Definition dayNumber (y m d : Z) : Z :=
  DayFromYear y + daysBeforeMonth y m + (d - 1).

(** 1 is Monday, 7 is Sunday. *)
Definition isoWeekday (n : Z) : Z := (n + 3) mod 7 + 1.

(** The Thursday of the Monday-start week of day [n]. *)
Definition weekThursday (n : Z) : Z := n - isoWeekday n + 4.

(** The calendar year a day falls in. *)
Definition yearOfDay (n : Z) : Z := YearFromTime (n * msPerDay).

(** The week-numbering year: the year of the week's Thursday. *)
Definition isoYear (n : Z) : Z := yearOfDay (weekThursday n).

(** The Thursdays among the [len] days from day [a] on. *)
Definition thursdaysFrom (a : Z) (len : nat) : list Z :=
  filter (fun n => isoWeekday n =? 4) (map (fun i => a + Z.of_nat i) (seq 0 len)).

(** The week of day [n] is week [k] of its week-numbering year when its
    Thursday is the [k]-th Thursday of that year. *)
Definition isoWeek (n : Z) : Z :=
  let th := weekThursday n in
  let jan1 := DayFromYear (isoYear n) in
  Z.of_nat (List.length (thursdaysFrom jan1 (Z.to_nat (th - jan1 + 1)))).

End Calendar.

(** [w] occurs in [s] as a substring. *)
Definition occursIn (w s : jsstring) : Prop := exists pre post, s = pre ++ w ++ post.

(** [w] has the shape DD-MM-YYYY of the regular expression. *)
Definition dateShaped (w : jsstring) : Prop :=
  exists dd mm yyyy,
    w = dd ++ [45] ++ mm ++ [45] ++ yyyy /\
    List.length dd = 2%nat /\ List.length mm = 2%nat /\ List.length yyyy = 4%nat /\
    forallb isDigit (dd ++ mm ++ yyyy) = true.

(** [dd]-[mm]-[yyyy] is the leftmost DD-MM-YYYY-shaped substring of [name]. *)
Definition leftmostDate (name dd mm yyyy : jsstring) : Prop :=
  exists pre post,
    name = pre ++ (dd ++ [45] ++ mm ++ [45] ++ yyyy) ++ post /\
    List.length dd = 2%nat /\ List.length mm = 2%nat /\ List.length yyyy = 4%nat /\
    forallb isDigit (dd ++ mm ++ yyyy) = true /\
    forall w pre' post', dateShaped w -> name = pre' ++ w ++ post' ->
                         (List.length pre <= List.length pre')%nat.

(** The DD-MM-YYYY-shaped substrings of [s], from left to right. *)
Fixpoint allDates (s : jsstring) : list (jsstring * jsstring * jsstring) :=
  match matchDateHere s with Some r => [r] | None => [] end
  ++ match s with
     | [] => []
     | _ :: r => allDates r
     end.

Definition twoDatesName : jsstring := js "01-01-2021 15-03-2024.docx".

Definition day32Name : jsstring := js "32-01-2024.docx".

Definition reportName : jsstring :=
  js "Отчет ИНН7712345678 КПП771201001 15-03-2024.docx".

(** ** Notions used to state the properties of [performUpload] *)

(** The date [performUpload] converts: the one given, or the first ten
    characters of the clock's ISO string. *)
Definition todayOf (env : Env) (p : UploadParams) (w : World) : jsstring :=
  match date p with
  | Some (c :: r) => c :: r
  | _ => slice0 10 (clock env (clockReads w))
  end.

(** The counterparty as [performUpload] gives it to [buildParticipant]. *)
Definition counterpartyInput (p : UploadParams) (clientInn : jsstring) : ParticipantInput :=
  {| inn := Some (stripWhitespace clientInn);
     kpp := option_map trim (kpp (client p));
     lastName := lastName (client p);
     firstName := firstName (client p);
     middleName := middleName (client p);
     snils := snils (client p) |}.

(** ** Sample data *)

(** The text [{"result":{"Идентификатор":"doc-1"}}]. *)
Definition okBody : jsstring :=
  [123; 34] ++ js "result" ++ [34; 58; 123; 34] ++ js "Идентификатор"
  ++ [34; 58; 34] ++ js "doc-1" ++ [34; 125; 125].

(** An engine whose numbers are integers and whose [JSON.parse] knows the
    one text [okBody]. *)
Definition sampleRuntime : Runtime :=
  {| Num := Z;
     numTruthy := fun n => negb (n =? 0);
     numToString := numberToString;
     JSON_parse := fun t =>
       if list_eq_dec Z.eq_dec t okBody
       then Some (JObject [(js "result",
                            JObject [(js "Идентификатор", JString (js "doc-1"))])])
       else None |}.

Definition sampleUuid (n : nat) : jsstring :=
  js "00000000-0000-4000-8000-00000000000" ++ numberToString (Z.of_nat n mod 10).

(** A remote side that answers every request with 200 and [okBody]. *)
Definition acceptingEnv : Env :=
  {| respond := fun _ _ => Responded {| status := 200; statusText := js "OK";
                                        text := inl okBody |};
     uuid := sampleUuid;
     clock := fun _ => js "2024-03-18T09:30:00.000Z" |}.

(** A remote side that answers 200 with a page that is not JSON. *)
Definition htmlEnv : Env :=
  {| respond := fun _ _ => Responded {| status := 200; statusText := js "OK";
                                        text := inl (js "<html>maintenance</html>") |};
     uuid := sampleUuid;
     clock := fun _ => js "2024-03-18T09:30:00.000Z" |}.

Definition world0 : World := {| calls := []; uuidsDrawn := 0; clockReads := 0 |}.

Definition sampleFile : UploadedFile :=
  {| originalname := bytes_of "Отчет ИНН7712345678 КПП771201001 15-03-2024.docx";
     buffer := bytes_of "Man" |}.

Definition noParticipant : ParticipantInput :=
  {| inn := None; kpp := None; lastName := None; firstName := None;
     middleName := None; snils := None |}.

(** Counterparty: an organization with its КПП; our side: an organization
    without КПП; a note and a date are given. *)
Definition sampleParams : UploadParams :=
  {| sessionId := Some (js "session-1");
     docBaseUrl := None;
     client := {| inn := Some (js "7712345678"); kpp := Some (js "771201001");
                  lastName := None; firstName := None; middleName := None;
                  snils := None |};
     our := onlyInn (js "77 0708 3893");
     docType := None;
     number := Some (js "17");
     date := Some (js "2024-03-15");
     note := Some (js "  Акт сверки ");
     file := Some sampleFile |}.

(** An individual as counterparty; no note, no date. *)
Definition sampleParamsNoDate : UploadParams :=
  {| sessionId := Some (js "session-1");
     docBaseUrl := Some (js " https://example.test/service/ ");
     client := onlyInn (js "500100732259");
     our := onlyInn (js "7707083893");
     docType := None; number := None; date := None; note := None;
     file := Some sampleFile |}.

(** The same without the КПП of the counterparty. *)
Definition paramsWithoutKpp : UploadParams :=
  {| sessionId := Some (js "session-1");
     docBaseUrl := None;
     client := onlyInn (js "7712 345 678");
     our := onlyInn (js "7707083893");
     docType := None; number := None; date := None; note := None;
     file := Some sampleFile |}.

(** ** Dates on the wire *)

(** Modelled from the spec: the conversion from DD.MM.YYYY back to
    YYYY-MM-DD of the round-trip property.  No source file has it; it is
    the conversion of the code with the two separators exchanged. *)
Definition fromWireDate (s : jsstring) : jsstring := join [45] (rev (split 46 s)).

(** [s] is [yyyy]-[mm]-[dd] with digits for the three components. *)
Definition isoDateString (s yyyy mm dd : jsstring) : Prop :=
  s = yyyy ++ [45] ++ mm ++ [45] ++ dd /\
  List.length yyyy = 4%nat /\ List.length mm = 2%nat /\ List.length dd = 2%nat /\
  forallb isDigit (yyyy ++ mm ++ dd) = true.

(** ** Notions used to state the properties of the batch *)

Section BatchNotions.
Context {RT : Runtime}.

(** The world after the loop has gone through [files]. *)
Definition worldAfter (env : Env) (body : BatchBody) (files : list UploadedFile)
    (w : World) : World :=
  snd (batchLoop env body files [] w).

(** No tax id can be read from the name of the file. *)
Definition hasNoInn (f : UploadedFile) : Prop :=
  truthy (fst (parseInnKppFromFilename (orString (Some (originalname f)) []))) = false.

(** The parameters the loop gives to [performUpload] for [f]. *)
Definition itemParams (body : BatchBody) (f : UploadedFile) : UploadParams :=
  let parsed := parseInnKppFromFilename (orString (Some (originalname f)) []) in
  batchParams body f (fst parsed) (snd parsed).

Definition failedEntry (f : UploadedFile) (message : jsstring) : BatchEntry :=
  {| fileName := originalname f; entry_ok := false; entry_documentId := None;
     entry_error := Some message |}.

End BatchNotions.

Definition sampleBody : BatchBody :=
  {| body_docBaseUrl := None; body_sessionId := Some (js "session-1");
     ourInn := Some (js "7707083893"); ourKpp := None; ourLastName := None;
     ourFirstName := None; ourMiddleName := None; ourSnils := None;
     body_docType := None; body_number := None; body_date := Some (js "2024-03-15");
     body_note := None |}.

Definition fileNamed (name : string) : UploadedFile :=
  {| originalname := bytes_of name; buffer := bytes_of "Man" |}.

(** An individual, a name without tax id, an organization without КПП, an
    organization with its КПП. *)
Definition sampleFiles : list UploadedFile :=
  [ fileNamed "акт ИНН500100732259.docx";
    fileNamed "без реквизитов.docx";
    fileNamed "ИНН7712345678 15-03-2024.docx";
    sampleFile ].

(** ** Sample client *)

Definition sampleConfig : Client.Config :=
  {| Client.baseUrl := js "https://api.example.test";
     Client.login := js "user"; Client.password := js "secret" |}.

(** A remote side that gives the token "tok-1" to an authentication request
    and an empty object to any other request. *)
Definition sampleRemote : Client.Remote (RT := sampleRuntime) :=
  fun _ req =>
    Client.Responded
      {| Client.status := 200; Client.statusText := js "OK";
         Client.json_ :=
           if Client.isAuthRequest req
           then inr (JObject [(js "token", JString (js "tok-1"))])
           else inr (JObject []) |}.

Definition freshClient : Client.State (RT := sampleRuntime) :=
  {| Client.self := Client.new sampleConfig; Client.calls := [] |}.

(** ** Further notions for the properties of the code *)

(** The day that [day]-[month]-[year] denotes when neither the month nor
    the day is checked: the first of the month, months beyond 1..12 carried
    into the year, and [day - 1] days from there. *)
Definition rolledDayNumber (year month day : Z) : Z :=
  Calendar.dayNumber (year + (month - 1) / 12) ((month - 1) mod 12 + 1) 1 + (day - 1).

(** A string that neither starts nor ends with white space. *)
Definition trimmedString (f : jsstring) : Prop :=
  (forall c r, f = c :: r -> isWhiteSpace c = false) /\
  (forall c r, f = r ++ [c] -> isWhiteSpace c = false).

(** The optional fields of a participant record. *)
Definition optionalFields (r : Participant) : list (option jsstring) :=
  match r with
  | СвЮЛ _ k => [k]
  | СвФЛ _ a b c d => [a; b; c; d]
  end.

Definition taxIdOf (r : Participant) : jsstring :=
  match r with
  | СвЮЛ n _ => n
  | СвФЛ n _ _ _ _ => n
  end.

Definition sampleOrganizationRecord : Participant :=
  СвЮЛ (js "7712345678") (Some (js "771201001")).

Definition blankKppInput : ParticipantInput :=
  {| inn := Some (js "7712345678"); kpp := Some (js "   ");
     lastName := Some (js "Иванов"); firstName := None; middleName := None;
     snils := None |}.

(** The world after [fetch] was given [req]. *)
Definition afterFetch (w : World) (req : Request) : World :=
  {| calls := calls w ++ [req]; uuidsDrawn := uuidsDrawn w; clockReads := clockReads w |}.

(** The identifiers a request carries: that of the document, then those of
    its attachments. *)
Definition idsOfRequest (req : Request) : list jsstring :=
  Идентификатор (params_Документ (req_body req))
  :: map att_Идентификатор (Вложение (params_Документ (req_body req))).

Definition idsSent (w : World) : list jsstring := flat_map idsOfRequest (calls w).

(** Every UUID drawn so far is in a request that was sent, in the order
    drawn, and the requests carry nothing else. *)
Definition idsAccounted (env : Env) (w : World) : Prop :=
  idsSent w = map (uuid env) (seq 0 (uuidsDrawn w)).

(** A ten-character tax id that is no number, and no КПП. *)
Definition paramsLettersInn : UploadParams :=
  {| sessionId := Some (js "session-1");
     docBaseUrl := None;
     client := onlyInn (js "ABCDEFGHIJ");
     our := onlyInn (js "no digits");
     docType := None; number := None; date := None; note := None;
     file := Some sampleFile |}.




(** A remote side that cannot be reached. *)
Definition unreachableEnv : Env :=
  {| respond := fun _ _ => Rejected (js "connect ECONNREFUSED");
     uuid := sampleUuid;
     clock := fun _ => js "2024-03-18T09:30:00.000Z" |}.

(** A tax id can be read from the name of the file. *)
Definition hasInnb (f : UploadedFile) : bool :=
  truthy (fst (parseInnKppFromFilename (orString (Some (originalname f)) []))).


Definition bodyWithoutSession : BatchBody :=
  {| body_docBaseUrl := None; body_sessionId := None;
     ourInn := Some (js "7707083893"); ourKpp := None; ourLastName := None;
     ourFirstName := None; ourMiddleName := None; ourSnils := None;
     body_docType := None; body_number := None; body_date := None;
     body_note := None |}.

(** [l] is a label of three letters, matched without regard to case. *)
Definition labelMatches (a b c : Z) (l : jsstring) : Prop :=
  exists x y z, l = [x; y; z] /\ matchesIgnoreCase a x = true /\
                matchesIgnoreCase b y = true /\ matchesIgnoreCase c z = true.

(** In [s], after the prefix [pre], comes the label and then the [n] digits [d]. *)
Definition labelledDigits (a b c : Z) (n : nat) (s pre d : jsstring) : Prop :=
  exists l post, s = pre ++ l ++ d ++ post /\ labelMatches a b c l /\
                 List.length d = n /\ forallb isDigit d = true.

Definition fileIndividual : UploadedFile := fileNamed "акт ИНН500100732259.docx".

Definition fileWithoutInn : UploadedFile := fileNamed "без реквизитов.docx".

Definition fileOrganizationNoKpp : UploadedFile := fileNamed "ИНН7712345678 15-03-2024.docx".

(** ** Notions for the authentication endpoint *)

Section AuthNotions.
Context {RT : Runtime}.

(** The first request of the handler. *)
Definition authRequestOf (b : AuthEndpoint.Body) (login password : jsstring)
    : AuthEndpoint.Request :=
  {| AuthEndpoint.url := orString (AuthEndpoint.baseUrl b) AuthEndpoint.DEFAULT_AUTH_URL;
     AuthEndpoint.method := js "POST";
     AuthEndpoint.ContentType := js "application/json; charset=UTF-8";
     AuthEndpoint.X_SBISSessionID := None;
     AuthEndpoint.body := AuthEndpoint.Аутентифицировать login password |}.

(** The request for the list of our organizations. *)
Definition orgRequestOf (session : jsstring) : AuthEndpoint.Request :=
  {| AuthEndpoint.url := DEFAULT_SERVICE_URL;
     AuthEndpoint.method := js "POST";
     AuthEndpoint.ContentType := js "application/json; charset=UTF-8";
     AuthEndpoint.X_SBISSessionID := Some session;
     AuthEndpoint.body := AuthEndpoint.СписокНашихОрганизаций |}.

(** [json?.result ?? json?.answer] for the text of the first answer. *)
Definition authResultOf (t : jsstring) : value :=
  let parsed := match JSON_parse t with Some j => j | None => JNull end in
  AuthEndpoint.nullish (getOpt (Some parsed) (js "result")) (getOpt (Some parsed) (js "answer")).

End AuthNotions.

(** The texts [{"result":"sid-7"}] and [{"answer":null}]. *)
Definition sessionBody : jsstring :=
  [123; 34] ++ js "result" ++ [34; 58; 34] ++ js "sid-7" ++ [34; 125].

Definition authRuntime : Runtime :=
  {| Num := Z;
     numTruthy := fun n => negb (n =? 0);
     numToString := numberToString;
     JSON_parse := fun t =>
       if list_eq_dec Z.eq_dec t sessionBody
       then Some (JObject [(js "result", JString (js "sid-7"))])
       else None |}.

(** The authentication answers 200 with a session; the list of
    organizations cannot be reached. *)
Definition authRemote : AuthEndpoint.Remote :=
  fun _ req =>
    match AuthEndpoint.body req with
    | AuthEndpoint.Аутентифицировать _ _ =>
        AuthEndpoint.Responded
          {| AuthEndpoint.status := 200; AuthEndpoint.statusText := js "OK";
             AuthEndpoint.headers := [(js "content-type", js "application/json")];
             AuthEndpoint.text := inl sessionBody |}
    | AuthEndpoint.СписокНашихОрганизаций =>
        AuthEndpoint.Rejected (js "FetchError: network timeout")
    end.

Definition authBody : AuthEndpoint.Body :=
  {| AuthEndpoint.baseUrl := None; AuthEndpoint.login := Some (js "user");
     AuthEndpoint.password := Some (js "secret") |}.

(** ** Notions for [SabyClient] *)

Section ClientNotions.
Context {RT : Runtime}.

(** The request of [authenticate]. *)
Definition clientAuthRequest (c : Client.Config) : Client.Request :=
  {| Client.url := Client.baseUrl c ++ js "/auth";
     Client.method := js "POST";
     Client.Authorization := None;
     Client.ContentType := js "application/json";
     Client.body := Client.AuthBody (Client.login c) (Client.password c) |}.

(** The request of [uploadDraftDocument] with the token [t]. *)
Definition clientUploadRequest (c : Client.Config) (t : value)
    (meta : json Num) (fileBuffer : list Z) (fileName : jsstring) : Client.Request :=
  {| Client.url := Client.baseUrl c ++ js "/edo/send_doc";
     Client.method := js "POST";
     Client.Authorization := Some (js "Bearer " ++ Client.interpolate t);
     Client.ContentType := js "application/json";
     Client.body := Client.SendDocBody meta (base64 fileBuffer) fileName |}.

(** The state after one more request. *)
Definition afterRequest (st : Client.State) (req : Client.Request) : Client.State :=
  {| Client.self := Client.self st; Client.calls := Client.calls st ++ [req] |}.

End ClientNotions.

(** A remote side that cannot be reached. *)
Definition unreachableRemote : Client.Remote (RT := sampleRuntime) :=
  fun _ _ => Client.Rejected (js "connect ECONNREFUSED").

(** A remote side whose answers are empty objects: no token in them. *)
Definition tokenlessRemote : Client.Remote (RT := sampleRuntime) :=
  fun _ _ =>
    Client.Responded
      {| Client.status := 200; Client.statusText := js "OK";
         Client.json_ := inr (JObject []) |}.

(** ** Notions for the loader and the folder loop *)

Section LoaderNotions.
Context {RT : Runtime}.

Definition authCount (rs : list Client.Request) : nat :=
  List.length (filter Client.isAuthRequest rs).

Definition uploadCount (rs : list Client.Request) : nat :=
  List.length (filter (fun r => negb (Client.isAuthRequest r)) rs).


(** A name that is [.doc] or [.docx] in any case and nothing else. *)
Definition isDocExtension (ext : jsstring) : bool :=
  match ext with
  | [dot; d; o; c] =>
      (dot =? 46) && matchesIgnoreCase 68 d && matchesIgnoreCase 79 o
      && matchesIgnoreCase 67 c
  | [dot; d; o; c; x] =>
      (dot =? 46) && matchesIgnoreCase 68 d && matchesIgnoreCase 79 o
      && matchesIgnoreCase 67 c && matchesIgnoreCase 88 x
  | _ => false
  end.

End LoaderNotions.



(** ** UTF-8, for the file names *)

(** A Unicode scalar value: a code point that is no surrogate. *)
Definition isScalar (c : Z) : bool :=
  ((0 <=? c) && (c <? 0xD800)) || ((0xE000 <=? c) && (c <=? 0x10FFFF)).

(** The UTF-8 encoding of a scalar value. *)
Definition utf8_encode (c : Z) : list Z :=
  if c <? 0x80 then [c]
  else if c <? 0x800 then [0xC0 + c / 64; 0x80 + c mod 64]
  else if c <? 0x10000 then
    [0xE0 + c / 4096; 0x80 + (c / 64) mod 64; 0x80 + c mod 64]
  else
    [0xF0 + c / 262144; 0x80 + (c / 4096) mod 64; 0x80 + (c / 64) mod 64;
     0x80 + c mod 64].

(** The text "отчёт.docx" as code points. *)
Definition reportCodePoints : list Z :=
  [1086; 1090; 1095; 1105; 1090; 46; 100; 111; 99; 120].

Example js_ascii : js "ab 1" = [97; 98; 32; 49].
Proof. reflexivity. Qed.

Example js_cyrillic : js "ИНН" = [0x418; 0x41D; 0x41D].
Proof. reflexivity. Qed.

Example trim_ex : trim (32 :: 9 :: js "a b" ++ [0xA0; 10]) = js "a b".
Proof. reflexivity. Qed.

Example split_ex : split 45 (js "2024-03-15") = [js "2024"; js "03"; js "15"].
Proof. reflexivity. Qed.

Example numberToString_ex : numberToString 53 = js "53" /\ numberToString (-7) = js "-7"
  /\ numberToString 0 = js "0".
Proof. repeat split; reflexivity. Qed.

Example buildParticipant_org :
  buildParticipant {| inn := Some (js "77 1234 5678"); kpp := Some (js " 771201001 ");
                      lastName := None; firstName := None; middleName := None;
                      snils := None |}
  = inr (СвЮЛ (js "7712345678") (Some (js "771201001"))).
Proof. reflexivity. Qed.

Example buildParticipant_person :
  buildParticipant (onlyInn (js "500100732259"))
  = inr (СвФЛ (js "500100732259") None None None None).
Proof. reflexivity. Qed.

Example buildParticipant_short :
  buildParticipant (onlyInn (js "12345")) = inl (HttpError 400 msg_inn_length).
Proof. reflexivity. Qed.

(** Stripping white space twice is stripping it once. *)
Lemma stripWhitespace_idem (s : jsstring) :
  stripWhitespace (stripWhitespace s) = stripWhitespace s.
Proof.
  unfold stripWhitespace. induction s as [|c s IH]; [reflexivity|].
  simpl. destruct (isWhiteSpace c) eqn:W; simpl; [exact IH|].
  rewrite W. simpl. f_equal. exact IH.
Qed.

Lemma allDigits1_forallb (s : jsstring) :
  s <> [] -> allDigits1 s = forallb isDigit s.
Proof. destruct s; [congruence | reflexivity]. Qed.

Lemma spreadTrimmed_present (x : jsstring) :
  x <> [] -> spreadTrimmed (Some x) = Some (trim x).
Proof. destruct x; [congruence | reflexivity]. Qed.

Lemma spreadTrimmed_absent (x : option jsstring) :
  truthy x = false -> spreadTrimmed x = None.
Proof. destruct x as [[|c r]|]; simpl; congruence. Qed.

Lemma buildParticipant_unfold (p : ParticipantInput) (s : jsstring) :
  inn p = Some s -> s <> [] ->
  buildParticipant p =
    let n := stripWhitespace s in
    if negb (allDigits1 n) then inl (HttpError 400 msg_inn_digits)
    else if (List.length n =? 10)%nat then inr (СвЮЛ n (spreadTrimmed (kpp p)))
    else if (List.length n =? 12)%nat then
      inr (СвФЛ n (spreadTrimmed (lastName p)) (spreadTrimmed (firstName p))
             (spreadTrimmed (middleName p)) (spreadTrimmed (snils p)))
    else inl (HttpError 400 msg_inn_length).
Proof.
  intros E Hs. unfold buildParticipant. rewrite E.
  destruct s; [congruence | reflexivity].
Qed.

(** C1. [buildParticipant]: with [n] the tax id without its white space,
    a digits-only [n] of length 10 gives the [СвЮЛ] (organization) record
    with the registration code trimmed and attached when it is present,
    length 12 gives the [СвФЛ] (individual) record with each present name or
    insurance field trimmed and attached, every other length is a validation
    error; an absent tax id is a validation error, and so is a non-digit
    left in [n].  A field is present when it is a non-empty string. *)
Theorem C1_buildParticipant_by_length (p : ParticipantInput) :
  (truthy (inn p) = false -> isValidationError (buildParticipant p)) /\
  (forall s, inn p = Some s -> s <> [] ->
     let n := stripWhitespace s in
     (forallb isDigit n = true ->
        (List.length n = 10%nat ->
           buildParticipant p = inr (СвЮЛ n (spreadTrimmed (kpp p)))) /\
        (List.length n = 12%nat ->
           buildParticipant p =
             inr (СвФЛ n (spreadTrimmed (lastName p)) (spreadTrimmed (firstName p))
                    (spreadTrimmed (middleName p)) (spreadTrimmed (snils p)))) /\
        (List.length n <> 10%nat -> List.length n <> 12%nat ->
           isValidationError (buildParticipant p))) /\
     (forallb isDigit n = false -> isValidationError (buildParticipant p))) /\
  (forall x, x <> [] -> spreadTrimmed (Some x) = Some (trim x)) /\
  (forall x, truthy x = false -> spreadTrimmed x = None).
Proof.
  split; [|split; [|split]].
  - unfold buildParticipant, isValidationError.
    destruct (inn p) as [[|c r]|]; simpl; intros H; try discriminate; eauto.
  - intros s E Hs. cbv zeta. rewrite (buildParticipant_unfold p s E Hs). cbv zeta.
    generalize (stripWhitespace s) as n. intros n.
    split.
    + intros Hd.
      destruct n as [|c r].
      * simpl. repeat split; try discriminate. intros _ _. red; eauto.
      * rewrite allDigits1_forallb by discriminate. rewrite Hd. simpl negb. cbv beta iota.
        repeat split.
        -- intros L. rewrite L. reflexivity.
        -- intros L. rewrite L. reflexivity.
        -- intros L1 L2.
           destruct (Nat.eqb_spec (List.length (c :: r)) 10); [contradiction|].
           destruct (Nat.eqb_spec (List.length (c :: r)) 12); [contradiction|].
           red; eauto.
    + intros Hd. destruct n as [|c r]; [discriminate Hd|].
      rewrite allDigits1_forallb by discriminate. rewrite Hd.
      simpl negb. cbv iota. red; eauto.
  - apply spreadTrimmed_present.
  - apply spreadTrimmed_absent.
Qed.

Lemma C1_buildParticipant_by_length_witness :
  buildParticipant sampleOrganization
    = inr (СвЮЛ (js "7712345678") (Some (js "771201001"))) /\
  buildParticipant sampleIndividual
    = inr (СвФЛ (js "500100732259") (Some (js "Иванов")) (Some (js "Иван")) None None) /\
  isValidationError (buildParticipant (onlyInn (js "12345678901"))) /\
  isValidationError (buildParticipant (onlyInn (js "77O1234567"))) /\
  isValidationError (buildParticipant (onlyInn [])).
Proof.
  split; [|split; [|split; [|split]]].
  - destruct (C1_buildParticipant_by_length sampleOrganization) as [_ [H _]].
    destruct (H (js "77 1234 5678") eq_refl) as [Hd _]; [discriminate|].
    destruct (Hd eq_refl) as [H10 _]. exact (H10 eq_refl).
  - destruct (C1_buildParticipant_by_length sampleIndividual) as [_ [H _]].
    destruct (H (js "500100732259") eq_refl) as [Hd _]; [discriminate|].
    destruct (Hd eq_refl) as [_ [H12 _]]. exact (H12 eq_refl).
  - destruct (C1_buildParticipant_by_length (onlyInn (js "12345678901"))) as [_ [H _]].
    destruct (H (js "12345678901") eq_refl) as [Hd _]; [discriminate|].
    destruct (Hd eq_refl) as [_ [_ Hother]]. apply Hother; discriminate.
  - destruct (C1_buildParticipant_by_length (onlyInn (js "77O1234567"))) as [_ [H _]].
    destruct (H (js "77O1234567") eq_refl) as [_ Hnd]; [discriminate|].
    exact (Hnd eq_refl).
  - destruct (C1_buildParticipant_by_length (onlyInn [])) as [Habs _].
    exact (Habs eq_refl).
Defined.

Example week_2021_01_01 :
  extractWeekDescription (js "отчет 01-01-2021.docx") = Some (weekLabel (Some 53)).
Proof. vm_compute. reflexivity. Qed.

Example week_2024_03_15 :
  extractWeekDescription (js "Отчет ИНН7712345678 КПП771201001 15-03-2024.docx")
  = Some (js "Еженедельный отчет по выручке и наценке (11 неделя)").
Proof. vm_compute. reflexivity. Qed.

Example week_no_date : extractWeekDescription (js "report 2024-03-15.docx") = None.
Proof. vm_compute. reflexivity. Qed.

(** ** Dates and ISO weeks *)

Example calendar_anchor_dates :
  Calendar.isoWeek (Calendar.dayNumber 2021 1 1) = 53 /\
  Calendar.isoYear (Calendar.dayNumber 2021 1 1) = 2020 /\
  Calendar.isoWeek (Calendar.dayNumber 2024 3 15) = 11 /\
  Calendar.isoWeek (Calendar.dayNumber 2026 1 1) = 1 /\
  Calendar.isoWeek (Calendar.dayNumber 1 1 7) = 1 /\
  Calendar.dayNumber 1970 1 1 = 0 /\ Calendar.dayNumber 2024 3 15 = 19797.
Proof. vm_compute. repeat split. Qed.

Lemma YearFromDay_bounds (d : Z) :
  let e := 1970 + (400 * d) / 146097 in
  DayFromYear (e - 1) <= d < DayFromYear (e + 2).
Proof.
  intros e. subst e. unfold DayFromYear. Z.div_mod_to_equations. lia.
Qed.

(** [YearFromTime t] is the year [t] falls in. *)
Lemma YearFromTime_spec (t : Z) :
  DayFromYear (YearFromTime t) <= Day t < DayFromYear (YearFromTime t + 1).
Proof.
  unfold YearFromTime.
  pose proof (YearFromDay_bounds (Day t)) as H. cbv zeta in *.
  generalize dependent (Day t). intros d H.
  set (e := 1970 + 400 * d / 146097) in *.
  destruct (Z.leb_spec (DayFromYear (e + 1)) d).
  - replace (e + 1 + 1) with (e + 2) by lia. lia.
  - destruct (Z.leb_spec (DayFromYear e) d).
    + lia.
    + replace (e - 1 + 1) with e by lia. lia.
Qed.

Lemma DayFromYear_mono (a b : Z) : a <= b -> DayFromYear a <= DayFromYear b.
Proof. unfold DayFromYear. intros. Z.div_mod_to_equations. lia. Qed.

(** It is the largest such year, as the ECMAScript specification defines it. *)
Lemma YearFromTime_largest (t y : Z) :
  DayFromYear y <= Day t -> y <= YearFromTime t.
Proof.
  intros H. destruct (Z_le_gt_dec y (YearFromTime t)) as [|G]; [assumption|].
  pose proof (YearFromTime_spec t) as [_ U].
  pose proof (DayFromYear_mono (YearFromTime t + 1) y ltac:(lia)). lia.
Qed.

Lemma Day_of_days (n : Z) : Day (n * msPerDay) = n.
Proof. unfold Day, msPerDay. apply Z.div_mul. discriminate. Qed.

Lemma TimeWithinDay_of_days (n : Z) : TimeWithinDay (n * msPerDay) = 0.
Proof. unfold TimeWithinDay, msPerDay. apply Z.mod_mul. discriminate. Qed.

Lemma MonthFromTime_range (t : Z) : 0 <= MonthFromTime t <= 11.
Proof.
  unfold MonthFromTime. cbv zeta.
  repeat match goal with |- context [if ?b then _ else _] => destruct b end; lia.
Qed.

(** The day [MakeDay] finds from the fields of [t] with another day of the month. *)
Lemma MakeDay_of_time (t dt : Z) :
  MakeDay (YearFromTime t) (MonthFromTime t) dt = Day t + (dt - DateFromTime t).
Proof.
  pose proof (MonthFromTime_range t) as R.
  unfold MakeDay, DateFromTime, DayWithinYear, InLeapYear. cbv zeta.
  rewrite (Z.div_small (MonthFromTime t) 12) by lia.
  rewrite (Z.mod_small (MonthFromTime t) 12) by lia.
  rewrite Z.add_0_r. lia.
Qed.

(** [d.setUTCDate(d.getUTCDate() + k)] moves [d] by [k] days. *)
Lemma setUTCDate_shift (t k : Z) :
  setUTCDate t (getUTCDate t + k) = TimeClip (t + k * msPerDay).
Proof.
  unfold setUTCDate, getUTCDate. rewrite MakeDay_of_time. f_equal.
  unfold MakeDate, Day, TimeWithinDay, msPerDay.
  pose proof (Z.div_mod t 86400000 ltac:(discriminate)). lia.
Qed.

Lemma TimeClip_days (n : Z) :
  -100000000 <= n <= 100000000 -> TimeClip (n * msPerDay) = Some (n * msPerDay).
Proof.
  intros H. unfold TimeClip, msPerDay.
  destruct (Z.leb_spec (Z.abs (n * 86400000)) 8640000000000000); [reflexivity | lia].
Qed.

Lemma daysBeforeMonth_monthStart (y m : Z) :
  1 <= m <= 12 ->
  Calendar.daysBeforeMonth y m = monthStart (DaysInYear y - 365) (m - 1).
Proof.
  intros H.
  assert (m = 1 \/ m = 2 \/ m = 3 \/ m = 4 \/ m = 5 \/ m = 6 \/ m = 7 \/ m = 8
          \/ m = 9 \/ m = 10 \/ m = 11 \/ m = 12) as C by lia.
  unfold Calendar.daysBeforeMonth, Calendar.daysInMonth, Calendar.isLeap, DaysInYear.
  generalize ((y mod 4 =? 0) && (negb (y mod 100 =? 0) || (y mod 400 =? 0))).
  intros leap.
  repeat (destruct C as [C | C]); subst m; destruct leap; vm_compute; reflexivity.
Qed.

Lemma DayFromYear_bounds (y : Z) :
  0 <= y <= 10001 -> -720000 <= DayFromYear y <= 2940000.
Proof. intros H. unfold DayFromYear. Z.div_mod_to_equations. lia. Qed.

Lemma monthStart_bounds (l m : Z) : 0 <= l <= 1 -> 0 <= monthStart l m <= 335.
Proof.
  intros H. unfold monthStart.
  repeat match goal with |- context [match ?x with _ => _ end] => destruct x end; lia.
Qed.

Lemma DaysInYear_cases (y : Z) : 0 <= DaysInYear y - 365 <= 1.
Proof. unfold DaysInYear. destruct (_ && _); lia. Qed.

(** [Date.UTC] on a calendar date from year 100 on: the midnight of its day.
    The day of the month is not checked against the month. *)
Lemma Date_UTC_dayNumber (y m d : Z) :
  100 <= y <= 9999 -> 1 <= m <= 12 -> 0 <= d <= 99 ->
  Date_UTC y (m - 1) d = Some (Calendar.dayNumber y m d * msPerDay).
Proof.
  intros Hy Hm Hd. unfold Date_UTC.
  destruct (Z.leb_spec y 99) as [L|_]; [lia|]. rewrite andb_false_r.
  unfold MakeDay. cbv zeta.
  rewrite (Z.div_small (m - 1) 12) by lia.
  rewrite (Z.mod_small (m - 1) 12) by lia.
  rewrite Z.add_0_r.
  unfold MakeDate, Calendar.dayNumber. rewrite daysBeforeMonth_monthStart by lia.
  rewrite Z.add_0_r.
  replace (DayFromYear y + monthStart (DaysInYear y - 365) (m - 1) + d - 1)
    with (DayFromYear y + monthStart (DaysInYear y - 365) (m - 1) + (d - 1)) by lia.
  apply TimeClip_days.
  pose proof (DayFromYear_bounds y ltac:(lia)).
  pose proof (monthStart_bounds (DaysInYear y - 365) (m - 1) (DaysInYear_cases y)).
  lia.
Qed.

Lemma dayNumber_bounds (y m d : Z) :
  0 <= y <= 9999 -> 1 <= m <= 12 -> 0 <= d <= 99 ->
  -1000000 <= Calendar.dayNumber y m d <= 3000000.
Proof.
  intros Hy Hm Hd. unfold Calendar.dayNumber.
  rewrite daysBeforeMonth_monthStart by lia.
  pose proof (DayFromYear_bounds y ltac:(lia)).
  pose proof (monthStart_bounds (DaysInYear y - 365) (m - 1) (DaysInYear_cases y)).
  lia.
Qed.

Lemma isoWeekday_range (n : Z) : 1 <= Calendar.isoWeekday n <= 7.
Proof. unfold Calendar.isoWeekday. Z.div_mod_to_equations. lia. Qed.

Lemma weekThursday_multiple (n : Z) : Calendar.weekThursday n mod 7 = 0.
Proof.
  unfold Calendar.weekThursday, Calendar.isoWeekday. Z.div_mod_to_equations. lia.
Qed.

(** The Thursdays of an interval are counted by a difference of quotients. *)
Lemma thursdaysFrom_length (a : Z) (len : nat) :
  Z.of_nat (List.length (Calendar.thursdaysFrom a len))
  = (a + Z.of_nat len - 1) / 7 - (a - 1) / 7.
Proof.
  unfold Calendar.thursdaysFrom. induction len as [|len IH].
  - simpl. replace (a + 0 - 1) with (a - 1) by lia. lia.
  - rewrite seq_S, map_app, filter_app, length_app, Nat2Z.inj_add, IH.
    simpl map. simpl filter. unfold Calendar.isoWeekday.
    destruct (Z.eqb_spec ((a + Z.of_nat len + 3) mod 7 + 1) 4) as [E|E]; simpl List.length;
      Z.div_mod_to_equations; lia.
Qed.

(** The code's week formula counts the Thursdays from 1 January. *)
Lemma ceilDiv_counts_thursdays (n jan1 : Z) :
  jan1 <= Calendar.weekThursday n ->
  ceilDiv (Calendar.weekThursday n - jan1 + 1) 7
  = Z.of_nat (List.length
      (Calendar.thursdaysFrom jan1 (Z.to_nat (Calendar.weekThursday n - jan1 + 1)))).
Proof.
  intros H. rewrite thursdaysFrom_length. rewrite Z2Nat.id by lia.
  pose proof (weekThursday_multiple n) as M. unfold ceilDiv.
  generalize dependent (Calendar.weekThursday n). intros th H M.
  Z.div_mod_to_equations. lia.
Qed.

Lemma ceilDiv_scale (a : Z) : ceilDiv (a * 86400000) (7 * 86400000) = ceilDiv a 7.
Proof.
  unfold ceilDiv. f_equal. rewrite <- Z.mul_opp_l.
  apply Z.div_mul_cancel_r; discriminate.
Qed.

(** [getIsoWeek] at the midnight of day [n] agrees with the reference, when
    the week-numbering year is not one that [Date.UTC] reads as 19xx. *)
Lemma getIsoWeek_isoWeek (n : Z) :
  -10000000 <= n <= 10000000 ->
  100 <= Calendar.isoYear n ->
  getIsoWeek (n * msPerDay) = Some (Calendar.isoWeek n).
Proof.
  intros Hn Hy. unfold getIsoWeek. cbv zeta.
  pose proof (isoWeekday_range n) as Hw.
  assert (Hday : (if getUTCDay (n * msPerDay) =? 0 then 7 else getUTCDay (n * msPerDay))
                 = Calendar.isoWeekday n).
  { unfold getUTCDay, WeekDay. rewrite Day_of_days. unfold Calendar.isoWeekday.
    destruct (Z.eqb_spec ((n + 4) mod 7) 0); Z.div_mod_to_equations; lia. }
  rewrite Hday.
  replace (getUTCDate (n * msPerDay) + 4 - Calendar.isoWeekday n)
    with (getUTCDate (n * msPerDay) + (4 - Calendar.isoWeekday n)) by lia.
  rewrite setUTCDate_shift.
  replace (n * msPerDay + (4 - Calendar.isoWeekday n) * msPerDay)
    with (Calendar.weekThursday n * msPerDay) by (unfold Calendar.weekThursday; lia).
  assert (Hth : -10000003 <= Calendar.weekThursday n <= 10000003)
    by (unfold Calendar.weekThursday; lia).
  rewrite TimeClip_days by lia.
  unfold getUTCFullYear. fold (Calendar.yearOfDay (Calendar.weekThursday n)).
  fold (Calendar.isoYear n).
  pose proof (YearFromTime_spec (Calendar.weekThursday n * msPerDay)) as S.
  rewrite Day_of_days in S. fold (Calendar.yearOfDay (Calendar.weekThursday n)) in S.
  fold (Calendar.isoYear n) in S.
  assert (Hstep : DayFromYear (Calendar.isoYear n + 1) <= DayFromYear (Calendar.isoYear n) + 366)
    by (unfold DayFromYear; Z.div_mod_to_equations; lia).
  unfold Date_UTC.
  destruct (Z.leb_spec (Calendar.isoYear n) 99) as [L|_]; [lia|]. rewrite andb_false_r.
  unfold MakeDay. cbv zeta. change (0 / 12) with 0. change (0 mod 12) with 0.
  change (monthStart (DaysInYear (Calendar.isoYear n + 0) - 365) 0) with 0.
  unfold MakeDate.
  replace (Calendar.isoYear n + 0) with (Calendar.isoYear n) by lia.
  replace ((DayFromYear (Calendar.isoYear n) + 0 + 1 - 1) * msPerDay + 0)
    with (DayFromYear (Calendar.isoYear n) * msPerDay) by lia.
  rewrite TimeClip_days by lia.
  f_equal. unfold Calendar.isoWeek. cbv zeta.
  rewrite <- ceilDiv_counts_thursdays by lia.
  unfold msPerDay.
  replace (Calendar.weekThursday n * 86400000
           - DayFromYear (Calendar.isoYear n) * 86400000 + 86400000)
    with ((Calendar.weekThursday n - DayFromYear (Calendar.isoYear n) + 1) * 86400000)
    by lia.
  apply ceilDiv_scale.
Qed.

(** *** The regular expression *)

Lemma matchDateHere_Some (s dd mm yyyy : jsstring) :
  matchDateHere s = Some (dd, mm, yyyy) ->
  exists post,
    s = (dd ++ [45] ++ mm ++ [45] ++ yyyy) ++ post /\
    List.length dd = 2%nat /\ List.length mm = 2%nat /\ List.length yyyy = 4%nat /\
    forallb isDigit (dd ++ mm ++ yyyy) = true.
Proof.
  unfold matchDateHere.
  destruct s as [|d1 [|d2 [|h1 [|m1 [|m2 [|h2 [|y1 [|y2 [|y3 [|y4 post]]]]]]]]]];
    try discriminate.
  destruct (isDigit d1 && isDigit d2 && (h1 =? 45) && isDigit m1 && isDigit m2
            && (h2 =? 45) && isDigit y1 && isDigit y2 && isDigit y3 && isDigit y4) eqn:E;
    try discriminate.
  intros H. injection H as <- <- <-.
  rewrite !andb_true_iff in E.
  destruct E as [[[[[[[[[D1 D2] H1] M1] M2] H2] Y1] Y2] Y3] Y4].
  apply Z.eqb_eq in H1, H2. subst h1 h2.
  exists post. simpl. rewrite D1, D2, M1, M2, Y1, Y2, Y3, Y4.
  repeat split; reflexivity.
Qed.

Lemma matchDateHere_shaped (dd mm yyyy post : jsstring) :
  List.length dd = 2%nat -> List.length mm = 2%nat -> List.length yyyy = 4%nat ->
  forallb isDigit (dd ++ mm ++ yyyy) = true ->
  matchDateHere ((dd ++ [45] ++ mm ++ [45] ++ yyyy) ++ post) = Some (dd, mm, yyyy).
Proof.
  intros Hd Hm Hy D.
  destruct dd as [|d1 [|d2 [|]]]; try discriminate.
  destruct mm as [|m1 [|m2 [|]]]; try discriminate.
  destruct yyyy as [|y1 [|y2 [|y3 [|y4 [|]]]]]; try discriminate.
  simpl in D. rewrite !andb_true_iff in D.
  destruct D as (D1 & D2 & M1 & M2 & Y1 & Y2 & Y3 & Y4 & _).
  simpl. rewrite D1, D2, M1, M2, Y1, Y2, Y3, Y4. reflexivity.
Qed.

Lemma matchDateHere_dateShaped (w post : jsstring) :
  dateShaped w -> matchDateHere (w ++ post) <> None.
Proof.
  intros (dd & mm & yyyy & -> & Hd & Hm & Hy & D).
  rewrite (matchDateHere_shaped dd mm yyyy post Hd Hm Hy D). discriminate.
Qed.

Lemma matchDate_here (s : jsstring) (r : jsstring * jsstring * jsstring) :
  matchDateHere s = Some r -> matchDate s = Some r.
Proof. intros H. destruct s; cbn [matchDate]; rewrite H; reflexivity. Qed.

Lemma matchDate_skip (c : Z) (s : jsstring) :
  matchDateHere (c :: s) = None -> matchDate (c :: s) = matchDate s.
Proof. intros H. cbn [matchDate]. rewrite H. reflexivity. Qed.

(** [matchDate] finds the leftmost DD-MM-YYYY-shaped substring. *)
Lemma matchDate_leftmost (name dd mm yyyy : jsstring) :
  leftmostDate name dd mm yyyy -> matchDate name = Some (dd, mm, yyyy).
Proof.
  intros (pre & post & E & Hd & Hm & Hy & D & L). revert name E L.
  induction pre as [|c pre IH]; intros name E L.
  - subst name. apply matchDate_here.
    exact (matchDateHere_shaped dd mm yyyy post Hd Hm Hy D).
  - subst name.
    assert (N : matchDateHere ((c :: pre) ++ (dd ++ [45] ++ mm ++ [45] ++ yyyy) ++ post) = None).
    { destruct (matchDateHere ((c :: pre) ++ (dd ++ [45] ++ mm ++ [45] ++ yyyy) ++ post))
        as [[[a b] y]|] eqn:M; [|reflexivity].
      apply matchDateHere_Some in M. destruct M as (post' & E' & Ha & Hb & Hy' & D').
      specialize (L (a ++ [45] ++ b ++ [45] ++ y) [] post').
      simpl in L. exfalso.
      assert (S (List.length pre) <= 0)%nat; [|lia].
      apply L; [|exact E'].
      exists a, b, y. repeat split; assumption. }
    rewrite <- app_comm_cons in N |- *.
    rewrite (matchDate_skip _ _ N). apply IH; [reflexivity|].
    intros w pre' post' Hw Ew.
    assert (S (List.length pre) <= S (List.length pre'))%nat; [|lia].
    apply (L w (c :: pre') post' Hw).
    rewrite <- !app_comm_cons. f_equal. exact Ew.
Qed.

Lemma matchDate_None_iff (name : jsstring) :
  matchDate name = None <-> (forall w, dateShaped w -> ~ occursIn w name).
Proof.
  split.
  - intros H w Hw (pre & post & E). revert name H E.
    induction pre as [|c pre IH]; intros name H E; subst name.
    + rewrite app_nil_l in H.
      pose proof (matchDateHere_dateShaped w post Hw) as N.
      destruct (matchDateHere (w ++ post)) as [r|] eqn:M; [|congruence].
      rewrite (matchDate_here _ _ M) in H. discriminate.
    + apply (IH (pre ++ w ++ post)); [|reflexivity].
      rewrite <- app_comm_cons in H.
      destruct (matchDateHere (c :: pre ++ w ++ post)) as [r|] eqn:M.
      * rewrite (matchDate_here _ _ M) in H. discriminate.
      * rewrite (matchDate_skip _ _ M) in H. exact H.
  - induction name as [|c r IH]; intros H; [reflexivity|].
    destruct (matchDateHere (c :: r)) as [[[a b] y]|] eqn:M;
      [|rewrite (matchDate_skip _ _ M)].
    + exfalso. apply matchDateHere_Some in M. destruct M as (post & E & Ha & Hb & Hy & D).
      apply (H (a ++ [45] ++ b ++ [45] ++ y)).
      * exists a, b, y. repeat split; assumption.
      * exists [], post. exact E.
    + apply IH. intros w Hw (pre & post & E).
      apply (H w Hw). exists (c :: pre), post. simpl. f_equal. exact E.
Qed.

Lemma leftmostDate_matchDate (name dd mm yyyy : jsstring) :
  matchDate name = Some (dd, mm, yyyy) -> leftmostDate name dd mm yyyy.
Proof.
  revert dd mm yyyy. induction name as [|c r IH]; intros dd mm yyyy H.
  - discriminate H.
  - destruct (matchDateHere (c :: r)) as [x|] eqn:M.
    + rewrite (matchDate_here _ _ M) in H. injection H as ->.
      apply matchDateHere_Some in M. destruct M as (post & E & Hd & Hm & Hy & D).
      exists [], post. repeat split; try assumption.
      intros. simpl. lia.
    + rewrite (matchDate_skip _ _ M) in H.
      destruct (IH _ _ _ H) as (pre & post & E & Hd & Hm & Hy & D & L).
      exists (c :: pre), post. repeat split; try assumption.
      * rewrite <- app_comm_cons. f_equal. exact E.
      * intros w pre' post' Hw Ew. destruct pre' as [|c' pre'].
        -- rewrite app_nil_l in Ew. exfalso.
           apply (matchDateHere_dateShaped w post' Hw). rewrite <- Ew. exact M.
        -- rewrite <- app_comm_cons in Ew. injection Ew as _ Ew.
           specialize (L w pre' post' Hw Ew). simpl. lia.
Qed.

Lemma allDates_complete (pre dd mm yyyy post : jsstring) :
  List.length dd = 2%nat -> List.length mm = 2%nat -> List.length yyyy = 4%nat ->
  forallb isDigit (dd ++ mm ++ yyyy) = true ->
  In (dd, mm, yyyy) (allDates (pre ++ (dd ++ [45] ++ mm ++ [45] ++ yyyy) ++ post)).
Proof.
  intros Hd Hm Hy D. induction pre as [|c pre IH].
  - rewrite app_nil_l.
    pose proof (matchDateHere_shaped dd mm yyyy post Hd Hm Hy D) as M.
    destruct ((dd ++ [45] ++ mm ++ [45] ++ yyyy) ++ post);
      cbn [allDates]; rewrite M; left; reflexivity.
  - rewrite <- app_comm_cons. cbn [allDates]. apply in_or_app. right. exact IH.
Qed.

Lemma Number_2digits (s : jsstring) :
  List.length s = 2%nat -> forallb isDigit s = true ->
  exists v, Number s = Some v /\ 0 <= v <= 99.
Proof.
  intros L D. destruct s as [|a [|b [|]]]; try discriminate.
  unfold Number. unfold allDigits1. rewrite D.
  simpl in D. rewrite !andb_true_iff in D. destruct D as (A & B & _).
  unfold isDigit in A, B. rewrite andb_true_iff, !Z.leb_le in A, B.
  eexists. split; [reflexivity|]. cbn [fold_left]. lia.
Qed.

Lemma Number_4digits (s : jsstring) :
  List.length s = 4%nat -> forallb isDigit s = true ->
  exists v, Number s = Some v /\ 0 <= v <= 9999.
Proof.
  intros L D. destruct s as [|a [|b [|c [|d [|]]]]]; try discriminate.
  unfold Number. unfold allDigits1. rewrite D.
  simpl in D. rewrite !andb_true_iff in D. destruct D as (A & B & C & E & _).
  unfold isDigit in A, B, C, E. rewrite andb_true_iff, !Z.leb_le in A, B, C, E.
  eexists. split; [reflexivity|]. cbn [fold_left]. lia.
Qed.

Lemma DayFromYear_bounds_wide (y : Z) :
  -1 <= y <= 10010 -> -730000 <= DayFromYear y <= 2950000.
Proof. intros H. unfold DayFromYear. Z.div_mod_to_equations. lia. Qed.

(** On what the regular expression captures, [Date.UTC] never gives NaN:
    the test [Number.isNaN(date.getTime())] of the code cannot fire. *)
Lemma Date_UTC_never_NaN (y m d : Z) :
  0 <= y <= 9999 -> 0 <= m <= 99 -> 0 <= d <= 99 ->
  exists t, Date_UTC y (m - 1) d = Some t.
Proof.
  intros Hy Hm Hd. unfold Date_UTC, MakeDay, MakeDate. cbv zeta.
  set (yr := if (0 <=? y) && (y <=? 99) then 1900 + y else y).
  assert (Hyr : 0 <= yr <= 9999).
  { subst yr. destruct ((0 <=? y) && (y <=? 99)) eqn:E; [|lia].
    rewrite andb_true_iff in E. lia. }
  assert (Hq : -1 <= (m - 1) / 12 <= 8) by (Z.div_mod_to_equations; lia).
  pose proof (DayFromYear_bounds_wide (yr + (m - 1) / 12) ltac:(lia)) as B.
  pose proof (monthStart_bounds (DaysInYear (yr + (m - 1) / 12) - 365) ((m - 1) mod 12)
                (DaysInYear_cases _)) as B'.
  eexists. unfold TimeClip.
  match goal with |- (if ?c then _ else _) = _ => destruct c eqn:E end; [reflexivity|].
  apply Z.leb_gt in E. unfold msPerDay in E. lia.
Qed.

(** The result is unset exactly when the name has no DD-MM-YYYY-shaped
    substring: whether the digits form a calendar date plays no part. *)
Lemma extractWeekDescription_unset_iff (name : jsstring) :
  extractWeekDescription name = None <-> (forall w, dateShaped w -> ~ occursIn w name).
Proof.
  rewrite <- matchDate_None_iff. unfold extractWeekDescription.
  destruct (matchDate name) as [[[dd mm] yyyy]|] eqn:M; [|tauto].
  split; [|discriminate]. intros H. exfalso.
  apply leftmostDate_matchDate in M.
  destruct M as (pre & post & E & Hd & Hm & Hy & D & _).
  rewrite !forallb_app, !andb_true_iff in D. destruct D as (Dd & Dm & Dy).
  destruct (Number_2digits dd Hd Dd) as (day & Nd & Bd).
  destruct (Number_2digits mm Hm Dm) as (month & Nm & Bm).
  destruct (Number_4digits yyyy Hy Dy) as (year & Ny & By).
  destruct (Date_UTC_never_NaN year month day By Bm Bd) as (t & T).
  rewrite Nd, Nm, Ny, T in H. discriminate.
Qed.

(** ** Claims on the period description *)

Lemma validDate_ranges (y m d : Z) :
  Calendar.validDate y m d = true -> 1 <= m <= 12 /\ 1 <= d <= 31.
Proof.
  unfold Calendar.validDate. rewrite !andb_true_iff, !Z.leb_le.
  intros [[[M1 M2] D1] D2]. split; [lia|].
  unfold Calendar.daysInMonth in D2.
  assert (m = 1 \/ m = 2 \/ m = 3 \/ m = 4 \/ m = 5 \/ m = 6 \/ m = 7 \/ m = 8
          \/ m = 9 \/ m = 10 \/ m = 11 \/ m = 12) as C by lia.
  repeat (destruct C as [C | C]); subst m;
    try destruct (Calendar.isLeap y); lia.
Qed.

Lemma extractWeekDescription_leftmost (name dd mm yyyy : jsstring) (day month year : Z) :
  leftmostDate name dd mm yyyy ->
  Number dd = Some day -> Number mm = Some month -> Number yyyy = Some year ->
  Calendar.validDate year month day = true ->
  100 <= year ->
  100 <= Calendar.isoYear (Calendar.dayNumber year month day) ->
  extractWeekDescription name
  = Some (weekLabel (Some (Calendar.isoWeek (Calendar.dayNumber year month day)))).
Proof.
  intros L Nd Nm Ny V Hy Hiso.
  pose proof (validDate_ranges _ _ _ V) as [Rm Rd].
  assert (By : year <= 9999).
  { destruct L as (pre & post & E & Hd & Hm & Hl & D & _).
    rewrite !forallb_app, !andb_true_iff in D. destruct D as (_ & _ & Dy).
    destruct (Number_4digits yyyy Hl Dy) as (v & Nv & Bv).
    rewrite Ny in Nv. injection Nv as <-. lia. }
  unfold extractWeekDescription.
  rewrite (matchDate_leftmost _ _ _ _ L), Nd, Nm, Ny.
  rewrite Date_UTC_dayNumber by lia.
  pose proof (dayNumber_bounds year month day ltac:(lia) ltac:(lia) ltac:(lia)).
  rewrite getIsoWeek_isoWeek by lia.
  reflexivity.
Qed.

(** C4 (amended).  When the leftmost DD-MM-YYYY-shaped substring of a
    filename is a calendar date whose year and week-numbering year are at
    least 100, [extractWeekDescription] gives the weekly-report label with
    the ISO-8601 week number of that date (Monday-start weeks, week 1 the
    week of the year's first Thursday); a name whose leftmost such substring
    is 01-01-2021 gets week 53, and one with 15-03-2024 gets week 11. *)
Theorem C4_week_of_leftmost_date :
  (forall (name dd mm yyyy : jsstring) (day month year : Z),
     leftmostDate name dd mm yyyy ->
     Number dd = Some day -> Number mm = Some month -> Number yyyy = Some year ->
     Calendar.validDate year month day = true ->
     100 <= year ->
     100 <= Calendar.isoYear (Calendar.dayNumber year month day) ->
     extractWeekDescription name
     = Some (js "Еженедельный отчет по выручке и наценке ("
             ++ numberToString (Calendar.isoWeek (Calendar.dayNumber year month day))
             ++ js " неделя)")) /\
  (forall name, leftmostDate name (js "01") (js "01") (js "2021") ->
     extractWeekDescription name
     = Some (js "Еженедельный отчет по выручке и наценке (53 неделя)")) /\
  (forall name, leftmostDate name (js "15") (js "03") (js "2024") ->
     extractWeekDescription name
     = Some (js "Еженедельный отчет по выручке и наценке (11 неделя)")).
Proof.
  split; [|split].
  - intros. erewrite extractWeekDescription_leftmost by eassumption. reflexivity.
  - intros name L.
    rewrite (extractWeekDescription_leftmost name (js "01") (js "01") (js "2021") 1 1 2021 L);
      first [vm_compute; reflexivity | vm_compute; discriminate].
  - intros name L.
    rewrite (extractWeekDescription_leftmost name (js "15") (js "03") (js "2024") 15 3 2024 L);
      first [vm_compute; reflexivity | vm_compute; discriminate].
Qed.

Lemma C4_week_of_leftmost_date_witness :
  extractWeekDescription reportName
  = Some (js "Еженедельный отчет по выручке и наценке (11 неделя)") /\
  extractWeekDescription (js "01-01-2021.docx")
  = Some (js "Еженедельный отчет по выручке и наценке (53 неделя)").
Proof.
  destruct C4_week_of_leftmost_date as (General & W53 & W11).
  split.
  - rewrite (General reportName (js "15") (js "03") (js "2024") 15 3 2024).
    + vm_compute. reflexivity.
    + apply leftmostDate_matchDate. vm_compute. reflexivity.
    + vm_compute. reflexivity.
    + vm_compute. reflexivity.
    + vm_compute. reflexivity.
    + vm_compute. reflexivity.
    + vm_compute. discriminate.
    + vm_compute. discriminate.
  - apply W53. apply leftmostDate_matchDate. vm_compute. reflexivity.
Defined.

(** The claim as it is written speaks of any valid DD-MM-YYYY substring of
    the name: with two dates in the name, the label is that of the first. *)
Lemma C4_counterexample_second_date :
  occursIn (js "15-03-2024") twoDatesName /\
  dateShaped (js "15-03-2024") /\
  Calendar.validDate 2024 3 15 = true /\
  Calendar.isoWeek (Calendar.dayNumber 2024 3 15) = 11 /\
  extractWeekDescription twoDatesName
  = Some (js "Еженедельный отчет по выручке и наценке (53 неделя)") /\
  extractWeekDescription twoDatesName
  <> Some (weekLabel (Some (Calendar.isoWeek (Calendar.dayNumber 2024 3 15)))).
Proof.
  split; [|split; [|split; [|split; [|split]]]].
  - exists (js "01-01-2021 "), (js ".docx"). reflexivity.
  - exists (js "15"), (js "03"), (js "2024"). repeat split; reflexivity.
  - reflexivity.
  - vm_compute. reflexivity.
  - vm_compute. reflexivity.
  - vm_compute. discriminate.
Qed.

(** Years 0 to 99 are read by [Date.UTC] as 1900 to 1999: the week of
    07-01-0001 (a Sunday, week 1) is computed for 07-01-1901 (a Monday). *)
Example two_digit_year_week :
  Calendar.validDate 1 1 7 = true /\
  Calendar.isoWeek (Calendar.dayNumber 1 1 7) = 1 /\
  extractWeekDescription (js "07-01-0001.docx")
  = Some (js "Еженедельный отчет по выручке и наценке (2 неделя)") /\
  extractWeekDescription (js "01-01-0100.docx")
  = Some (js "Еженедельный отчет по выручке и наценке (-99085 неделя)").
Proof. vm_compute. repeat split. Qed.

(** C5.  The name "32-01-2024.docx" has one DD-MM-YYYY-shaped substring, which
    is not a calendar date, and [extractWeekDescription] returns a label for
    it (week 5, that of 1 February 2024) where the claim has unset. *)
Theorem C5_invalid_date_gets_label :
  allDates day32Name = [(js "32", js "01", js "2024")] /\
  Calendar.validDate 2024 1 32 = false /\
  extractWeekDescription day32Name
  = Some (js "Еженедельный отчет по выручке и наценке (5 неделя)").
Proof. vm_compute. repeat split. Qed.

(** ** [performUpload] *)

Example base64_examples :
  base64 (bytes_of "Man") = js "TWFu" /\ base64 (bytes_of "Ma") = js "TWE=" /\
  base64 (bytes_of "M") = js "TQ==" /\ base64 [255; 254; 253; 0] = js "//79AA==".
Proof. vm_compute. repeat split. Qed.

Example parseInnKppFromFilename_report :
  parseInnKppFromFilename (map Z.of_nat (map nat_of_ascii (list_ascii_of_string
     "Отчет ИНН7712345678 КПП771201001 15-03-2024.docx")))
  = (Some (js "7712345678"), Some (js "771201001")).
Proof. vm_compute. reflexivity. Qed.

Example parseInnKppFromFilename_12_digits :
  firstMatch matchInnHere (js "акт инн500100732259.docx") = Some (js "500100732259") /\
  firstMatch matchInnHere (js "ИНН 7712345678") = None /\
  firstMatch matchKppHere (js "кпп771201001") = Some (js "771201001").
Proof. vm_compute. repeat split. Qed.

Lemma participant_eta (q : ParticipantInput) :
  {| inn := inn q; kpp := kpp q; lastName := lastName q; firstName := firstName q;
     middleName := middleName q; snils := snils q |} = q.
Proof. destruct q. reflexivity. Qed.

(** What a request that was built says about the parameters. *)
Lemma buildUploadRequest_inr (env : Env) (p : UploadParams) (w w' : World) (req : Request) :
  buildUploadRequest env p w = (inr req, w') ->
  exists sid f clientInn cp op,
    sessionId p = Some sid /\ sid <> [] /\ file p = Some f /\
    inn (client p) = Some clientInn /\ clientInn <> [] /\
    ((List.length (stripWhitespace clientInn) =? 10)%nat
     && negb (truthy (option_map trim (kpp (client p)))) = false) /\
    buildParticipant (counterpartyInput p clientInn) = inr cp /\
    buildParticipant (our p) = inr op /\
    calls w' = calls w /\
    req_X_SBISSessionID req = sid /\
    req_url req = orString (option_map trim (docBaseUrl p)) DEFAULT_SERVICE_URL /\
    Контрагент (params_Документ (req_body req)) = cp /\
    НашаОрганизация (params_Документ (req_body req)) = op /\
    Дата (params_Документ (req_body req)) = toWireDate (todayOf env p w) /\
    Примечание (params_Документ (req_body req))
    = orString (option_map trim (note p))
        (orString (extractWeekDescription
                     (decodeFilename (orString (Some (originalname f)) (js "document.docx"))))
           []).
Proof.
  unfold buildUploadRequest.
  destruct (sessionId p) as [[|s0 sid]|] eqn:Es; try discriminate.
  destruct (file p) as [f|] eqn:Ef; try discriminate.
  destruct (inn (client p)) as [[|c0 ci]|] eqn:Ec; try discriminate.
  destruct (inn (our p)) as [[|o0 oi]|] eqn:Eo; try discriminate.
  unfold bind at 1.
  assert (T : exists w1,
             match date p with
             | Some (c :: r) => ret (c :: r)
             | _ => bind (nowISOString env) (fun iso => ret (slice0 10 iso))
             end w = (inr (todayOf env p w), w1) /\ calls w1 = calls w).
  { unfold todayOf. destruct (date p) as [[|c r]|]; eexists; split; reflexivity. }
  destruct T as (w1 & -> & Ew1).
  destruct ((List.length (stripWhitespace (c0 :: ci)) =? 10)%nat
            && negb (truthy (option_map trim (kpp (client p))))) eqn:Ek; try discriminate.
  unfold bind at 1. fold (counterpartyInput p (c0 :: ci)).
  destruct (buildParticipant (counterpartyInput p (c0 :: ci))) as [e|cp] eqn:Ecp;
    try discriminate.
  unfold liftE at 1, ret at 1, bind at 1.
  rewrite <- Eo, (participant_eta (our p)).
  destruct (buildParticipant (our p)) as [e|op] eqn:Eop; try discriminate.
  unfold liftE, ret, bind, randomUUID. cbn [calls uuidsDrawn clockReads].
  intros H. injection H as <- <-.
  exists (s0 :: sid), f, (c0 :: ci), cp, op.
  cbn. repeat split; try assumption; try discriminate; try reflexivity.
Qed.

Lemma buildParticipant_error_400 (q : ParticipantInput) (e : Error) :
  buildParticipant q = inl e -> exists m, e = HttpError 400 m.
Proof.
  unfold buildParticipant.
  destruct (inn q) as [[|c r]|]; try (intros H; injection H as <-; eauto).
  destruct (negb (allDigits1 (stripWhitespace (c :: r))));
    [intros H; injection H as <-; eauto|].
  destruct (List.length (stripWhitespace (c :: r)) =? 10)%nat; [discriminate|].
  destruct (List.length (stripWhitespace (c :: r)) =? 12)%nat; [discriminate|].
  intros H; injection H as <-; eauto.
Qed.

(** Every failure before [fetch] is a validation error, and nothing was sent. *)
Lemma buildUploadRequest_inl (env : Env) (p : UploadParams) (w w' : World) (e : Error) :
  buildUploadRequest env p w = (inl e, w') ->
  (exists m, e = HttpError 400 m) /\ calls w' = calls w.
Proof.
  unfold buildUploadRequest.
  destruct (sessionId p) as [[|s0 sid]|] eqn:Es;
    try (intros H; injection H as <- <-; eauto).
  destruct (file p) as [f|] eqn:Ef; try (intros H; injection H as <- <-; eauto).
  destruct (inn (client p)) as [[|c0 ci]|] eqn:Ec;
    try (intros H; injection H as <- <-; eauto).
  destruct (inn (our p)) as [[|o0 oi]|] eqn:Eo;
    try (intros H; injection H as <- <-; eauto).
  unfold bind at 1.
  assert (T : exists w1,
             match date p with
             | Some (c :: r) => ret (c :: r)
             | _ => bind (nowISOString env) (fun iso => ret (slice0 10 iso))
             end w = (inr (todayOf env p w), w1) /\ calls w1 = calls w).
  { unfold todayOf. destruct (date p) as [[|c r]|]; eexists; split; reflexivity. }
  destruct T as (w1 & -> & Ew1).
  destruct ((List.length (stripWhitespace (c0 :: ci)) =? 10)%nat
            && negb (truthy (option_map trim (kpp (client p))))) eqn:Ek;
    try (intros H; injection H as <- <-; eauto).
  unfold bind at 1. fold (counterpartyInput p (c0 :: ci)).
  destruct (buildParticipant (counterpartyInput p (c0 :: ci))) as [e1|cp] eqn:Ecp.
  { intros H; injection H as <- <-. split; [|assumption].
    eapply buildParticipant_error_400; eassumption. }
  unfold liftE at 1, ret at 1, bind at 1.
  rewrite <- Eo, (participant_eta (our p)).
  destruct (buildParticipant (our p)) as [e1|op] eqn:Eop.
  { intros H; injection H as <- <-. split; [|assumption].
    eapply buildParticipant_error_400; eassumption. }
  unfold liftE, ret, bind, randomUUID. discriminate.
Qed.

Section UploadProperties.
Context {RT : Runtime}.

(** A failure before [fetch] is the failure of [performUpload]. *)
Lemma performUpload_not_sent (env : Env) (p : UploadParams) (w w' : World) (e : Error) :
  buildUploadRequest env p w = (inl e, w') ->
  performUpload env p w = (inl e, w').
Proof. intros H. unfold performUpload, bind. rewrite H. reflexivity. Qed.

(** Once the request is built, exactly that request is sent. *)
Lemma performUpload_sent (env : Env) (p : UploadParams) (w w1 : World) (req : Request) :
  buildUploadRequest env p w = (inr req, w1) ->
  exists r w',
    performUpload env p w = (r, w') /\ calls w' = calls w ++ [req] /\
    uuidsDrawn w' = uuidsDrawn w1 /\ clockReads w' = clockReads w1.
Proof.
  intros H. unfold performUpload. unfold bind at 1. rewrite H.
  pose proof (buildUploadRequest_inr env p w w1 req H) as (_ & _ & _ & _ & _ & _ & _ & _ & _ & _ & _ & _ & _ & Ec & _).
  unfold bind, fetch. rewrite Ec.
  destruct (respond env (calls w) req) as [m|r].
  - eexists _, _. split; [reflexivity|]. cbn. auto.
  - match goal with |- context [readUploadResponse r ?w0] =>
      destruct (readUploadResponse r w0) as [res w2] eqn:R end.
    exists res, w2. split; [reflexivity|].
    unfold readUploadResponse, bind, responseText, ret, throw in R.
    destruct (text r); [destruct (negb (ok r))|]; injection R as <- <-; cbn; auto.
Qed.

End UploadProperties.

(** When every check passes, the request is built. *)
Lemma buildUploadRequest_succeeds (env : Env) (p : UploadParams) (w : World)
    (sid clientInn ourInn' : jsstring) (f : UploadedFile) (cp op : Participant) :
  sessionId p = Some sid -> sid <> [] ->
  file p = Some f ->
  inn (client p) = Some clientInn -> clientInn <> [] ->
  inn (our p) = Some ourInn' -> ourInn' <> [] ->
  (List.length (stripWhitespace clientInn) =? 10)%nat
  && negb (truthy (option_map trim (kpp (client p)))) = false ->
  buildParticipant (counterpartyInput p clientInn) = inr cp ->
  buildParticipant (our p) = inr op ->
  exists req w', buildUploadRequest env p w = (inr req, w').
Proof.
  intros Es Ns Ef Ec Nc Eo No Ek Ecp Eop.
  unfold buildUploadRequest. rewrite Es, Ef, Ec, Eo.
  destruct sid as [|s0 sid]; [congruence|].
  destruct clientInn as [|c0 ci]; [congruence|].
  destruct ourInn' as [|o0 oi]; [congruence|].
  unfold bind at 1.
  assert (T : exists w1,
             match date p with
             | Some (c :: r) => ret (c :: r)
             | _ => bind (nowISOString env) (fun iso => ret (slice0 10 iso))
             end w = (inr (todayOf env p w), w1) /\ calls w1 = calls w).
  { unfold todayOf. destruct (date p) as [[|c r]|]; eexists; split; reflexivity. }
  destruct T as (w1 & -> & Ew1).
  rewrite Ek. unfold bind at 1. fold (counterpartyInput p (c0 :: ci)). rewrite Ecp.
  unfold liftE at 1, ret at 1, bind at 1.
  rewrite <- Eo, (participant_eta (our p)), Eop.
  unfold liftE, ret, bind, randomUUID. eexists _, _. reflexivity.
Qed.

(** ** [split], [join] and the date on the wire *)

Lemma split_no_sep (sep : Z) (a : jsstring) : ~ In sep a -> split sep a = [a].
Proof.
  induction a as [|c a IH]; intros H; [reflexivity|].
  simpl. destruct (Z.eqb_spec c sep) as [->|N].
  - exfalso. apply H. left. reflexivity.
  - rewrite IH; [reflexivity|]. intros I. apply H. right. exact I.
Qed.

Lemma split_app_sep (sep : Z) (a b : jsstring) :
  ~ In sep a -> split sep (a ++ sep :: b) = a :: split sep b.
Proof.
  induction a as [|c a IH]; intros H.
  - simpl. rewrite Z.eqb_refl. reflexivity.
  - simpl. destruct (Z.eqb_spec c sep) as [->|N].
    + exfalso. apply H. left. reflexivity.
    + rewrite IH; [reflexivity|]. intros I. apply H. right. exact I.
Qed.

Lemma digits_no_sep (sep : Z) (a : jsstring) :
  isDigit sep = false -> forallb isDigit a = true -> ~ In sep a.
Proof.
  intros S D I. rewrite forallb_forall in D. specialize (D sep I). congruence.
Qed.

(** [split] never gives the empty array, and [join] undoes it. *)
Lemma join_split (sep : Z) (s : jsstring) : join [sep] (split sep s) = s.
Proof.
  induction s as [|c s IH]; [reflexivity|].
  simpl. destruct (c =? sep) eqn:E.
  - apply Z.eqb_eq in E. subst c.
    destruct (split sep s) as [|p ps] eqn:S.
    + destruct s; simpl in S; [discriminate|].
      destruct (z =? sep); [discriminate|]. destruct (split sep s); discriminate.
    + change (join [sep] ([] :: p :: ps)) with ([] ++ [sep] ++ join [sep] (p :: ps)).
      rewrite IH. reflexivity.
  - destruct (split sep s) as [|p ps] eqn:S.
    + simpl in IH. subst s. reflexivity.
    + destruct ps as [|q qs]; simpl in IH |- *; rewrite <- IH; reflexivity.
Qed.

Lemma split_join (sep : Z) (parts : list jsstring) :
  parts <> [] -> Forall (fun p => ~ In sep p) parts ->
  split sep (join [sep] parts) = parts.
Proof.
  induction parts as [|p ps IH]; intros N F; [congruence|].
  inversion F as [|? ? Hp Hps]; subst.
  destruct ps as [|q qs].
  - simpl. apply split_no_sep. exact Hp.
  - change (join [sep] (p :: q :: qs)) with (p ++ sep :: join [sep] (q :: qs)).
    rewrite split_app_sep by exact Hp. f_equal. apply IH; [discriminate | exact Hps].
Qed.

Lemma split_parts_no_other (sep other : Z) (s : jsstring) :
  ~ In other s -> Forall (fun p => ~ In other p) (split sep s).
Proof.
  induction s as [|c s IH]; intros H.
  - constructor; [intros []|constructor].
  - assert (Hc : c <> other) by (intros ->; apply H; left; reflexivity).
    assert (Hs : ~ In other s) by (intros I; apply H; right; exact I).
    specialize (IH Hs). simpl. destruct (c =? sep).
    + constructor; [intros []|exact IH].
    + destruct (split sep s) as [|p ps]; [constructor; [|constructor]|].
      * intros [E|[]]. congruence.
      * inversion IH; subst. constructor; [|assumption].
        intros [E|I]; [congruence|contradiction].
Qed.

Lemma split_not_nil (sep : Z) (s : jsstring) : split sep s <> [].
Proof.
  destruct s as [|c s]; simpl; [discriminate|].
  destruct (c =? sep); [discriminate|]. destruct (split sep s); discriminate.
Qed.

(** The conversion back undoes the conversion on every string without a dot. *)
Lemma fromWireDate_toWireDate (s : jsstring) :
  ~ In 46 s -> fromWireDate (toWireDate s) = s.
Proof.
  intros H. unfold fromWireDate, toWireDate.
  rewrite split_join.
  - rewrite rev_involutive. apply join_split.
  - intros E. apply (split_not_nil 45 s).
    rewrite <- (rev_involutive (split 45 s)), E. reflexivity.
  - apply Forall_rev. apply split_parts_no_other. exact H.
Qed.

Lemma toWireDate_iso (s yyyy mm dd : jsstring) :
  isoDateString s yyyy mm dd -> toWireDate s = dd ++ [46] ++ mm ++ [46] ++ yyyy.
Proof.
  intros (-> & _ & _ & _ & D).
  rewrite !forallb_app, !andb_true_iff in D. destruct D as (Dy & Dm & Dd).
  unfold toWireDate. simpl app.
  rewrite split_app_sep by (apply digits_no_sep; [reflexivity | exact Dy]).
  rewrite split_app_sep by (apply digits_no_sep; [reflexivity | exact Dm]).
  rewrite split_no_sep by (apply digits_no_sep; [reflexivity | exact Dd]).
  simpl. destruct mm; destruct yyyy; reflexivity.
Qed.

Lemma isoDateString_no_dot (s yyyy mm dd : jsstring) :
  isoDateString s yyyy mm dd -> ~ In 46 s.
Proof.
  intros (-> & _ & _ & _ & D).
  rewrite !forallb_app, !andb_true_iff in D. destruct D as (Dy & Dm & Dd).
  rewrite !in_app_iff. simpl.
  pose proof (digits_no_sep 46 yyyy eq_refl Dy).
  pose proof (digits_no_sep 46 mm eq_refl Dm).
  pose proof (digits_no_sep 46 dd eq_refl Dd).
  intros [?|[[?|[]]|[?|[[?|[]]|?]]]]; try contradiction; discriminate.
Qed.

(** ** Claims on [performUpload] *)

Section UploadClaims.
Context {RT : Runtime}.

(** C2.  When the tax id of the counterparty, without its white space, is a
    string of 10 digits and its registration code is absent (not given, or
    blank once trimmed; in a batch the code is the one read from the file
    name), [performUpload] fails with a validation error (status 400) and no
    request is sent: the list of requests is as it was.  When the session id,
    the file and our tax id are there, the error is the one that asks for
    the КПП. *)
Theorem C2_missing_kpp_rejected_before_fetch
    (env : Env) (p : UploadParams) (w : World) (s : jsstring) :
  inn (client p) = Some s ->
  forallb isDigit (stripWhitespace s) = true ->
  List.length (stripWhitespace s) = 10%nat ->
  truthy (option_map trim (kpp (client p))) = false ->
  exists m w',
    performUpload env p w = (inl (HttpError 400 m), w') /\
    calls w' = calls w /\
    (truthy (sessionId p) = true -> file p <> None -> truthy (inn (our p)) = true ->
     m = msg_kpp_required).
Proof.
  intros Ei _ L K.
  assert (Ek : (List.length (stripWhitespace s) =? 10)%nat
               && negb (truthy (option_map trim (kpp (client p)))) = true)
    by (rewrite L, K; reflexivity).
  destruct (buildUploadRequest env p w) as [[e|req] w'] eqn:B.
  - destruct (buildUploadRequest_inl env p w w' e B) as ((m & ->) & Ec).
    exists m, w'. split; [apply performUpload_not_sent; exact B|]. split; [exact Ec|].
    intros Hs Hf Ho. revert B. unfold buildUploadRequest.
    destruct (sessionId p) as [[|s0 sid]|]; try discriminate Hs.
    destruct (file p) as [f|]; [|congruence].
    rewrite Ei. destruct s as [|c0 ci]; [discriminate L|].
    destruct (inn (our p)) as [[|o0 oi]|]; try discriminate Ho.
    unfold bind at 1.
    destruct (match date p with
              | Some (c :: r) => ret (c :: r)
              | _ => bind (nowISOString env) (fun iso => ret (slice0 10 iso))
              end w) as [[e1|today] w1] eqn:T.
    { exfalso. destruct (date p) as [[|c r]|]; discriminate T. }
    rewrite Ek. unfold throw. intros H. injection H as H _. congruence.
  - exfalso.
    destruct (buildUploadRequest_inr env p w w' req B)
      as (sid & f & ci & cp & op & _ & _ & _ & Ei' & _ & Ek' & _).
    rewrite Ei in Ei'. injection Ei' as <-. congruence.
Qed.

(** C6.  In a request that was built, the note is the given note, trimmed,
    when that is not empty; else the period description read from the file
    name, when there is one; else the empty string: one of the three and no
    concatenation.  With a note that has no white space around it and a
    file name that gives a description, the note of the request is the given
    note as it is. *)
Theorem C6_note_precedence
    (env : Env) (p : UploadParams) (w w' : World) (req : Request) (f : UploadedFile) :
  buildUploadRequest env p w = (inr req, w') ->
  file p = Some f ->
  let description :=
    extractWeekDescription
      (decodeFilename (orString (Some (originalname f)) (js "document.docx"))) in
  let noteOfRequest := Примечание (params_Документ (req_body req)) in
  (forall n, note p = Some n -> trim n <> [] -> noteOfRequest = trim n) /\
  ((note p = None \/ exists n, note p = Some n /\ trim n = []) ->
   (forall d, description = Some d -> noteOfRequest = d) /\
   (description = None -> noteOfRequest = [])) /\
  (forall n d, note p = Some n -> trim n = n -> n <> [] -> description = Some d ->
               noteOfRequest = n).
Proof.
  intros B Ef description noteOfRequest.
  destruct (buildUploadRequest_inr env p w w' req B)
    as (sid & f' & ci & cp & op & _ & _ & Ef' & _ & _ & _ & _ & _ & _ & _ & _ & _ & _ & _ & En).
  rewrite Ef in Ef'. injection Ef' as <-.
  fold description in En. fold noteOfRequest in En.
  assert (Hd : forall d, description = Some d -> orString description [] = d).
  { intros d ->. destruct d; reflexivity. }
  split; [|split].
  - intros n E T. rewrite En, E. simpl. destruct (trim n); [congruence | reflexivity].
  - intros Hn.
    assert (Hb : orString (option_map trim (note p)) (orString description [])
                 = orString description []).
    { destruct Hn as [-> | (n & -> & T)]; simpl; [|rewrite T]; reflexivity. }
    rewrite En, Hb. split.
    + apply Hd.
    + intros ->. reflexivity.
  - intros n d E T Hn _. rewrite En, E. simpl. rewrite T.
    destruct n; [congruence | reflexivity].
Qed.

(** C9.  When the request was sent, the answer has a status from 200 to 299
    and its text is not JSON, [performUpload] returns: the result has the
    status, the text as it came, [null] for the parsed body and [null] for
    the document id. *)
Theorem C9_unparsable_success_is_returned
    (env : Env) (p : UploadParams) (w w1 : World) (req : Request)
    (r : Response) (t : jsstring) :
  buildUploadRequest env p w = (inr req, w1) ->
  respond env (calls w1) req = Responded r ->
  ok r = true ->
  text r = inl t ->
  JSON_parse t = None ->
  performUpload env p w
  = (inr {| res_status := status r; res_statusText := statusText r; rawBody := t;
            jsonBody := JNull; documentId := JNull |},
     {| calls := calls w1 ++ [req]; uuidsDrawn := uuidsDrawn w1;
        clockReads := clockReads w1 |}).
Proof.
  intros B R Hok Ht Hp.
  unfold performUpload. unfold bind at 1. rewrite B.
  unfold bind at 1. unfold fetch. rewrite R.
  unfold readUploadResponse, bind, responseText. rewrite Ht. unfold ret at 1.
  rewrite Hp, Hok. reflexivity.
Qed.

End UploadClaims.

Lemma C2_missing_kpp_rejected_before_fetch_witness :
  exists m w',
    performUpload (RT := sampleRuntime) acceptingEnv paramsWithoutKpp world0
    = (inl (HttpError 400 m), w') /\
    calls w' = calls world0 /\
    (truthy (sessionId paramsWithoutKpp) = true -> file paramsWithoutKpp <> None ->
     truthy (inn (our paramsWithoutKpp)) = true -> m = msg_kpp_required).
Proof.
  apply (C2_missing_kpp_rejected_before_fetch (RT := sampleRuntime)
           acceptingEnv paramsWithoutKpp world0 (js "7712 345 678")).
  - vm_compute. reflexivity.
  - vm_compute. reflexivity.
  - vm_compute. reflexivity.
  - vm_compute. reflexivity.
Defined.

Lemma C6_note_precedence_witness :
  match buildUploadRequest acceptingEnv sampleParams world0 with
  | (inr req, _) => Примечание (params_Документ (req_body req)) = js "Акт сверки"
  | (inl _, _) => False
  end.
Proof.
  destruct (buildUploadRequest acceptingEnv sampleParams world0) as [[e|req] w'] eqn:B.
  - vm_compute in B. discriminate B.
  - destruct (C6_note_precedence acceptingEnv sampleParams world0 w' req sampleFile B eq_refl)
      as (Given & _ & _).
    rewrite (Given (js "  Акт сверки ")).
    + vm_compute. reflexivity.
    + vm_compute. reflexivity.
    + vm_compute. discriminate.
Defined.

Lemma C9_unparsable_success_is_returned_witness :
  match performUpload (RT := sampleRuntime) htmlEnv sampleParams world0 with
  | (inr res, w') =>
      rawBody res = js "<html>maintenance</html>" /\ jsonBody res = JNull /\
      documentId res = JNull /\ res_status res = 200 /\ List.length (calls w') = 1%nat
  | (inl _, _) => False
  end.
Proof.
  destruct (buildUploadRequest htmlEnv sampleParams world0) as [[e|req] w1] eqn:B.
  - vm_compute in B. discriminate B.
  - rewrite (C9_unparsable_success_is_returned (RT := sampleRuntime)
               htmlEnv sampleParams world0 w1 req
               {| status := 200; statusText := js "OK";
                  text := inl (js "<html>maintenance</html>") |}
               (js "<html>maintenance</html>") B).
    + cbn [rawBody jsonBody documentId res_status calls].
      repeat split. rewrite length_app.
      vm_compute in B. injection B as _ <-. reflexivity.
    + reflexivity.
    + reflexivity.
    + reflexivity.
    + vm_compute. reflexivity.
Defined.

(** C7.  A date [yyyy]-[mm]-[dd] goes on the wire as [dd].[mm].[yyyy], and
    the conversion back recovers it; the date of a request that was built is
    the conversion of the date given, or, when none is given, of the first
    ten characters of the ISO string of the clock: the current date. *)
Theorem C7_wire_date_round_trip :
  (forall s yyyy mm dd,
     isoDateString s yyyy mm dd ->
     toWireDate s = dd ++ [46] ++ mm ++ [46] ++ yyyy /\
     fromWireDate (toWireDate s) = s) /\
  (forall env p w w' req,
     buildUploadRequest env p w = (inr req, w') ->
     (forall d, date p = Some d -> d <> [] ->
        Дата (params_Документ (req_body req)) = toWireDate d) /\
     (truthy (date p) = false ->
        Дата (params_Документ (req_body req))
        = toWireDate (slice0 10 (clock env (clockReads w))) /\
        forall s yyyy mm dd rest,
          isoDateString s yyyy mm dd -> clock env (clockReads w) = s ++ rest ->
          Дата (params_Документ (req_body req)) = dd ++ [46] ++ mm ++ [46] ++ yyyy)).
Proof.
  split.
  - intros s yyyy mm dd I. split.
    + apply toWireDate_iso. exact I.
    + apply fromWireDate_toWireDate. eapply isoDateString_no_dot. exact I.
  - intros env p w w' req B.
    destruct (buildUploadRequest_inr env p w w' req B)
      as (sid & f & ci & cp & op & _ & _ & _ & _ & _ & _ & _ & _ & _ & _ & _ & _ & _ & Ed & _).
    unfold todayOf in Ed. split.
    + intros d E N. rewrite Ed, E. destruct d; [congruence | reflexivity].
    + intros T.
      assert (Ed' : Дата (params_Документ (req_body req))
                    = toWireDate (slice0 10 (clock env (clockReads w)))).
      { rewrite Ed. destruct (date p) as [[|c r]|]; try reflexivity. discriminate T. }
      split; [exact Ed'|].
      intros s yyyy mm dd rest I Ec. rewrite Ed', Ec.
      assert (L : List.length s = 10%nat).
      { destruct I as (-> & Ly & Lm & Ld & _). rewrite !length_app, Ly, Lm, Ld. reflexivity. }
      unfold slice0. rewrite firstn_app, <- L, firstn_all, Nat.sub_diag, firstn_O, app_nil_r.
      apply toWireDate_iso. exact I.
Qed.

Lemma C7_wire_date_round_trip_witness :
  toWireDate (js "2024-03-15") = js "15.03.2024" /\
  fromWireDate (toWireDate (js "2024-03-15")) = js "2024-03-15" /\
  match buildUploadRequest acceptingEnv sampleParams world0 with
  | (inr req, _) => Дата (params_Документ (req_body req)) = js "15.03.2024"
  | (inl _, _) => False
  end /\
  match buildUploadRequest acceptingEnv sampleParamsNoDate world0 with
  | (inr req, _) => Дата (params_Документ (req_body req)) = js "18.03.2024"
  | (inl _, _) => False
  end.
Proof.
  destruct C7_wire_date_round_trip as (Pure & Built).
  assert (I : isoDateString (js "2024-03-15") (js "2024") (js "03") (js "15"))
    by (repeat split; vm_compute; reflexivity).
  destruct (Pure _ _ _ _ I) as (W & R).
  split; [rewrite W; vm_compute; reflexivity|]. split; [exact R|]. split.
  - destruct (buildUploadRequest acceptingEnv sampleParams world0) as [[e|req] w'] eqn:B.
    + vm_compute in B. discriminate B.
    + destruct (Built acceptingEnv sampleParams world0 w' req B) as (Given & _).
      rewrite (Given (js "2024-03-15")).
      * rewrite W. vm_compute. reflexivity.
      * vm_compute. reflexivity.
      * vm_compute. discriminate.
  - destruct (buildUploadRequest acceptingEnv sampleParamsNoDate world0)
      as [[e|req] w'] eqn:B.
    + vm_compute in B. discriminate B.
    + destruct (Built acceptingEnv sampleParamsNoDate world0 w' req B) as (_ & Default).
      destruct (Default eq_refl) as (_ & Iso).
      rewrite (Iso (js "2024-03-18") (js "2024") (js "03") (js "18") (js "T09:30:00.000Z")).
      * vm_compute. reflexivity.
      * repeat split; vm_compute; reflexivity.
      * vm_compute. reflexivity.
Defined.

(** C10.  When our tax id, without its white space, is a string of 10 digits
    and no registration code is given for our side, [buildParticipant] makes
    of it the organization with that tax id and no КПП; that is the
    [НашаОрганизация] of every request built; and the request is built
    whenever the session id and the file are there and the counterparty
    passes its own checks: the missing code of our side raises nothing. *)
Theorem C10_own_organization_needs_no_kpp
    (env : Env) (p : UploadParams) (w : World) (s : jsstring) :
  inn (our p) = Some s ->
  forallb isDigit (stripWhitespace s) = true ->
  List.length (stripWhitespace s) = 10%nat ->
  truthy (kpp (our p)) = false ->
  buildParticipant (our p) = inr (СвЮЛ (stripWhitespace s) None) /\
  (forall req w', buildUploadRequest env p w = (inr req, w') ->
     НашаОрганизация (params_Документ (req_body req)) = СвЮЛ (stripWhitespace s) None) /\
  (forall sid f c,
     sessionId p = Some sid -> sid <> [] -> file p = Some f ->
     inn (client p) = Some c ->
     forallb isDigit (stripWhitespace c) = true ->
     (List.length (stripWhitespace c) = 12%nat \/
      (List.length (stripWhitespace c) = 10%nat /\
       truthy (option_map trim (kpp (client p))) = true)) ->
     exists req w', buildUploadRequest env p w = (inr req, w') /\
       НашаОрганизация (params_Документ (req_body req)) = СвЮЛ (stripWhitespace s) None).
Proof.
  intros Eo D L K.
  assert (Ns : s <> []) by (intros ->; discriminate L).
  assert (Bo : buildParticipant (our p) = inr (СвЮЛ (stripWhitespace s) None)).
  { rewrite (buildParticipant_unfold (our p) s Eo Ns). cbv zeta.
    rewrite allDigits1_forallb by (intros E; rewrite E in L; discriminate L).
    rewrite D, L, (spreadTrimmed_absent _ K). reflexivity. }
  assert (Built : forall req w', buildUploadRequest env p w = (inr req, w') ->
            НашаОрганизация (params_Документ (req_body req)) = СвЮЛ (stripWhitespace s) None).
  { intros req w' B.
    destruct (buildUploadRequest_inr env p w w' req B)
      as (sid & f & ci & cp & op & _ & _ & _ & _ & _ & _ & _ & Eop & _ & _ & _ & _ & En & _).
    rewrite En. rewrite Bo in Eop. injection Eop as <-. reflexivity. }
  split; [exact Bo|]. split; [exact Built|].
  intros sid f c Es Nsid Ef Ec Dc Lc.
  assert (Nc : c <> []) by (intros ->; destruct Lc as [Lc|[Lc _]]; discriminate Lc).
  assert (Nn : stripWhitespace c <> [])
    by (intros E; rewrite E in Lc; destruct Lc as [Lc|[Lc _]]; discriminate Lc).
  assert (Ek : (List.length (stripWhitespace c) =? 10)%nat
               && negb (truthy (option_map trim (kpp (client p)))) = false).
  { destruct Lc as [Lc|[Lc Kc]]; [rewrite Lc; reflexivity|].
    rewrite Kc. apply andb_false_r. }
  assert (Ecp : exists cp, buildParticipant (counterpartyInput p c) = inr cp).
  { pose proof (stripWhitespace_idem c) as Nw.
    rewrite (buildParticipant_unfold (counterpartyInput p c) (stripWhitespace c) eq_refl Nn).
    cbv zeta. rewrite Nw, (allDigits1_forallb _ Nn), Dc. simpl negb. cbv iota.
    destruct Lc as [Lc|[Lc _]]; rewrite Lc; eexists; reflexivity. }
  destruct Ecp as (cp & Ecp).
  destruct (buildUploadRequest_succeeds env p w sid c s f cp _ Es Nsid Ef Ec Nc Eo Ns Ek Ecp Bo)
    as (req & w' & B).
  exists req, w'. split; [exact B | exact (Built req w' B)].
Qed.

Lemma C10_own_organization_needs_no_kpp_witness :
  buildParticipant (our sampleParams) = inr (СвЮЛ (js "7707083893") None) /\
  match buildUploadRequest acceptingEnv sampleParams world0 with
  | (inr req, _) =>
      НашаОрганизация (params_Документ (req_body req)) = СвЮЛ (js "7707083893") None
  | (inl _, _) => False
  end.
Proof.
  destruct (C10_own_organization_needs_no_kpp acceptingEnv sampleParams world0
              (js "77 0708 3893")) as (Own & Built & _).
  - vm_compute. reflexivity.
  - vm_compute. reflexivity.
  - vm_compute. reflexivity.
  - vm_compute. reflexivity.
  - split; [rewrite Own; vm_compute; reflexivity|].
    destruct (buildUploadRequest acceptingEnv sampleParams world0) as [[e|req] w'] eqn:B.
    + vm_compute in B. discriminate B.
    + rewrite (Built req w' eq_refl). vm_compute. reflexivity.
Defined.

(** ** The batch endpoint *)

Section BatchProperties.
Context {RT : Runtime}.

Lemma batchLoop_acc (env : Env) (body : BatchBody) (files : list UploadedFile)
    (acc : list BatchEntry) (w : World) :
  batchLoop env body files acc w
  = (acc ++ fst (batchLoop env body files [] w), snd (batchLoop env body files [] w)).
Proof.
  revert acc w. induction files as [|f files IH]; intros acc w.
  - simpl. rewrite app_nil_r. reflexivity.
  - simpl. destruct (batchItem env body f w) as [e w1].
    rewrite (IH (acc ++ [e]) w1), (IH [e] w1). simpl.
    rewrite <- app_assoc. reflexivity.
Qed.

Lemma batchLoop_cons (env : Env) (body : BatchBody) (f : UploadedFile)
    (files : list UploadedFile) (w : World) :
  batchLoop env body (f :: files) [] w
  = (fst (batchItem env body f w)
       :: fst (batchLoop env body files [] (snd (batchItem env body f w))),
     snd (batchLoop env body files [] (snd (batchItem env body f w)))).
Proof.
  simpl. destruct (batchItem env body f w) as [e w1]. simpl.
  rewrite (batchLoop_acc env body files [e] w1). reflexivity.
Qed.

(** The loop over two lists of files one after the other. *)
Lemma batchLoop_app (env : Env) (body : BatchBody) (fs1 fs2 : list UploadedFile) (w : World) :
  batchLoop env body (fs1 ++ fs2) [] w
  = (fst (batchLoop env body fs1 [] w)
       ++ fst (batchLoop env body fs2 [] (worldAfter env body fs1 w)),
     worldAfter env body fs2 (worldAfter env body fs1 w)).
Proof.
  unfold worldAfter. revert w. induction fs1 as [|f fs1 IH]; intros w.
  - simpl. destruct (batchLoop env body fs2 [] w). reflexivity.
  - rewrite <- app_comm_cons, !batchLoop_cons, IH. reflexivity.
Qed.

Lemma batchItem_fileName (env : Env) (body : BatchBody) (f : UploadedFile) (w : World) :
  fileName (fst (batchItem env body f w)) = originalname f.
Proof.
  unfold batchItem. cbv zeta.
  destruct (fst (parseInnKppFromFilename _)) as [[|c r]|]; try reflexivity.
  destruct (performUpload _ _ _) as [[e|res] w']; reflexivity.
Qed.

Lemma batchLoop_names (env : Env) (body : BatchBody) (files : list UploadedFile) (w : World) :
  map fileName (fst (batchLoop env body files [] w)) = map originalname files.
Proof.
  revert w. induction files as [|f files IH]; intros w; [reflexivity|].
  rewrite batchLoop_cons. simpl. rewrite batchItem_fileName, IH. reflexivity.
Qed.

(** The entry at a position is the outcome of the file at that position,
    processed in the world the files before it have left. *)
Lemma batchLoop_nth (env : Env) (body : BatchBody) (files : list UploadedFile)
    (w : World) (i : nat) (f : UploadedFile) :
  nth_error files i = Some f ->
  nth_error (fst (batchLoop env body files [] w)) i
  = Some (fst (batchItem env body f (worldAfter env body (firstn i files) w))).
Proof.
  revert w i. induction files as [|g files IH]; intros w i H.
  - destruct i; discriminate H.
  - rewrite batchLoop_cons. destruct i as [|i].
    + injection H as ->. reflexivity.
    + simpl in H. simpl nth_error. rewrite (IH _ i H).
      unfold worldAfter. simpl firstn. rewrite batchLoop_cons. reflexivity.
Qed.

Lemma batchItem_no_inn (env : Env) (body : BatchBody) (f : UploadedFile) (w : World) :
  hasNoInn f -> batchItem env body f w = (failedEntry f msg_inn_not_found, w).
Proof.
  unfold hasNoInn, batchItem. cbv zeta.
  destruct (fst (parseInnKppFromFilename _)) as [[|c r]|]; try reflexivity.
  discriminate.
Qed.

Lemma batchItem_upload (env : Env) (body : BatchBody) (f : UploadedFile) (w : World) :
  ~ hasNoInn f ->
  batchItem env body f w
  = match performUpload env (itemParams body f) w with
    | (inr result, w') =>
        ({| fileName := originalname f; entry_ok := true;
            entry_documentId := Some (documentId result); entry_error := None |}, w')
    | (inl e, w') => (failedEntry f (errorMessage e), w')
    end.
Proof.
  unfold hasNoInn, batchItem, itemParams. cbv zeta.
  destruct (fst (parseInnKppFromFilename _)) as [[|c r]|] eqn:E; try reflexivity;
    intros H; exfalso; apply H; reflexivity.
Qed.

(** A file without tax id in its name can be taken out of the batch: the
    entries of the other files are the same. *)
Lemma batchLoop_without_no_inn (env : Env) (body : BatchBody)
    (fs1 fs2 : list UploadedFile) (f : UploadedFile) (w : World) :
  hasNoInn f ->
  fst (batchLoop env body (fs1 ++ f :: fs2) [] w)
  = fst (batchLoop env body fs1 [] w)
      ++ failedEntry f msg_inn_not_found
      :: fst (batchLoop env body fs2 [] (worldAfter env body fs1 w)) /\
  fst (batchLoop env body (fs1 ++ fs2) [] w)
  = fst (batchLoop env body fs1 [] w)
      ++ fst (batchLoop env body fs2 [] (worldAfter env body fs1 w)) /\
  worldAfter env body (fs1 ++ f :: fs2) w = worldAfter env body (fs1 ++ fs2) w.
Proof.
  intros H. split; [|split].
  - rewrite batchLoop_app, batchLoop_cons, (batchItem_no_inn env body f _ H).
    reflexivity.
  - rewrite batchLoop_app. reflexivity.
  - unfold worldAfter at 1 2. rewrite !batchLoop_app. cbn [snd].
    unfold worldAfter at 1. rewrite batchLoop_cons, (batchItem_no_inn env body f _ H).
    reflexivity.
Qed.

(** C3 (amended).  For every non-empty list of files, the batch handler
    answers with the number of files and one entry for each file, in the
    order of the files: the entry at a position carries the name of that
    file and is the outcome of that file alone, processed in the world the
    files before it have left.  A file with no tax id in its name gets the
    failed entry "Не найден ИНН в названии файла" and nothing is sent for it;
    for any other file the failure of [performUpload] is caught and its
    message recorded, and its success is recorded with the document id. *)
Theorem C3_batch_one_entry_per_file
    (env : Env) (body : BatchBody) (files : list UploadedFile) (w : World) :
  files <> [] ->
  exists results w',
    uploadBatch env body files w = (BatchReport (Z.of_nat (List.length files)) results, w') /\
    List.length results = List.length files /\
    map fileName results = map originalname files /\
    (forall i f, nth_error files i = Some f ->
       nth_error results i
       = Some (fst (batchItem env body f (worldAfter env body (firstn i files) w)))) /\
    (forall f w0, hasNoInn f ->
       batchItem env body f w0 = (failedEntry f msg_inn_not_found, w0)) /\
    (forall f w0 e w1, ~ hasNoInn f ->
       performUpload env (itemParams body f) w0 = (inl e, w1) ->
       batchItem env body f w0 = (failedEntry f (errorMessage e), w1)) /\
    (forall f w0 result w1, ~ hasNoInn f ->
       performUpload env (itemParams body f) w0 = (inr result, w1) ->
       batchItem env body f w0
       = ({| fileName := originalname f; entry_ok := true;
             entry_documentId := Some (documentId result); entry_error := None |}, w1)).
Proof.
  intros N.
  exists (fst (batchLoop env body files [] w)), (snd (batchLoop env body files [] w)).
  split; [|split; [|split; [|split; [|split; [|split]]]]].
  - unfold uploadBatch. destruct files as [|f files]; [congruence|].
    destruct (batchLoop env body (f :: files) [] w). reflexivity.
  - rewrite <- (length_map fileName), batchLoop_names, length_map. reflexivity.
  - apply batchLoop_names.
  - intros i f H. apply batchLoop_nth. exact H.
  - intros f w0 H. apply batchItem_no_inn. exact H.
  - intros f w0 e w1 H P. rewrite (batchItem_upload env body f w0 H), P. reflexivity.
  - intros f w0 result w1 H P. rewrite (batchItem_upload env body f w0 H), P. reflexivity.
Qed.

End BatchProperties.

Lemma C3_batch_one_entry_per_file_witness :
  exists results w',
    uploadBatch (RT := sampleRuntime) acceptingEnv sampleBody sampleFiles world0
    = (BatchReport 4 results, w') /\
    List.length results = 4%nat /\
    map fileName results = map originalname sampleFiles.
Proof.
  destruct (C3_batch_one_entry_per_file (RT := sampleRuntime)
              acceptingEnv sampleBody sampleFiles world0)
    as (results & w' & E & L & Names & _); [discriminate|].
  exists results, w'. split; [exact E|]. split; [exact L | exact Names].
Defined.

(** With no file at all the handler answers 400 with an error: there is
    neither a total nor a list of entries. *)
Lemma C3_counterexample_empty_batch :
  uploadBatch (RT := sampleRuntime) acceptingEnv sampleBody [] world0
  = (BatchError 400 (js "Выберите минимум один файл"), world0) /\
  forall total results w',
    uploadBatch (RT := sampleRuntime) acceptingEnv sampleBody [] world0
    <> (BatchReport total results, w').
Proof.
  split; [vm_compute; reflexivity|]. intros total results w' H. discriminate H.
Qed.

(** ** [SabyClient]: the cached token *)

Section ClientProperties.
Context {RT : Runtime}.

(** With a token in the cache, [authenticate] returns it and does nothing. *)
Lemma authenticate_cached (remote : Client.Remote) (st : Client.State) :
  isTruthy (Client.token (Client.self st)) = true ->
  Client.authenticate remote st = (inr (Client.token (Client.self st)), st).
Proof.
  intros H. unfold Client.authenticate, Client.bind, Client.getSelf.
  rewrite H. reflexivity.
Qed.

(** What [authenticate] returns is what it leaves in the cache, and it
    sends one request at most. *)
Lemma authenticate_returns_cache (remote : Client.Remote) (st st' : Client.State) (t : value) :
  Client.authenticate remote st = (inr t, st') ->
  Client.token (Client.self st') = t /\
  (Client.calls st' = Client.calls st \/
   exists req, Client.calls st' = Client.calls st ++ [req] /\
               Client.isAuthRequest req = true).
Proof.
  unfold Client.authenticate, Client.bind at 1, Client.getSelf.
  destruct (isTruthy (Client.token (Client.self st))) eqn:T.
  - intros H. injection H as <- <-. auto.
  - unfold Client.bind at 1, Client.fetch.
    destruct (remote (Client.calls st) _) as [m|res]; [discriminate|].
    destruct (negb (Client.ok res)); [discriminate|].
    unfold Client.bind at 1, Client.responseJson.
    destruct (Client.json_ res) as [m|data]; [discriminate|].
    unfold Client.ret at 1.
    destruct data; try discriminate;
      unfold Client.bind, Client.setToken, Client.getSelf, Client.ret;
      cbn [Client.self Client.calls Client.token Client.config];
      intros H; injection H as <- <-; cbn [Client.self Client.calls Client.token];
      (split; [reflexivity|]); right; eexists; split; reflexivity.
Qed.

(** With a token in the cache, [uploadDraftDocument] sends the document
    with that token and nothing else. *)
Lemma uploadDraftDocument_cached (remote : Client.Remote) (st : Client.State)
    (meta : json Num) (fileBuffer : list Z) (name : jsstring) :
  isTruthy (Client.token (Client.self st)) = true ->
  exists r req,
    Client.uploadDraftDocument remote meta fileBuffer name st
    = (r, {| Client.self := Client.self st; Client.calls := Client.calls st ++ [req] |}) /\
    Client.isAuthRequest req = false /\
    Client.Authorization req
    = Some (js "Bearer " ++ Client.interpolate (Client.token (Client.self st))).
Proof.
  intros H. unfold Client.uploadDraftDocument. unfold Client.bind at 1.
  rewrite (authenticate_cached remote st H).
  unfold Client.bind at 1, Client.getSelf. unfold Client.bind at 1, Client.fetch.
  destruct (remote (Client.calls st) _) as [m|res].
  - eexists _, _. split; [reflexivity|]. split; reflexivity.
  - destruct (negb (Client.ok res)).
    + eexists _, _. split; [reflexivity|]. split; reflexivity.
    + unfold Client.responseJson. destruct (Client.json_ res);
        eexists _, _; (split; [reflexivity|]); split; reflexivity.
Qed.

Lemma runCalls_cached (remote : Client.Remote) (cs : list Client.Call) (st : Client.State) :
  isTruthy (Client.token (Client.self st)) = true ->
  exists rs extra,
    Client.runCalls remote cs st
    = (rs, {| Client.self := Client.self st; Client.calls := Client.calls st ++ extra |}) /\
    Forall (fun req => Client.isAuthRequest req = false /\
                       Client.Authorization req
                       = Some (js "Bearer "
                               ++ Client.interpolate (Client.token (Client.self st)))) extra /\
    (forall r, In (Client.CallAuthenticate, r) rs -> r = inr (Client.token (Client.self st))).
Proof.
  revert st. induction cs as [|c cs IH]; intros st H.
  - exists [], []. simpl. rewrite app_nil_r. destruct st. repeat split; auto.
    intros r [].
  - simpl. destruct c as [|meta fileBuffer name].
    + simpl. rewrite (authenticate_cached remote st H).
      destruct (IH st H) as (rs & extra & E & F & A). rewrite E.
      exists ((Client.CallAuthenticate, inr (Client.token (Client.self st))) :: rs), extra.
      split; [reflexivity|]. split; [exact F|].
      intros r [I|I]; [injection I as <-; reflexivity | exact (A r I)].
    + simpl. unfold Client.bind.
      destruct (uploadDraftDocument_cached remote st meta fileBuffer name H)
        as (r & req & E & NA & Au).
      rewrite E.
      set (st1 := {| Client.self := Client.self st; Client.calls := Client.calls st ++ [req] |}).
      destruct (IH st1 H) as (rs & extra & E1 & F & A).
      exists ((Client.CallUploadDraftDocument meta fileBuffer name,
               match r with inl e => inl e | inr j => inr (Some j) end) :: rs),
             (req :: extra).
      split.
      * destruct r as [e|j]; unfold Client.ret; rewrite E1; subst st1;
          cbn [Client.self Client.calls]; rewrite <- app_assoc; reflexivity.
      * split; [constructor; [split; assumption | exact F]|].
        intros r0 [I|I]; [discriminate I | exact (A r0 I)].
Qed.

(** C8.  Once [authenticate] has returned a token (a value that counts as
    true: a response without token, or with an empty one, caches nothing),
    the token is in the cache, and in every sequence of later calls of
    [authenticate] and [uploadDraftDocument] each [authenticate] returns that
    token, the cache keeps it, and every request sent is a document upload
    that carries it: no authentication request is sent again. *)
Theorem C8_token_cached_for_lifetime
    (remote : Client.Remote) (st st1 : Client.State) (t : value) :
  Client.authenticate remote st = (inr t, st1) ->
  isTruthy t = true ->
  Client.token (Client.self st1) = t /\
  (List.length (filter Client.isAuthRequest (Client.calls st1))
   <= S (List.length (filter Client.isAuthRequest (Client.calls st))))%nat /\
  forall cs, exists rs extra st2,
    Client.runCalls remote cs st1 = (rs, st2) /\
    Client.token (Client.self st2) = t /\
    Client.calls st2 = Client.calls st1 ++ extra /\
    filter Client.isAuthRequest (Client.calls st2)
    = filter Client.isAuthRequest (Client.calls st1) /\
    Forall (fun req => Client.Authorization req
                       = Some (js "Bearer " ++ Client.interpolate t)) extra /\
    (forall r, In (Client.CallAuthenticate, r) rs -> r = inr t).
Proof.
  intros A T. destruct (authenticate_returns_cache remote st st1 t A) as (Et & Calls).
  split; [exact Et|]. split.
  - destruct Calls as [-> | (req & -> & Ia)]; [lia|].
    rewrite filter_app, length_app. simpl. rewrite Ia. simpl. lia.
  - intros cs. rewrite <- Et in T.
    destruct (runCalls_cached remote cs st1 T) as (rs & extra & E & F & R).
    exists rs, extra, {| Client.self := Client.self st1;
                         Client.calls := Client.calls st1 ++ extra |}.
    rewrite Et in F, R.
    split; [exact E|]. split; [exact Et|]. split; [reflexivity|]. split; [|split].
    + cbn [Client.calls]. rewrite filter_app.
      assert (N : filter Client.isAuthRequest extra = []).
      { clear E. induction F as [|q qs [Hq _] _ IH]; [reflexivity|].
        simpl. rewrite Hq. exact IH. }
      rewrite N. apply app_nil_r.
    + eapply Forall_impl; [|exact F]. intros q [_ Hq]. exact Hq.
    + exact R.
Qed.

End ClientProperties.

Lemma C8_token_cached_for_lifetime_witness :
  exists st1 : Client.State (RT := sampleRuntime),
    Client.authenticate sampleRemote freshClient = (inr (Some (JString (js "tok-1"))), st1) /\
    forall cs, exists rs extra st2,
      Client.runCalls sampleRemote cs st1 = (rs, st2) /\
      Client.token (Client.self st2) = Some (JString (js "tok-1")) /\
      Client.calls st2 = Client.calls st1 ++ extra /\
      filter (Client.isAuthRequest (RT := sampleRuntime)) (Client.calls st2)
      = filter (Client.isAuthRequest (RT := sampleRuntime)) (Client.calls st1) /\
      Forall (fun req => Client.Authorization req
                         = Some (js "Bearer "
                                 ++ Client.interpolate (RT := sampleRuntime)
                                      (Some (JString (js "tok-1")))))
             extra /\
      (forall r, In (Client.CallAuthenticate, r) rs -> r = inr (Some (JString (js "tok-1")))).
Proof.
  assert (A : Client.authenticate sampleRemote freshClient
              = (inr (Some (JString (js "tok-1"))),
                 snd (Client.authenticate sampleRemote freshClient)))
    by (vm_cast_no_check (eq_refl (Client.authenticate sampleRemote freshClient))).
  exists (snd (Client.authenticate sampleRemote freshClient)). split; [exact A|].
  exact (proj2 (proj2 (C8_token_cached_for_lifetime (RT := sampleRuntime) sampleRemote
                         freshClient _ (Some (JString (js "tok-1"))) A eq_refl))).
Defined.

(** * Further properties of the code *)

(** ** The period description *)

(** X1.  [extractWeekDescription] returns unset exactly when the name has
    no substring of the shape DD-MM-YYYY (digits and two hyphens): every
    such substring gets a label, whatever its digits. *)
Theorem X1_period_description_unset_iff (name : jsstring) :
  extractWeekDescription name = None <-> (forall w, dateShaped w -> ~ occursIn w name).
Proof. apply extractWeekDescription_unset_iff. Qed.

Lemma Date_UTC_rolled (y m d : Z) :
  100 <= y <= 9999 -> 0 <= m <= 99 -> 0 <= d <= 99 ->
  Date_UTC y (m - 1) d = Some (rolledDayNumber y m d * msPerDay).
Proof.
  intros Hy Hm Hd. unfold Date_UTC.
  destruct (Z.leb_spec y 99) as [L|_]; [lia|]. rewrite andb_false_r.
  unfold MakeDay, MakeDate, rolledDayNumber, Calendar.dayNumber. cbv zeta.
  assert (Hq : -1 <= (m - 1) / 12 <= 8) by (Z.div_mod_to_equations; lia).
  assert (Hr : 0 <= (m - 1) mod 12 <= 11) by (Z.div_mod_to_equations; lia).
  rewrite daysBeforeMonth_monthStart by lia.
  replace ((m - 1) mod 12 + 1 - 1) with ((m - 1) mod 12) by lia.
  rewrite Z.add_0_r.
  replace (DayFromYear (y + (m - 1) / 12)
           + monthStart (DaysInYear (y + (m - 1) / 12) - 365) ((m - 1) mod 12) + d - 1)
    with (DayFromYear (y + (m - 1) / 12)
          + monthStart (DaysInYear (y + (m - 1) / 12) - 365) ((m - 1) mod 12)
          + (1 - 1) + (d - 1)) by lia.
  apply TimeClip_days.
  pose proof (DayFromYear_bounds_wide (y + (m - 1) / 12) ltac:(lia)).
  pose proof (monthStart_bounds (DaysInYear (y + (m - 1) / 12) - 365) ((m - 1) mod 12)
                (DaysInYear_cases _)).
  lia.
Qed.

Lemma rolledDayNumber_bounds (y m d : Z) :
  0 <= y <= 9999 -> 0 <= m <= 99 -> 0 <= d <= 99 ->
  -1000000 <= rolledDayNumber y m d <= 3000000.
Proof.
  intros Hy Hm Hd. unfold rolledDayNumber, Calendar.dayNumber.
  assert (Hq : -1 <= (m - 1) / 12 <= 8) by (Z.div_mod_to_equations; lia).
  assert (Hr : 0 <= (m - 1) mod 12 <= 11) by (Z.div_mod_to_equations; lia).
  rewrite daysBeforeMonth_monthStart by lia.
  pose proof (DayFromYear_bounds_wide (y + (m - 1) / 12) ltac:(lia)).
  pose proof (monthStart_bounds (DaysInYear (y + (m - 1) / 12) - 365)
                ((m - 1) mod 12 + 1 - 1) (DaysInYear_cases _)).
  lia.
Qed.

(** From year 101 on, the week of the day that the digits denote lies in a
    week-numbering year that [Date.UTC] reads as it is. *)
Lemma rolled_isoYear (y m d : Z) :
  101 <= y <= 9999 -> 0 <= m <= 99 -> 0 <= d <= 99 ->
  100 <= Calendar.isoYear (rolledDayNumber y m d).
Proof.
  intros Hy Hm Hd. unfold Calendar.isoYear, Calendar.yearOfDay.
  apply YearFromTime_largest. rewrite Day_of_days.
  pose proof (isoWeekday_range (rolledDayNumber y m d)).
  unfold Calendar.weekThursday.
  assert (DayFromYear 100 + 3 <= rolledDayNumber y m d); [|lia].
  unfold rolledDayNumber, Calendar.dayNumber.
  assert (Hq : -1 <= (m - 1) / 12 <= 8) by (Z.div_mod_to_equations; lia).
  assert (Hr : 0 <= (m - 1) mod 12 <= 11) by (Z.div_mod_to_equations; lia).
  rewrite daysBeforeMonth_monthStart by lia.
  pose proof (monthStart_bounds (DaysInYear (y + (m - 1) / 12) - 365)
                ((m - 1) mod 12 + 1 - 1) (DaysInYear_cases _)).
  pose proof (DayFromYear_mono 101 (y + (m - 1) / 12)) as Mo.
  destruct (Z.eq_dec ((m - 1) / 12) (-1)) as [E|E].
  - (* month 00: December of the year before *)
    assert (m = 0) by (Z.div_mod_to_equations; lia). subst m.
    change ((0 - 1) / 12) with (-1). change ((0 - 1) mod 12 + 1 - 1) with 11.
    pose proof (DayFromYear_mono 100 (y + -1) ltac:(lia)).
    unfold monthStart. pose proof (DaysInYear_cases (y + -1)). lia.
  - specialize (Mo ltac:(lia)).
    assert (DayFromYear 100 + 365 <= DayFromYear 101) by (vm_compute; discriminate).
    lia.
Qed.

Lemma isoWeek_range (n : Z) : 1 <= Calendar.isoWeek n <= 53.
Proof.
  unfold Calendar.isoWeek. cbv zeta.
  pose proof (YearFromTime_spec (Calendar.weekThursday n * msPerDay)) as S.
  rewrite Day_of_days in S. fold (Calendar.yearOfDay (Calendar.weekThursday n)) in S.
  fold (Calendar.isoYear n) in S.
  assert (Hstep : DayFromYear (Calendar.isoYear n + 1) <= DayFromYear (Calendar.isoYear n) + 366)
    by (unfold DayFromYear; Z.div_mod_to_equations; lia).
  rewrite <- ceilDiv_counts_thursdays by lia.
  unfold ceilDiv.
  generalize dependent (Calendar.weekThursday n). intros th S.
  generalize dependent (DayFromYear (Calendar.isoYear n + 1)).
  generalize dependent (DayFromYear (Calendar.isoYear n)). intros a b S H.
  Z.div_mod_to_equations. lia.
Qed.

Lemma extractWeekDescription_rolled (name dd mm yyyy : jsstring) (day month year : Z) :
  leftmostDate name dd mm yyyy ->
  Number dd = Some day -> Number mm = Some month -> Number yyyy = Some year ->
  101 <= year ->
  extractWeekDescription name
  = Some (weekLabel (Some (Calendar.isoWeek (rolledDayNumber year month day)))).
Proof.
  intros L Nd Nm Ny Hy.
  assert (B : 0 <= day <= 99 /\ 0 <= month <= 99 /\ 0 <= year <= 9999).
  { destruct L as (pre & post & E & Hd & Hm & Hl & D & _).
    rewrite !forallb_app, !andb_true_iff in D. destruct D as (Dd & Dm & Dy).
    destruct (Number_2digits dd Hd Dd) as (v1 & N1 & B1).
    destruct (Number_2digits mm Hm Dm) as (v2 & N2 & B2).
    destruct (Number_4digits yyyy Hl Dy) as (v3 & N3 & B3).
    rewrite Nd in N1. rewrite Nm in N2. rewrite Ny in N3.
    injection N1 as <-. injection N2 as <-. injection N3 as <-. auto. }
  destruct B as (Bd & Bm & By).
  unfold extractWeekDescription.
  rewrite (matchDate_leftmost _ _ _ _ L), Nd, Nm, Ny.
  rewrite Date_UTC_rolled by lia.
  pose proof (rolledDayNumber_bounds year month day ltac:(lia) ltac:(lia) ltac:(lia)).
  pose proof (rolled_isoYear year month day ltac:(lia) ltac:(lia) ltac:(lia)).
  rewrite getIsoWeek_isoWeek by lia.
  reflexivity.
Qed.

(** X2.  Neither the day nor the month of the date in the name is checked:
    from year 0101 on, the label carries the ISO week of the day obtained
    by carrying months beyond 12 into the year and counting [day - 1] days
    from the first of the month (month 00 is December of the year before,
    day 00 the last day of the month before).  A day [k] past the end of a
    month is day [k] of the next month. *)
Theorem X2_period_description_rolls_over :
  (forall (name dd mm yyyy : jsstring) (day month year : Z),
     leftmostDate name dd mm yyyy ->
     Number dd = Some day -> Number mm = Some month -> Number yyyy = Some year ->
     101 <= year ->
     extractWeekDescription name
     = Some (weekLabel (Some (Calendar.isoWeek (rolledDayNumber year month day))))) /\
  (forall year month k,
     1 <= month <= 11 ->
     rolledDayNumber year month (Calendar.daysInMonth year month + k)
     = Calendar.dayNumber year (month + 1) k) /\
  (forall year month day,
     1 <= month <= 12 -> rolledDayNumber year month day = Calendar.dayNumber year month day).
Proof.
  split; [|split].
  - intros. eapply extractWeekDescription_rolled; eassumption.
  - intros year month k Hm. unfold rolledDayNumber.
    rewrite (Z.div_small (month - 1) 12), (Z.mod_small (month - 1) 12) by lia.
    rewrite Z.add_0_r. replace (month - 1 + 1) with month by lia.
    unfold Calendar.dayNumber.
    rewrite !daysBeforeMonth_monthStart by lia.
    replace (month + 1 - 1) with month by lia.
    assert (monthStart (DaysInYear year - 365) month
            = monthStart (DaysInYear year - 365) (month - 1)
              + Calendar.daysInMonth year month); [|lia].
    unfold DaysInYear, Calendar.daysInMonth, Calendar.isLeap.
    generalize ((year mod 4 =? 0) && (negb (year mod 100 =? 0) || (year mod 400 =? 0))).
    intros leap.
    assert (month = 1 \/ month = 2 \/ month = 3 \/ month = 4 \/ month = 5 \/ month = 6
            \/ month = 7 \/ month = 8 \/ month = 9 \/ month = 10 \/ month = 11) as C by lia.
    repeat (destruct C as [C | C]); subst month; destruct leap; vm_compute; reflexivity.
  - intros year month day Hm. unfold rolledDayNumber.
    rewrite (Z.div_small (month - 1) 12), (Z.mod_small (month - 1) 12) by lia.
    rewrite Z.add_0_r. replace (month - 1 + 1) with month by lia.
    unfold Calendar.dayNumber. lia.
Qed.

Lemma X2_period_description_rolls_over_witness :
  extractWeekDescription day32Name
  = Some (weekLabel (Some (Calendar.isoWeek (Calendar.dayNumber 2024 2 1)))) /\
  extractWeekDescription (js "акт 00-13-2023.docx")
  = Some (weekLabel (Some (Calendar.isoWeek (Calendar.dayNumber 2023 12 31)))).
Proof.
  destruct X2_period_description_rolls_over as (Label & Next & _).
  split.
  - rewrite (Label day32Name (js "32") (js "01") (js "2024") 32 1 2024).
    + replace (rolledDayNumber 2024 1 32) with (Calendar.dayNumber 2024 2 1);
        [reflexivity|]. symmetry. exact (Next 2024 1 1 ltac:(lia)).
    + apply leftmostDate_matchDate. vm_compute. reflexivity.
    + vm_compute. reflexivity.
    + vm_compute. reflexivity.
    + vm_compute. reflexivity.
    + lia.
  - rewrite (Label (js "акт 00-13-2023.docx") (js "00") (js "13") (js "2023") 0 13 2023).
    + vm_compute. reflexivity.
    + apply leftmostDate_matchDate. vm_compute. reflexivity.
    + vm_compute. reflexivity.
    + vm_compute. reflexivity.
    + vm_compute. reflexivity.
    + lia.
Defined.

(** X3.  From year 0101 on, the week number in the label is between 1 and
    53, whatever the digits of the day and the month. *)
Theorem X3_week_number_range (name dd mm yyyy : jsstring) (year : Z) :
  leftmostDate name dd mm yyyy ->
  Number yyyy = Some year -> 101 <= year ->
  exists week,
    extractWeekDescription name = Some (weekLabel (Some week)) /\ 1 <= week <= 53.
Proof.
  intros L Ny Hy.
  destruct L as (pre & post & E & Hd & Hm & Hl & D & Lm).
  assert (D' := D). rewrite !forallb_app, !andb_true_iff in D'. destruct D' as (Dd & Dm & Dy).
  destruct (Number_2digits dd Hd Dd) as (day & Nd & _).
  destruct (Number_2digits mm Hm Dm) as (month & Nm & _).
  exists (Calendar.isoWeek (rolledDayNumber year month day)). split.
  - apply (extractWeekDescription_rolled name dd mm yyyy day month year); try assumption.
    exists pre, post. repeat split; assumption.
  - apply isoWeek_range.
Qed.

Lemma X3_week_number_range_witness :
  exists week,
    extractWeekDescription (js "сводка 99-99-2024.docx") = Some (weekLabel (Some week))
    /\ 1 <= week <= 53.
Proof.
  apply (X3_week_number_range (js "сводка 99-99-2024.docx")
           (js "99") (js "99") (js "2024") 2024).
  - apply leftmostDate_matchDate. vm_compute. reflexivity.
  - vm_compute. reflexivity.
  - lia.
Defined.

(** ** [buildParticipant] *)

Lemma trimStart_spec (s : jsstring) :
  exists a, s = a ++ trimStart s /\ forallb isWhiteSpace a = true /\
            (forall c r, trimStart s = c :: r -> isWhiteSpace c = false).
Proof.
  induction s as [|x s (a & E & W & F)].
  - exists []. repeat split. intros c r H. discriminate H.
  - simpl. destruct (isWhiteSpace x) eqn:Wx.
    + exists (x :: a). simpl. rewrite Wx, W. rewrite <- E. repeat split. exact F.
    + exists []. repeat split. intros c r H. injection H as <- _. exact Wx.
Qed.

Lemma trimStart_prefix_head (s : jsstring) (c : Z) (r : jsstring) :
  isWhiteSpace c = false -> trimStart (c :: r) = c :: r.
Proof. intros H. simpl. rewrite H. reflexivity. Qed.

Lemma trimEnd_spec (t : jsstring) :
  exists b, t = trimEnd t ++ b /\ forallb isWhiteSpace b = true /\
            (forall c r, trimEnd t = r ++ [c] -> isWhiteSpace c = false).
Proof.
  unfold trimEnd. destruct (trimStart_spec (rev t)) as (a & E & W & F).
  exists (rev a). split; [|split].
  - rewrite <- rev_app_distr, <- E, rev_involutive. reflexivity.
  - rewrite forallb_forall in W |- *. intros x I. apply W. apply in_rev. exact I.
  - intros c r H. apply (F c (rev r)).
    rewrite <- (rev_involutive (trimStart (rev t))), H, rev_app_distr. reflexivity.
Qed.

(** [trim] takes white space off both ends and nothing else. *)
Lemma trim_spec (s : jsstring) :
  (exists a b, s = a ++ trim s ++ b /\
               forallb isWhiteSpace a = true /\ forallb isWhiteSpace b = true) /\
  trimmedString (trim s).
Proof.
  unfold trim.
  destruct (trimStart_spec s) as (a & Ea & Wa & Fa).
  destruct (trimEnd_spec (trimStart s)) as (b & Eb & Wb & Fb).
  split.
  - exists a, b. split; [|split; assumption]. rewrite <- Eb. exact Ea.
  - split; [|exact Fb].
    intros c r H. rewrite H in Eb. simpl in Eb.
    exact (Fa c (r ++ b) Eb).
Qed.

Lemma buildParticipant_inr (p : ParticipantInput) (r : Participant) :
  buildParticipant p = inr r ->
  exists s, inn p = Some s /\ s <> [] /\
    forallb isDigit (stripWhitespace s) = true /\
    ((List.length (stripWhitespace s) = 10%nat /\
      r = СвЮЛ (stripWhitespace s) (spreadTrimmed (kpp p))) \/
     (List.length (stripWhitespace s) = 12%nat /\
      r = СвФЛ (stripWhitespace s) (spreadTrimmed (lastName p))
            (spreadTrimmed (firstName p)) (spreadTrimmed (middleName p))
            (spreadTrimmed (snils p)))).
Proof.
  intros H.
  destruct (inn p) as [s|] eqn:E;
    [|unfold buildParticipant in H; rewrite E in H; discriminate H].
  destruct s as [|c0 s0]; [unfold buildParticipant in H; rewrite E in H; discriminate H|].
  rewrite (buildParticipant_unfold p (c0 :: s0) E ltac:(discriminate)) in H. cbv zeta in H.
  exists (c0 :: s0). split; [reflexivity|]. split; [discriminate|].
  destruct (stripWhitespace (c0 :: s0)) as [|d n] eqn:N; [discriminate H|].
  rewrite allDigits1_forallb in H by discriminate.
  destruct (forallb isDigit (d :: n)) eqn:D; [|discriminate H].
  split; [reflexivity|]. simpl negb in H. cbv iota in H.
  destruct (Nat.eqb_spec (List.length (d :: n)) 10) as [L|L].
  - left. split; [exact L|]. injection H as <-. reflexivity.
  - destruct (Nat.eqb_spec (List.length (d :: n)) 12) as [L'|L']; [|discriminate H].
    right. split; [exact L'|]. injection H as <-. reflexivity.
Qed.

(** X4.  A record that [buildParticipant] returns has as tax id the given
    one without its white space, made of digits only: 10 of them for the
    organization [СвЮЛ], 12 for the individual [СвФЛ]. *)
Theorem X4_participant_tax_id_invariant (p : ParticipantInput) (r : Participant) :
  buildParticipant p = inr r ->
  exists s, inn p = Some s /\ taxIdOf r = stripWhitespace s /\
    forallb isDigit (taxIdOf r) = true /\
    forallb (fun c => negb (isWhiteSpace c)) (taxIdOf r) = true /\
    match r with
    | СвЮЛ _ _ => List.length (taxIdOf r) = 10%nat
    | СвФЛ _ _ _ _ _ => List.length (taxIdOf r) = 12%nat
    end.
Proof.
  intros H. destruct (buildParticipant_inr p r H) as (s & E & _ & D & C).
  exists s. split; [exact E|].
  assert (W : forallb (fun c => negb (isWhiteSpace c)) (stripWhitespace s) = true).
  { apply forallb_forall. intros x I. unfold stripWhitespace in I.
    apply filter_In in I. destruct I as [_ I]. exact I. }
  destruct C as [(L & ->)|(L & ->)]; simpl; auto.
Qed.

Lemma X4_participant_tax_id_invariant_witness :
  exists s, inn sampleOrganization = Some s /\
    taxIdOf sampleOrganizationRecord = stripWhitespace s /\
    forallb isDigit (taxIdOf sampleOrganizationRecord) = true /\
    forallb (fun c => negb (isWhiteSpace c)) (taxIdOf sampleOrganizationRecord) = true /\
    match sampleOrganizationRecord with
    | СвЮЛ _ _ => List.length (taxIdOf sampleOrganizationRecord) = 10%nat
    | СвФЛ _ _ _ _ _ => List.length (taxIdOf sampleOrganizationRecord) = 12%nat
    end.
Proof.
  assert (H : buildParticipant sampleOrganization = inr sampleOrganizationRecord)
    by (vm_compute; reflexivity).
  exact (X4_participant_tax_id_invariant sampleOrganization sampleOrganizationRecord H).
Defined.

Lemma spreadTrimmed_trimmed (x : option jsstring) (f : jsstring) :
  spreadTrimmed x = Some f ->
  trimmedString f /\
  exists a b, x = Some (a ++ f ++ b) /\
              forallb isWhiteSpace a = true /\ forallb isWhiteSpace b = true.
Proof.
  destruct x as [[|c r]|]; try discriminate. simpl. intros H. injection H as <-.
  destruct (trim_spec (c :: r)) as ((a & b & E & Wa & Wb) & T).
  split; [exact T|]. exists a, b. split; [f_equal; exact E|]. split; assumption.
Qed.

(** X5.  Every optional field of a record that [buildParticipant] returns
    neither starts nor ends with white space.  A field is attached whenever
    the given string is not empty: a registration code made of white space
    only is attached as the empty string. *)
Theorem X5_participant_fields_trimmed (p : ParticipantInput) (r : Participant) :
  buildParticipant p = inr r ->
  Forall (fun o => forall f, o = Some f -> trimmedString f) (optionalFields r) /\
  (forall k n kp, kpp p = Some k -> k <> [] -> forallb isWhiteSpace k = true ->
                  r = СвЮЛ n kp -> kp = Some []).
Proof.
  intros H. destruct (buildParticipant_inr p r H) as (s & E & _ & D & C). split.
  - destruct C as [(L & ->)|(L & ->)]; simpl;
      repeat (constructor; [intros f Hf; exact (proj1 (spreadTrimmed_trimmed _ f Hf))|]);
      constructor.
  - intros k n kp Ek Nk Wk Er. destruct C as [(L & C)|(L & C)]; [|congruence].
    rewrite Er in C. injection C as _ ->. rewrite Ek.
    destruct k as [|c k]; [congruence|]. simpl. f_equal.
    destruct (trim_spec (c :: k)) as ((a & b & Ex & Wa & Wb) & (Th & _)).
    destruct (trim (c :: k)) as [|t ts]; [reflexivity|].
    exfalso. specialize (Th t ts eq_refl).
    rewrite forallb_forall in Wk. rewrite (Wk t) in Th; [discriminate|].
    rewrite Ex. apply in_or_app. right. left. reflexivity.
Qed.

Lemma X5_participant_fields_trimmed_witness :
  Forall (fun o => forall f, o = Some f -> trimmedString f)
         (optionalFields (СвЮЛ (js "7712345678") (Some []))) /\
  (forall k n kp, kpp blankKppInput = Some k -> k <> [] -> forallb isWhiteSpace k = true ->
                  СвЮЛ (js "7712345678") (Some []) = СвЮЛ n kp -> kp = Some []).
Proof.
  apply (X5_participant_fields_trimmed blankKppInput (СвЮЛ (js "7712345678") (Some []))).
  vm_compute. reflexivity.
Defined.

(** X6.  White space in the tax id is immaterial, an organization takes
    nothing from the personal fields and an individual nothing from the
    registration code: two inputs whose non-empty tax ids agree once the
    white space is removed give the same result when they agree on the
    registration code (10 characters) or on the four personal fields (12
    characters). *)
Theorem X6_participant_depends_on (p q : ParticipantInput) (a b : jsstring) :
  inn p = Some a -> inn q = Some b -> a <> [] -> b <> [] ->
  stripWhitespace a = stripWhitespace b ->
  (List.length (stripWhitespace a) = 10%nat -> kpp p = kpp q ->
   buildParticipant p = buildParticipant q) /\
  (List.length (stripWhitespace a) = 12%nat ->
   lastName p = lastName q -> firstName p = firstName q ->
   middleName p = middleName q -> snils p = snils q ->
   buildParticipant p = buildParticipant q) /\
  (List.length (stripWhitespace a) <> 10%nat -> List.length (stripWhitespace a) <> 12%nat ->
   buildParticipant p = buildParticipant q).
Proof.
  intros Ea Eb Na Nb S.
  rewrite (buildParticipant_unfold p a Ea Na), (buildParticipant_unfold q b Eb Nb).
  cbv zeta. rewrite <- S.
  destruct (negb (allDigits1 (stripWhitespace a))); [repeat split; reflexivity|].
  split; [|split].
  - intros L K. rewrite L, K. reflexivity.
  - intros L E1 E2 E3 E4. rewrite L, E1, E2, E3, E4. reflexivity.
  - intros L1 L2.
    destruct (Nat.eqb_spec (List.length (stripWhitespace a)) 10); [contradiction|].
    destruct (Nat.eqb_spec (List.length (stripWhitespace a)) 12); [contradiction|].
    reflexivity.
Qed.

Lemma X6_participant_depends_on_witness :
  buildParticipant sampleOrganization
  = buildParticipant {| inn := Some (js "7712345678"); kpp := Some (js " 771201001 ");
                        lastName := Some (js "Петров"); firstName := None;
                        middleName := None; snils := Some (js "1") |}.
Proof.
  refine (proj1 (X6_participant_depends_on sampleOrganization _
                   (js "77 1234 5678") (js "7712345678") _ _ _ _ _) _ _).
  - vm_compute. reflexivity.
  - vm_compute. reflexivity.
  - vm_compute. discriminate.
  - vm_compute. discriminate.
  - vm_compute. reflexivity.
  - vm_compute. reflexivity.
  - vm_compute. reflexivity.
Defined.

(** ** [performUpload]: what is sent and how the answer is read *)

(** The identifiers and the attachment of a request that was built. *)
Lemma buildUploadRequest_content (env : Env) (p : UploadParams) (w w' : World) (req : Request) :
  buildUploadRequest env p w = (inr req, w') ->
  exists f,
    file p = Some f /\
    uuidsDrawn w' = S (S (uuidsDrawn w)) /\
    Идентификатор (params_Документ (req_body req)) = uuid env (uuidsDrawn w) /\
    Вложение (params_Документ (req_body req))
    = [ {| att_Идентификатор := uuid env (S (uuidsDrawn w));
           att_Тип := js "Прочее";
           att_Подтип := js "Приложение";
           att_Название := decodeFilename (orString (Some (originalname f)) (js "document.docx"));
           att_Файл_ДвоичныеДанные := base64 (buffer f);
           att_Файл_Имя := decodeFilename (orString (Some (originalname f)) (js "document.docx")) |} ] /\
    Номер (params_Документ (req_body req)) = orString (number p) [] /\
    Тип (params_Документ (req_body req)) = orString (docType p) (js "ДоговорИсх") /\
    method (req_body req) = js "СБИС.ЗаписатьДокумент" /\
    req_method req = js "POST".
Proof.
  unfold buildUploadRequest.
  destruct (sessionId p) as [[|s0 sid]|] eqn:Es; try discriminate.
  destruct (file p) as [f|] eqn:Ef; try discriminate.
  destruct (inn (client p)) as [[|c0 ci]|] eqn:Ec; try discriminate.
  destruct (inn (our p)) as [[|o0 oi]|] eqn:Eo; try discriminate.
  unfold bind at 1.
  assert (T : exists w1,
             match date p with
             | Some (c :: r) => ret (c :: r)
             | _ => bind (nowISOString env) (fun iso => ret (slice0 10 iso))
             end w = (inr (todayOf env p w), w1) /\ uuidsDrawn w1 = uuidsDrawn w).
  { unfold todayOf. destruct (date p) as [[|c r]|]; eexists; split; reflexivity. }
  destruct T as (w1 & -> & Ew1).
  destruct ((List.length (stripWhitespace (c0 :: ci)) =? 10)%nat
            && negb (truthy (option_map trim (kpp (client p))))) eqn:Ek; try discriminate.
  unfold bind at 1.
  match goal with |- context [buildParticipant ?x] =>
    destruct (buildParticipant x) as [e|cp]; try discriminate end.
  unfold liftE at 1, ret at 1, bind at 1.
  match goal with |- context [buildParticipant ?x] =>
    destruct (buildParticipant x) as [e|op]; try discriminate end.
  unfold liftE, ret, bind, randomUUID. cbn [calls uuidsDrawn clockReads].
  intros H. injection H as <- <-.
  exists f. cbn. rewrite Ew1. repeat split; reflexivity.
Qed.

(** A request that is not built leaves the UUIDs alone. *)
Lemma buildUploadRequest_inl_uuids (env : Env) (p : UploadParams) (w w' : World) (e : Error) :
  buildUploadRequest env p w = (inl e, w') -> uuidsDrawn w' = uuidsDrawn w.
Proof.
  unfold buildUploadRequest.
  destruct (sessionId p) as [[|s0 sid]|] eqn:Es;
    try (intros H; injection H as _ <-; reflexivity).
  destruct (file p) as [f|] eqn:Ef; try (intros H; injection H as _ <-; reflexivity).
  destruct (inn (client p)) as [[|c0 ci]|] eqn:Ec;
    try (intros H; injection H as _ <-; reflexivity).
  destruct (inn (our p)) as [[|o0 oi]|] eqn:Eo;
    try (intros H; injection H as _ <-; reflexivity).
  unfold bind at 1.
  assert (T : exists w1,
             match date p with
             | Some (c :: r) => ret (c :: r)
             | _ => bind (nowISOString env) (fun iso => ret (slice0 10 iso))
             end w = (inr (todayOf env p w), w1) /\ uuidsDrawn w1 = uuidsDrawn w).
  { unfold todayOf. destruct (date p) as [[|c r]|]; eexists; split; reflexivity. }
  destruct T as (w1 & -> & Ew1).
  destruct ((List.length (stripWhitespace (c0 :: ci)) =? 10)%nat
            && negb (truthy (option_map trim (kpp (client p))))) eqn:Ek;
    try (intros H; injection H as _ <-; exact Ew1).
  unfold bind at 1.
  match goal with |- context [buildParticipant ?x] =>
    destruct (buildParticipant x) as [e1|cp];
      [intros H; injection H as _ <-; exact Ew1|] end.
  unfold liftE at 1, ret at 1, bind at 1.
  match goal with |- context [buildParticipant ?x] =>
    destruct (buildParticipant x) as [e1|op];
      [intros H; injection H as _ <-; exact Ew1|] end.
  unfold liftE, ret, bind, randomUUID. discriminate.
Qed.

Section UploadExtras.
Context {RT : Runtime}.

(** [performUpload] once the request is built: one [fetch], then the answer
    is read. *)
Lemma performUpload_after_build (env : Env) (p : UploadParams) (w w1 : World) (req : Request) :
  buildUploadRequest env p w = (inr req, w1) ->
  performUpload env p w
  = match respond env (calls w1) req with
    | Rejected m => (inl (OtherError m), afterFetch w1 req)
    | Responded r => readUploadResponse r (afterFetch w1 req)
    end.
Proof.
  intros B. unfold performUpload. unfold bind at 1. rewrite B.
  unfold bind, fetch, afterFetch. destruct (respond env (calls w1) req); reflexivity.
Qed.

(** Reading the answer does not act on the world. *)
Lemma readUploadResponse_world (r : Response) (w : World) :
  snd (readUploadResponse r w) = w.
Proof.
  unfold readUploadResponse, bind, responseText, ret, throw.
  destruct (text r); [destruct (negb (ok r))|]; reflexivity.
Qed.

(** X7.  [performUpload] sends one request or none, and never a second one.
    It sends none exactly when a check fails before [fetch]: the failure is
    then an error of status 400, and neither a request nor a UUID has been
    used.  Otherwise the request built is sent once, whatever the answer,
    and two UUIDs have been drawn. *)
Theorem X7_upload_sends_once_or_nothing (env : Env) (p : UploadParams) (w : World) :
  match buildUploadRequest env p w with
  | (inl e, w1) =>
      performUpload env p w = (inl e, w1) /\
      calls w1 = calls w /\ uuidsDrawn w1 = uuidsDrawn w /\
      exists m, e = HttpError 400 m
  | (inr req, w1) =>
      exists r,
        performUpload env p w = (r, afterFetch w1 req) /\
        calls (afterFetch w1 req) = calls w ++ [req] /\
        uuidsDrawn (afterFetch w1 req) = S (S (uuidsDrawn w))
  end.
Proof.
  destruct (buildUploadRequest env p w) as [[e|req] w1] eqn:B.
  - destruct (buildUploadRequest_inl env p w w1 e B) as (M & C).
    repeat split; try assumption.
    + apply performUpload_not_sent. exact B.
    + eapply buildUploadRequest_inl_uuids. exact B.
  - destruct (buildUploadRequest_inr env p w w1 req B)
      as (_ & _ & _ & _ & _ & _ & _ & _ & _ & _ & _ & _ & _ & C & _).
    destruct (buildUploadRequest_content env p w w1 req B) as (f & _ & U & _).
    rewrite (performUpload_after_build env p w w1 req B).
    destruct (respond env (calls w1) req) as [m|r].
    + eexists. split; [reflexivity|]. unfold afterFetch. cbn. rewrite C, U. auto.
    + exists (fst (readUploadResponse r (afterFetch w1 req))). split.
      * rewrite <- (readUploadResponse_world r (afterFetch w1 req)) at 3.
        destruct (readUploadResponse r (afterFetch w1 req)). reflexivity.
      * unfold afterFetch. cbn. rewrite C, U. auto.
Qed.

(** X8.  The checks of [performUpload] come in a fixed order and the first
    that fails decides the error: the session id, then the file, then the
    presence of both tax ids, then the КПП of a counterparty whose tax id has
    10 characters (before that tax id is looked at: letters will do), then
    the counterparty, then our side. *)
Theorem X8_upload_check_order (env : Env) (p : UploadParams) (w : World) :
  (truthy (sessionId p) = false ->
   performUpload env p w = (inl (HttpError 400 msg_session_required), w)) /\
  (truthy (sessionId p) = true -> file p = None ->
   performUpload env p w = (inl (HttpError 400 msg_file_required), w)) /\
  (truthy (sessionId p) = true -> file p <> None ->
   truthy (inn (client p)) = false \/ truthy (inn (our p)) = false ->
   performUpload env p w = (inl (HttpError 400 msg_inns_required), w)) /\
  (forall c, truthy (sessionId p) = true -> file p <> None ->
   truthy (inn (our p)) = true -> inn (client p) = Some c ->
   List.length (stripWhitespace c) = 10%nat ->
   truthy (option_map trim (kpp (client p))) = false ->
   fst (performUpload env p w) = inl (HttpError 400 msg_kpp_required)) /\
  (forall c e, truthy (sessionId p) = true -> file p <> None ->
   truthy (inn (our p)) = true -> inn (client p) = Some c -> c <> [] ->
   (List.length (stripWhitespace c) =? 10)%nat
   && negb (truthy (option_map trim (kpp (client p)))) = false ->
   buildParticipant (counterpartyInput p c) = inl e ->
   fst (performUpload env p w) = inl e).
Proof.
  unfold performUpload, buildUploadRequest.
  split; [|split; [|split; [|split]]].
  - intros H. unfold bind at 1.
    destruct (sessionId p) as [[|s0 sid]|]; try discriminate H; reflexivity.
  - intros H F. unfold bind at 1. rewrite F.
    destruct (sessionId p) as [[|s0 sid]|]; try discriminate H; reflexivity.
  - intros H F I. unfold bind at 1.
    destruct (sessionId p) as [[|s0 sid]|]; try discriminate H.
    destruct (file p) as [f|]; [|congruence].
    destruct (inn (client p)) as [[|c0 ci]|]; destruct (inn (our p)) as [[|o0 oi]|];
      try reflexivity; destruct I as [I|I]; discriminate I.
  - intros c H F O C L K. unfold bind at 1.
    destruct (sessionId p) as [[|s0 sid]|]; try discriminate H.
    destruct (file p) as [f|]; [|congruence].
    rewrite C. destruct c as [|c0 ci]; [discriminate L|].
    destruct (inn (our p)) as [[|o0 oi]|]; try discriminate O.
    unfold bind at 1.
    assert (T : exists w1,
               match date p with
               | Some (c :: r) => ret (c :: r)
               | _ => bind (nowISOString env) (fun iso => ret (slice0 10 iso))
               end w = (inr (todayOf env p w), w1)).
    { unfold todayOf. destruct (date p) as [[|c r]|]; eexists; reflexivity. }
    destruct T as (w1 & ->). rewrite L, K. reflexivity.
  - intros c e H F O C Nc K Ecp. unfold bind at 1.
    destruct (sessionId p) as [[|s0 sid]|]; try discriminate H.
    destruct (file p) as [f|]; [|congruence].
    rewrite C. destruct c as [|c0 ci]; [congruence|].
    destruct (inn (our p)) as [[|o0 oi]|]; try discriminate O.
    unfold bind at 1.
    assert (T : exists w1,
               match date p with
               | Some (c :: r) => ret (c :: r)
               | _ => bind (nowISOString env) (fun iso => ret (slice0 10 iso))
               end w = (inr (todayOf env p w), w1)).
    { unfold todayOf. destruct (date p) as [[|c r]|]; eexists; reflexivity. }
    destruct T as (w1 & ->). rewrite K. unfold bind at 1.
    fold (counterpartyInput p (c0 :: ci)). rewrite Ecp. reflexivity.
Qed.

End UploadExtras.

Lemma X8_upload_check_order_witness :
  fst (performUpload (RT := sampleRuntime) acceptingEnv paramsLettersInn world0)
  = inl (HttpError 400 msg_kpp_required).
Proof.
  refine (proj1 (proj2 (proj2 (proj2
            (X8_upload_check_order (RT := sampleRuntime) acceptingEnv paramsLettersInn world0))))
            (js "ABCDEFGHIJ") _ _ _ _ _ _).
  - vm_compute. reflexivity.
  - discriminate.
  - vm_compute. reflexivity.
  - vm_compute. reflexivity.
  - vm_compute. reflexivity.
  - vm_compute. reflexivity.
Defined.

Section UploadAnswers.
Context {RT : Runtime}.


(** X10.  From an answer with a status from 200 to 299 and a JSON body, the
    document id of the result is [result.Документ.Идентификатор] when that
    counts as true, else [result.Идентификатор] when that does, else [null];
    the result carries the status, the text and the parsed body. *)
Theorem X10_document_id_precedence
    (env : Env) (p : UploadParams) (w w1 : World) (req : Request)
    (r : Response) (t : jsstring) (j : json Num) :
  buildUploadRequest env p w = (inr req, w1) ->
  respond env (calls w1) req = Responded r ->
  ok r = true ->
  text r = inl t ->
  JSON_parse t = Some j ->
  let result := getOpt (Some j) (js "result") in
  let nested := getOpt (getOpt result (js "Документ")) (js "Идентификатор") in
  let direct := getOpt result (js "Идентификатор") in
  exists res,
    performUpload env p w = (inr res, afterFetch w1 req) /\
    res_status res = status r /\ rawBody res = t /\ jsonBody res = j /\
    (forall v, nested = Some v -> isTruthy nested = true -> documentId res = v) /\
    (forall v, isTruthy nested = false -> direct = Some v -> isTruthy direct = true ->
               documentId res = v) /\
    (isTruthy nested = false -> isTruthy direct = false -> documentId res = JNull).
Proof.
  intros B R Hok Ht Hp result nested direct.
  rewrite (performUpload_after_build env p w w1 req B), R.
  unfold readUploadResponse, bind, responseText. rewrite Ht. unfold ret at 1.
  rewrite Hp, Hok. simpl negb. cbv iota. unfold ret.
  fold result. fold nested. fold direct.
  eexists. split; [reflexivity|]. cbn [res_status rawBody jsonBody documentId].
  repeat split.
  - intros v E T. unfold orElse at 2. rewrite T. unfold orElse. rewrite T, E. reflexivity.
  - intros v F E T. unfold orElse at 2. rewrite F. unfold orElse. rewrite T, E. reflexivity.
  - intros F G. unfold orElse at 2. rewrite F. unfold orElse. rewrite G. reflexivity.
Qed.


End UploadAnswers.


Lemma X10_document_id_precedence_witness :
  exists res,
    fst (performUpload (RT := sampleRuntime) acceptingEnv sampleParams world0) = inr res /\
    documentId res = JString (js "doc-1").
Proof.
  destruct (buildUploadRequest acceptingEnv sampleParams world0) as [[e|req] w1] eqn:B.
  - exfalso. vm_compute in B. discriminate B.
  - destruct (X10_document_id_precedence (RT := sampleRuntime) acceptingEnv sampleParams
                world0 w1 req
                {| status := 200; statusText := js "OK"; text := inl okBody |}
                okBody
                (JObject [(js "result",
                           JObject [(js "Идентификатор", JString (js "doc-1"))])])
                B eq_refl eq_refl eq_refl)
      as (res & E & _ & _ & _ & _ & Direct & _).
    + vm_compute. reflexivity.
    + exists res. rewrite E. split; [reflexivity|].
      apply Direct; vm_compute; reflexivity.
Defined.

(** ** The batch: requests, identifiers, entries *)

Lemma NoDup_map_injective {A B : Type} (f : A -> B) (l : list A) :
  (forall i j, f i = f j -> i = j) -> NoDup l -> NoDup (map f l).
Proof.
  intros Inj N. induction N as [|x l Hx N IH]; simpl; constructor; [|exact IH].
  rewrite in_map_iff. intros (y & E & I). apply Inj in E. subst y. contradiction.
Qed.

Section BatchExtras.
Context {RT : Runtime}.

(** What a call of [performUpload] does to the world: nothing is sent and
    no UUID drawn, or one request is sent that carries the next two UUIDs. *)
Lemma performUpload_world (env : Env) (p : UploadParams) (w w' : World)
    (r : Error + UploadResult) :
  performUpload env p w = (r, w') ->
  (calls w' = calls w /\ uuidsDrawn w' = uuidsDrawn w /\
   exists m, r = inl (HttpError 400 m)) \/
  (exists req, calls w' = calls w ++ [req] /\
               uuidsDrawn w' = S (S (uuidsDrawn w)) /\
               idsOfRequest req = [uuid env (uuidsDrawn w); uuid env (S (uuidsDrawn w))]).
Proof.
  intros P.
  destruct (buildUploadRequest env p w) as [[e|req] w1] eqn:B.
  - left. rewrite (performUpload_not_sent env p w w1 e B) in P. injection P as <- <-.
    destruct (buildUploadRequest_inl env p w w1 e B) as (M & C).
    split; [exact C|]. split; [eapply buildUploadRequest_inl_uuids; exact B|].
    destruct M as (m & ->). exists m. reflexivity.
  - right. exists req.
    destruct (buildUploadRequest_inr env p w w1 req B)
      as (_ & _ & _ & _ & _ & _ & _ & _ & _ & _ & _ & _ & _ & C & _).
    destruct (buildUploadRequest_content env p w w1 req B) as (f & _ & U & I & A & _).
    assert (W : w' = afterFetch w1 req).
    { rewrite (performUpload_after_build env p w w1 req B) in P.
      destruct (respond env (calls w1) req) as [m|resp].
      - injection P as _ <-. reflexivity.
      - rewrite <- (readUploadResponse_world resp (afterFetch w1 req)).
        rewrite P. reflexivity. }
    subst w'. unfold afterFetch. cbn [calls uuidsDrawn]. rewrite C, U.
    split; [reflexivity|]. split; [reflexivity|].
    unfold idsOfRequest. rewrite I, A. reflexivity.
Qed.

Lemma idsAccounted_performUpload (env : Env) (p : UploadParams) (w : World) :
  idsAccounted env w -> idsAccounted env (snd (performUpload env p w)).
Proof.
  unfold idsAccounted, idsSent. intros Inv.
  destruct (performUpload env p w) as [r w'] eqn:P. simpl snd.
  destruct (performUpload_world env p w w' r P) as [(C & U & _)|(req & C & U & I)].
  - rewrite C, U. exact Inv.
  - rewrite C, U, flat_map_app, Inv. cbn [flat_map]. rewrite app_nil_r, I.
    rewrite !seq_S, !map_app. cbn [map Nat.add]. rewrite <- app_assoc. reflexivity.
Qed.

(** The world an item of the batch leaves. *)
Lemma batchItem_world (env : Env) (body : BatchBody) (f : UploadedFile) (w : World) :
  snd (batchItem env body f w)
  = if hasInnb f then snd (performUpload env (itemParams body f) w) else w.
Proof.
  unfold batchItem, hasInnb, itemParams. cbv zeta.
  destruct (fst (parseInnKppFromFilename _)) as [[|c r]|] eqn:E; try reflexivity.
  simpl truthy. cbv iota.
  destruct (performUpload _ _ _) as [[e|res] w']; reflexivity.
Qed.

Lemma idsAccounted_batchLoop (env : Env) (body : BatchBody) (files : list UploadedFile)
    (w : World) :
  idsAccounted env w -> idsAccounted env (worldAfter env body files w).
Proof.
  unfold worldAfter. revert w. induction files as [|f files IH]; intros w Inv.
  - exact Inv.
  - rewrite batchLoop_cons. simpl snd. apply IH. rewrite batchItem_world.
    destruct (hasInnb f); [apply idsAccounted_performUpload|]; exact Inv.
Qed.

Lemma uploadBatch_world (env : Env) (body : BatchBody) (files : list UploadedFile) (w : World) :
  snd (uploadBatch env body files w) = worldAfter env body files w.
Proof.
  unfold uploadBatch, worldAfter. destruct files as [|f files]; [reflexivity|].
  destruct (batchLoop env body (f :: files) [] w). reflexivity.
Qed.

Lemma uploadBatch_nonempty (env : Env) (body : BatchBody) (files : list UploadedFile)
    (w : World) :
  files <> [] ->
  uploadBatch env body files w
  = (BatchReport (Z.of_nat (List.length files)) (fst (batchLoop env body files [] w)),
     worldAfter env body files w).
Proof.
  intros N. unfold uploadBatch, worldAfter. destruct files as [|f files]; [congruence|].
  destruct (batchLoop env body (f :: files) [] w). reflexivity.
Qed.

(** X11.  The identifiers of the requests sent are the UUIDs drawn, each
    used once and in the order drawn: a single upload and a whole batch keep
    this, so with a source that never repeats itself no two documents or
    attachments ever share an identifier. *)
Theorem X11_identifiers_fresh (env : Env) (w : World) :
  idsAccounted env w ->
  (forall p, idsAccounted env (snd (performUpload env p w))) /\
  (forall body files, idsAccounted env (snd (uploadBatch env body files w))) /\
  ((forall i j, uuid env i = uuid env j -> i = j) ->
   forall body files, NoDup (idsSent (snd (uploadBatch env body files w)))).
Proof.
  intros Inv. split; [|split].
  - intros p. apply idsAccounted_performUpload. exact Inv.
  - intros body files. rewrite uploadBatch_world. apply idsAccounted_batchLoop. exact Inv.
  - intros Inj body files. rewrite uploadBatch_world.
    rewrite (idsAccounted_batchLoop env body files w Inv).
    apply NoDup_map_injective; [exact Inj | apply seq_NoDup].
Qed.

(** The requests an item sends: one at most, and none without a tax id. *)
Lemma batchItem_calls (env : Env) (body : BatchBody) (f : UploadedFile) (w : World) :
  exists extra,
    calls (snd (batchItem env body f w)) = calls w ++ extra /\
    (List.length extra <= (if hasInnb f then 1 else 0))%nat.
Proof.
  rewrite batchItem_world. destruct (hasInnb f).
  - destruct (performUpload env (itemParams body f) w) as [r w'] eqn:P. simpl snd.
    destruct (performUpload_world env _ w w' r P) as [(C & _)|(req & C & _)].
    + exists []. rewrite app_nil_r. split; [exact C | simpl; lia].
    + exists [req]. split; [exact C | simpl; lia].
  - exists []. rewrite app_nil_r. split; [reflexivity | simpl; lia].
Qed.

Lemma batchLoop_calls (env : Env) (body : BatchBody) (files : list UploadedFile) (w : World) :
  exists extra,
    calls (worldAfter env body files w) = calls w ++ extra /\
    (List.length extra <= List.length (filter hasInnb files))%nat.
Proof.
  unfold worldAfter. revert w. induction files as [|f files IH]; intros w.
  - exists []. rewrite app_nil_r. split; [reflexivity | simpl; lia].
  - rewrite batchLoop_cons. simpl snd.
    destruct (batchItem_calls env body f w) as (e1 & C1 & L1).
    destruct (IH (snd (batchItem env body f w))) as (e2 & C2 & L2).
    exists (e1 ++ e2). rewrite C2, C1, <- app_assoc. split; [reflexivity|].
    rewrite length_app. simpl filter. destruct (hasInnb f); simpl; lia.
Qed.

(** X14.  A batch sends at most one request for each file whose name gives
    a tax id and none for the others; what was sent before stays. *)
Theorem X14_batch_requests_bounded
    (env : Env) (body : BatchBody) (files : list UploadedFile) (w : World) :
  exists extra,
    calls (snd (uploadBatch env body files w)) = calls w ++ extra /\
    (List.length extra <= List.length (filter hasInnb files))%nat /\
    (List.length extra <= List.length files)%nat.
Proof.
  rewrite uploadBatch_world.
  destruct (batchLoop_calls env body files w) as (extra & C & L).
  exists extra. split; [exact C|]. split; [exact L|].
  pose proof (filter_length_le hasInnb files). lia.
Qed.



End BatchExtras.

Lemma X11_identifiers_fresh_witness :
  (forall p, idsAccounted acceptingEnv
               (snd (performUpload (RT := sampleRuntime) acceptingEnv p world0))) /\
  (forall body files,
     idsAccounted acceptingEnv
       (snd (uploadBatch (RT := sampleRuntime) acceptingEnv body files world0))).
Proof.
  assert (I : idsAccounted acceptingEnv world0) by reflexivity.
  destruct (X11_identifiers_fresh (RT := sampleRuntime) acceptingEnv world0 I) as (A & B & _).
  split; [exact A | exact B].
Defined.


(** ** [parseInnKppFromFilename] *)

Lemma digitsPrefix_Some (n : nat) (s d : jsstring) :
  digitsPrefix n s = Some d ->
  List.length d = n /\ forallb isDigit d = true /\ exists rest, s = d ++ rest.
Proof.
  unfold digitsPrefix. cbv zeta.
  destruct ((List.length (firstn n s) =? n)%nat && forallb isDigit (firstn n s)) eqn:E;
    [|discriminate].
  intros H. injection H as <-. apply andb_prop in E. destruct E as [L D].
  apply Nat.eqb_eq in L. split; [exact L|]. split; [exact D|].
  exists (skipn n s). symmetry. apply firstn_skipn.
Qed.

Lemma digitsPrefix_complete (n : nat) (d rest : jsstring) :
  List.length d = n -> forallb isDigit d = true -> digitsPrefix n (d ++ rest) = Some d.
Proof.
  intros L D. unfold digitsPrefix. cbv zeta.
  rewrite firstn_app, <- L, firstn_all, Nat.sub_diag, firstn_O, app_nil_r.
  rewrite Nat.eqb_refl, D. reflexivity.
Qed.

Lemma digitsPrefix_None (n : nat) (s d rest : jsstring) :
  digitsPrefix n s = None -> s = d ++ rest -> List.length d = n ->
  forallb isDigit d = true -> False.
Proof.
  intros N -> L D. rewrite (digitsPrefix_complete n d rest L D) in N. discriminate N.
Qed.

Lemma startsWithIgnoreCase_Some (a b c : Z) (s r : jsstring) :
  startsWithIgnoreCase a b c s = Some r <->
  exists l, s = l ++ r /\ labelMatches a b c l.
Proof.
  unfold startsWithIgnoreCase, labelMatches. split.
  - destruct s as [|x [|y [|z t]]]; try discriminate.
    destruct (matchesIgnoreCase a x && matchesIgnoreCase b y && matchesIgnoreCase c z) eqn:E;
      [|discriminate].
    intros H. injection H as <-. rewrite !andb_true_iff in E. destruct E as [[A B] C].
    exists [x; y; z]. split; [reflexivity|]. exists x, y, z. auto.
  - intros (l & -> & x & y & z & -> & A & B & C). simpl. rewrite A, B, C. reflexivity.
Qed.

(** The leftmost match of a pattern: where it is, and that nothing matches
    before. *)
Lemma firstMatch_Some (here : jsstring -> option jsstring) (s g : jsstring) :
  firstMatch here s = Some g ->
  exists pre tail, s = pre ++ tail /\ here tail = Some g /\
    forall pre' tail', s = pre' ++ tail' ->
                       (List.length pre' < List.length pre)%nat -> here tail' = None.
Proof.
  induction s as [|c s IH].
  - simpl. destruct (here []) eqn:H; [|discriminate].
    intros E. injection E as ->. exists [], []. split; [reflexivity|]. split; [exact H|].
    intros pre' tail' _ L. simpl in L. lia.
  - cbn [firstMatch]. destruct (here (c :: s)) eqn:H.
    + intros E. injection E as ->. exists [], (c :: s). split; [reflexivity|].
      split; [exact H|]. intros pre' tail' _ L. simpl in L. lia.
    + intros E. destruct (IH E) as (pre & tail & -> & Ht & Lm).
      exists (c :: pre), tail. split; [reflexivity|]. split; [exact Ht|].
      intros pre' tail' E' L. destruct pre' as [|c' pre'].
      * simpl in E'. subst tail'. exact H.
      * simpl in E'. injection E' as _ E'. apply (Lm pre' tail' E'). simpl in L. lia.
Qed.

Lemma firstMatch_None (here : jsstring -> option jsstring) (s : jsstring) :
  firstMatch here s = None <-> (forall pre tail, s = pre ++ tail -> here tail = None).
Proof.
  induction s as [|c s IH].
  - simpl. destruct (here []) eqn:H; split; try discriminate.
    + intros A. rewrite (A [] [] eq_refl) in H. discriminate H.
    + intros _ pre tail E. destruct pre; [|discriminate E]. simpl in E. subst tail. exact H.
    + reflexivity.
  - cbn [firstMatch]. destruct (here (c :: s)) eqn:H.
    + split; [discriminate|]. intros A. rewrite (A [] (c :: s) eq_refl) in H. discriminate H.
    + rewrite IH. split.
      * intros A pre tail E. destruct pre as [|c' pre].
        -- simpl in E. subst tail. exact H.
        -- simpl in E. injection E as _ E. exact (A pre tail E).
      * intros A pre tail E. apply (A (c :: pre) tail). simpl. f_equal. exact E.
Qed.

Lemma matchInnHere_Some (s d : jsstring) :
  matchInnHere s = Some d ->
  exists l rest, s = l ++ d ++ rest /\ labelMatches 0x418 0x41D 0x41D l /\
    forallb isDigit d = true /\
    (List.length d = 12%nat \/
     (List.length d = 10%nat /\ digitsPrefix 12 (d ++ rest) = None)).
Proof.
  unfold matchInnHere.
  destruct (startsWithIgnoreCase 0x418 0x41D 0x41D s) as [r|] eqn:S; [|discriminate].
  apply startsWithIgnoreCase_Some in S. destruct S as (l & -> & Hl).
  destruct (digitsPrefix 12 r) as [d12|] eqn:P12.
  - intros H. injection H as ->.
    destruct (digitsPrefix_Some 12 r d P12) as (L & D & rest & ->).
    exists l, rest. auto.
  - intros P10. destruct (digitsPrefix_Some 10 r d P10) as (L & D & rest & ->).
    exists l, rest. split; [reflexivity|]. split; [exact Hl|]. split; [exact D|].
    right. split; [exact L | exact P12].
Qed.

Lemma matchInnHere_None (l d rest : jsstring) :
  labelMatches 0x418 0x41D 0x41D l -> List.length d = 10%nat ->
  forallb isDigit d = true -> matchInnHere (l ++ d ++ rest) <> None.
Proof.
  intros Hl L D. unfold matchInnHere.
  assert (S : startsWithIgnoreCase 0x418 0x41D 0x41D (l ++ d ++ rest) = Some (d ++ rest))
    by (apply startsWithIgnoreCase_Some; exists l; auto).
  rewrite S. destruct (digitsPrefix 12 (d ++ rest)); [discriminate|].
  rewrite (digitsPrefix_complete 10 d rest L D). discriminate.
Qed.

Lemma matchKppHere_Some (s d : jsstring) :
  matchKppHere s = Some d <->
  exists l rest, s = l ++ d ++ rest /\ labelMatches 0x41A 0x41F 0x41F l /\
                 List.length d = 9%nat /\ forallb isDigit d = true.
Proof.
  unfold matchKppHere. split.
  - destruct (startsWithIgnoreCase 0x41A 0x41F 0x41F s) as [r|] eqn:S; [|discriminate].
    apply startsWithIgnoreCase_Some in S. destruct S as (l & -> & Hl).
    intros P. destruct (digitsPrefix_Some 9 r d P) as (L & D & rest & ->).
    exists l, rest. auto.
  - intros (l & rest & -> & Hl & L & D).
    assert (S : startsWithIgnoreCase 0x41A 0x41F 0x41F (l ++ d ++ rest) = Some (d ++ rest))
      by (apply startsWithIgnoreCase_Some; exists l; auto).
    rewrite S. apply digitsPrefix_complete; assumption.
Qed.

(** X18.  What [parseInnKppFromFilename] reads from a name has a fixed
    shape: the tax id, when there is one, is made of 10 or of 12 digits, and
    the registration code, when there is one, of 9 digits. *)
Theorem X18_parsed_identifiers_shape (name : jsstring) :
  (forall d, fst (parseInnKppFromFilename name) = Some d ->
     forallb isDigit d = true /\ (List.length d = 10%nat \/ List.length d = 12%nat)) /\
  (forall c, snd (parseInnKppFromFilename name) = Some c ->
     forallb isDigit c = true /\ List.length c = 9%nat).
Proof.
  unfold parseInnKppFromFilename. cbv zeta. simpl fst. simpl snd. split.
  - intros d H. destruct (firstMatch_Some _ _ _ H) as (pre & tail & _ & M & _).
    destruct (matchInnHere_Some tail d M) as (l & rest & _ & _ & D & [L|[L _]]); auto.
  - intros c H. destruct (firstMatch_Some _ _ _ H) as (pre & tail & _ & M & _).
    apply matchKppHere_Some in M. destruct M as (l & rest & _ & _ & L & D). auto.
Qed.

Lemma X18_parsed_identifiers_shape_witness :
  forallb isDigit (js "7712345678") = true /\
  (List.length (js "7712345678") = 10%nat \/ List.length (js "7712345678") = 12%nat).
Proof.
  apply (proj1 (X18_parsed_identifiers_shape (originalname sampleFile))).
  vm_compute. reflexivity.
Defined.

(** X19.  The tax id read from a name is the run of digits after the
    leftmost label ИНН (in any case) that 10 digits follow in the decoded
    name: 12 digits when there are 12, else 10; there is none exactly when
    no label is followed by 10 digits.  The registration code is the 9
    digits after the leftmost label КПП that 9 digits follow, and there is
    none exactly when there is no such label. *)
Theorem X19_parsed_identifiers_leftmost (name : jsstring) :
  let s := decodeFilename name in
  (fst (parseInnKppFromFilename name) = None <->
   forall pre d, ~ labelledDigits 0x418 0x41D 0x41D 10 s pre d) /\
  (forall d, fst (parseInnKppFromFilename name) = Some d ->
     exists pre,
       (labelledDigits 0x418 0x41D 0x41D 12 s pre d \/
        (labelledDigits 0x418 0x41D 0x41D 10 s pre d /\
         forall d', ~ labelledDigits 0x418 0x41D 0x41D 12 s pre d')) /\
       forall pre' d', labelledDigits 0x418 0x41D 0x41D 10 s pre' d' ->
                       (List.length pre <= List.length pre')%nat) /\
  (snd (parseInnKppFromFilename name) = None <->
   forall pre c, ~ labelledDigits 0x41A 0x41F 0x41F 9 s pre c) /\
  (forall c, snd (parseInnKppFromFilename name) = Some c ->
     exists pre, labelledDigits 0x41A 0x41F 0x41F 9 s pre c /\
       forall pre' c', labelledDigits 0x41A 0x41F 0x41F 9 s pre' c' ->
                       (List.length pre <= List.length pre')%nat).
Proof.
  intros s. unfold parseInnKppFromFilename. cbv zeta. simpl fst. simpl snd. fold s.
  split; [|split; [|split]].
  - rewrite firstMatch_None. split.
    + intros A pre d (l & post & E & Hl & L & D).
      apply (matchInnHere_None l d post Hl L D). apply (A pre). exact E.
    + intros A pre tail E.
      destruct (matchInnHere tail) as [d|] eqn:M; [|reflexivity]. exfalso.
      destruct (matchInnHere_Some tail d M) as (l & rest & -> & Hl & D & C).
      destruct C as [L|[L _]].
      * apply (A pre (firstn 10 d)). exists l, (skipn 10 d ++ rest).
        split; [rewrite E, (app_assoc (firstn 10 d)), firstn_skipn; reflexivity|].
        split; [exact Hl|]. split.
        -- rewrite firstn_length_le; lia.
        -- rewrite <- (firstn_skipn 10 d), forallb_app, andb_true_iff in D. apply D.
      * apply (A pre d). exists l, rest. auto.
  - intros d H. destruct (firstMatch_Some _ _ _ H) as (pre & tail & E & M & Lm).
    destruct (matchInnHere_Some tail d M) as (l & rest & -> & Hl & D & C).
    exists pre. split.
    + destruct C as [L|[L P]].
      * left. exists l, rest. auto.
      * right. split; [exists l, rest; auto|].
        intros d' (l' & post' & E' & Hl' & L' & D').
        rewrite E in E'. apply app_inv_head in E'.
        destruct Hl as (x & y & z & -> & _). destruct Hl' as (x' & y' & z' & -> & _).
        simpl in E'. injection E' as _ _ _ E'.
        apply (digitsPrefix_None 12 (d ++ rest) d' post' P E' L' D').
    + intros pre' d' (l' & post' & E' & Hl' & L' & D').
      destruct (Nat.le_gt_cases (List.length pre) (List.length pre')) as [G|G];
        [exact G|].
      exfalso. apply (matchInnHere_None l' d' post' Hl' L' D').
      apply (Lm pre'); assumption.
  - rewrite firstMatch_None. split.
    + intros A pre c (l & post & E & Hl & L & D).
      specialize (A pre _ E).
      assert (M : matchKppHere (l ++ c ++ post) = Some c)
        by (apply matchKppHere_Some; exists l, post; auto).
      congruence.
    + intros A pre tail E.
      destruct (matchKppHere tail) as [c|] eqn:M; [|reflexivity]. exfalso.
      apply matchKppHere_Some in M. destruct M as (l & rest & -> & Hl & L & D).
      apply (A pre c). exists l, rest. auto.
  - intros c H. destruct (firstMatch_Some _ _ _ H) as (pre & tail & E & M & Lm).
    apply matchKppHere_Some in M. destruct M as (l & rest & -> & Hl & L & D).
    exists pre. split; [exists l, rest; auto|].
    intros pre' c' (l' & post' & E' & Hl' & L' & D').
    destruct (Nat.le_gt_cases (List.length pre) (List.length pre')) as [G|G];
      [exact G|].
    exfalso. specialize (Lm pre' _ E' G).
    assert (M : matchKppHere (l' ++ c' ++ post') = Some c')
      by (apply matchKppHere_Some; exists l', post'; auto).
    congruence.
Qed.

Lemma X19_parsed_identifiers_leftmost_witness :
  exists pre,
    (labelledDigits 0x418 0x41D 0x41D 12 (decodeFilename (originalname sampleFile)) pre
       (js "7712345678") \/
     (labelledDigits 0x418 0x41D 0x41D 10 (decodeFilename (originalname sampleFile)) pre
        (js "7712345678") /\
      forall d', ~ labelledDigits 0x418 0x41D 0x41D 12
                     (decodeFilename (originalname sampleFile)) pre d')) /\
    forall pre' d',
      labelledDigits 0x418 0x41D 0x41D 10 (decodeFilename (originalname sampleFile)) pre' d' ->
      (List.length pre <= List.length pre')%nat.
Proof.
  apply (proj1 (proj2 (X19_parsed_identifiers_leftmost (originalname sampleFile)))).
  vm_compute. reflexivity.
Defined.

(** ** The batch: the counterparty read from the name *)

Lemma isDigit_not_whitespace (c : Z) : isDigit c = true -> isWhiteSpace c = false.
Proof.
  unfold isDigit, isWhiteSpace. rewrite andb_true_iff, !Z.leb_le. intros [A B].
  repeat match goal with
         | |- context [?a =? ?b] => destruct (Z.eqb_spec a b); [lia|]
         | |- context [?a <=? ?b] => destruct (Z.leb_spec a b)
         end; try reflexivity; lia.
Qed.

Lemma stripWhitespace_digits (d : jsstring) :
  forallb isDigit d = true -> stripWhitespace d = d.
Proof.
  unfold stripWhitespace. induction d as [|c d IH]; [reflexivity|].
  simpl. rewrite andb_true_iff. intros [C D].
  rewrite (isDigit_not_whitespace c C). simpl. f_equal. exact (IH D).
Qed.

Lemma trimStart_digits (d : jsstring) : forallb isDigit d = true -> trimStart d = d.
Proof.
  destruct d as [|c d]; [reflexivity|]. simpl. rewrite andb_true_iff. intros [C _].
  rewrite (isDigit_not_whitespace c C). reflexivity.
Qed.

Lemma trim_digits (d : jsstring) : forallb isDigit d = true -> trim d = d.
Proof.
  intros D. unfold trim, trimEnd. rewrite (trimStart_digits d D).
  rewrite trimStart_digits; [apply rev_involutive|].
  rewrite forallb_forall in D |- *. intros x I. apply D. apply in_rev. exact I.
Qed.

Section BatchCounterparty.
Context {RT : Runtime}.

Lemma batchLoop_length (env : Env) (body : BatchBody) (files : list UploadedFile) (w : World) :
  List.length (fst (batchLoop env body files [] w)) = List.length files.
Proof.
  rewrite <- (length_map fileName), batchLoop_names, length_map. reflexivity.
Qed.

(** X13.  A file whose name gives no tax id can be added to a batch
    anywhere without any effect on the other files: the report is the one
    without it, with its failed entry put in at its position and the total
    one higher, and the world at the end is the same. *)
Theorem X13_batch_unaffected_by_file_without_inn
    (env : Env) (body : BatchBody) (fs1 fs2 : list UploadedFile) (f : UploadedFile)
    (w : World) :
  hasNoInn f -> fs1 ++ fs2 <> [] ->
  exists results w',
    uploadBatch env body (fs1 ++ fs2) w
    = (BatchReport (Z.of_nat (List.length (fs1 ++ fs2))) results, w') /\
    uploadBatch env body (fs1 ++ f :: fs2) w
    = (BatchReport (Z.of_nat (List.length (fs1 ++ fs2)) + 1)
         (firstn (List.length fs1) results
          ++ failedEntry f msg_inn_not_found :: skipn (List.length fs1) results),
       w').
Proof.
  intros H N.
  destruct (batchLoop_without_no_inn env body fs1 fs2 f w H) as (E1 & E2 & E3).
  exists (fst (batchLoop env body (fs1 ++ fs2) [] w)), (worldAfter env body (fs1 ++ fs2) w).
  split; [apply uploadBatch_nonempty; exact N|].
  rewrite uploadBatch_nonempty by (destruct fs1; discriminate).
  rewrite E1, E3, E2. f_equal. f_equal.
  - rewrite !length_app. simpl List.length. lia.
  - pose proof (batchLoop_length env body fs1 w) as L.
    rewrite firstn_app, skipn_app, <- L, firstn_all, skipn_all, Nat.sub_diag.
    simpl. rewrite app_nil_r. reflexivity.
Qed.

(** The session check comes first: without a session id nothing is done. *)
Lemma performUpload_no_session (env : Env) (p : UploadParams) (w : World) :
  truthy (sessionId p) = false ->
  performUpload env p w = (inl (HttpError 400 msg_session_required), w).
Proof.
  intros H. unfold performUpload, buildUploadRequest, bind.
  destruct (sessionId p) as [[|s0 sid]|]; try discriminate H; reflexivity.
Qed.

(** X17.  Without a session id, a batch sends nothing and leaves the world
    as it was; the report has a failed entry for every file: the error about
    the session id for a file whose name gives a tax id, the error about the
    tax id for the others. *)
Theorem X17_batch_without_session
    (env : Env) (body : BatchBody) (files : list UploadedFile) (w : World) :
  truthy (body_sessionId body) = false ->
  batchLoop env body files [] w
  = (map (fun f => failedEntry f (if hasInnb f then msg_session_required
                                  else msg_inn_not_found)) files, w).
Proof.
  intros H. revert w. induction files as [|f files IH]; intros w; [reflexivity|].
  rewrite batchLoop_cons.
  assert (E : batchItem env body f w
              = (failedEntry f (if hasInnb f then msg_session_required
                                else msg_inn_not_found), w)).
  { unfold batchItem, hasInnb, failedEntry. cbv zeta.
    destruct (fst (parseInnKppFromFilename _)) as [[|c r]|] eqn:P;
      cbn [truthy]; cbv iota; [reflexivity | | reflexivity].
    rewrite performUpload_no_session by exact H. reflexivity. }
  rewrite E. simpl fst. simpl snd. rewrite IH. reflexivity.
Qed.

(** X16.  In a batch the counterparty comes from the name of the file, and
    a tax id read from a name always passes the checks of the tax id.  With
    a session id and a valid tax id of our own, a file whose name gives 12
    digits, or 10 digits and a КПП, is sent, with the individual of that tax
    id or the organization of that tax id and КПП as counterparty; a file
    whose name gives 10 digits and no КПП fails with the error that asks for
    the КПП, and nothing is sent for it. *)
Theorem X16_batch_counterparty_from_name
    (env : Env) (body : BatchBody) (f : UploadedFile) (w : World)
    (d : jsstring) (op : Participant) :
  fst (parseInnKppFromFilename (orString (Some (originalname f)) [])) = Some d ->
  truthy (body_sessionId body) = true ->
  buildParticipant (our (itemParams body f)) = inr op ->
  let k := snd (parseInnKppFromFilename (orString (Some (originalname f)) [])) in
  (List.length d = 10%nat -> k = None ->
   exists w', batchItem env body f w = (failedEntry f msg_kpp_required, w') /\
              calls w' = calls w) /\
  (List.length d = 12%nat \/ k <> None ->
   exists req, calls (snd (batchItem env body f w)) = calls w ++ [req] /\
     Контрагент (params_Документ (req_body req))
     = if (List.length d =? 10)%nat then СвЮЛ d k else СвФЛ d None None None None).
Proof.
  intros Ed Hs Eo k.
  assert (Sh : forallb isDigit d = true /\
               (List.length d = 10%nat \/ List.length d = 12%nat)).
  { unfold parseInnKppFromFilename in Ed. cbv zeta in Ed. simpl fst in Ed.
    destruct (firstMatch_Some _ _ _ Ed) as (pre & tail & _ & M & _).
    destruct (matchInnHere_Some tail d M) as (l & rest & _ & _ & D & [L|[L _]]); auto. }
  destruct Sh as (Dd & Ld).
  assert (Shk : forall c, k = Some c -> forallb isDigit c = true /\ List.length c = 9%nat).
  { intros c Ek. subst k. unfold parseInnKppFromFilename in Ek. cbv zeta in Ek.
    simpl snd in Ek.
    destruct (firstMatch_Some _ _ _ Ek) as (pre & tail & _ & M & _).
    apply matchKppHere_Some in M. destruct M as (l & rest & _ & _ & L & D). auto. }
  assert (Nd : d <> []) by (intros ->; destruct Ld; discriminate).
  assert (Ei : inn (client (itemParams body f)) = Some d) by exact Ed.
  assert (Ek : kpp (client (itemParams body f)) = k) by reflexivity.
  assert (Hn : ~ hasNoInn f).
  { unfold hasNoInn. rewrite Ed. destruct d; [congruence | discriminate]. }
  rewrite (batchItem_upload env body f w Hn).
  assert (Eour : exists o, inn (our (itemParams body f)) = Some o /\ o <> []).
  { destruct (buildParticipant_inr _ _ Eo) as (o & E & N & _). exists o. auto. }
  destruct Eour as (o & Eoi & No).
  split.
  - intros L K.
    assert (Kt : truthy (option_map trim (kpp (client (itemParams body f)))) = false)
      by (rewrite Ek, K; reflexivity).
    assert (P : fst (performUpload env (itemParams body f) w)
                = inl (HttpError 400 msg_kpp_required)).
    { unfold performUpload, buildUploadRequest. unfold bind at 1.
      change (sessionId (itemParams body f)) with (body_sessionId body).
      destruct (body_sessionId body) as [[|s0 sid]|]; try discriminate Hs.
      change (file (itemParams body f)) with (Some f).
      rewrite Ei, Eoi. destruct d as [|d0 dr]; [congruence|].
      destruct o as [|o0 or]; [congruence|].
      unfold bind at 1.
      assert (T : exists w1,
                 match date (itemParams body f) with
                 | Some (c :: r) => ret (c :: r)
                 | _ => bind (nowISOString env) (fun iso => ret (slice0 10 iso))
                 end w = (inr (todayOf env (itemParams body f) w), w1)).
      { unfold todayOf. destruct (date (itemParams body f)) as [[|c r]|];
          eexists; reflexivity. }
      destruct T as (w1 & ->).
      rewrite (stripWhitespace_digits _ Dd), L, Kt. reflexivity. }
    destruct (performUpload env (itemParams body f) w) as [r w'] eqn:Pu.
    simpl in P. subst r. exists w'. split; [reflexivity|].
    destruct (performUpload_world env _ w w' _ Pu) as [(C & _)|(req & C & U & _)];
      [exact C|].
    exfalso.
    destruct (buildUploadRequest env (itemParams body f) w) as [[e|rq] w1] eqn:B.
    + destruct (buildUploadRequest_inl env _ w w1 e B) as (_ & C1).
      rewrite (performUpload_not_sent env _ w w1 e B) in Pu. injection Pu as _ <-.
      rewrite C1 in C. apply (f_equal (@List.length _)) in C.
      rewrite length_app in C. simpl in C. lia.
    + destruct (buildUploadRequest_inr env _ w w1 rq B)
        as (_ & _ & ci & _ & _ & _ & _ & _ & Ei' & _ & Ek' & _).
      rewrite Ei in Ei'. injection Ei' as <-.
      rewrite (stripWhitespace_digits _ Dd), L, Kt in Ek'. discriminate Ek'.
  - intros Ok.
    assert (Kc : (List.length (stripWhitespace d) =? 10)%nat
                 && negb (truthy (option_map trim (kpp (client (itemParams body f)))))
                 = false).
    { rewrite (stripWhitespace_digits _ Dd), Ek.
      destruct k as [c|] eqn:Kv.
      - destruct (Shk c eq_refl) as (Dc & Lc). simpl option_map. rewrite (trim_digits c Dc).
        destruct c; [discriminate Lc|]. apply andb_false_r.
      - destruct Ok as [L|N]; [rewrite L; reflexivity | congruence]. }
    assert (Ecp : buildParticipant (counterpartyInput (itemParams body f) d)
                  = inr (if (List.length d =? 10)%nat then СвЮЛ d k
                         else СвФЛ d None None None None)).
    { rewrite (buildParticipant_unfold (counterpartyInput (itemParams body f) d)
                 (stripWhitespace d) eq_refl)
        by (rewrite (stripWhitespace_digits _ Dd); exact Nd).
      cbv zeta. rewrite stripWhitespace_idem, (stripWhitespace_digits _ Dd).
      rewrite (allDigits1_forallb _ Nd), Dd. simpl negb. cbv iota.
      destruct Ld as [L|L]; rewrite L; simpl Nat.eqb; cbv iota; [|reflexivity].
      f_equal. f_equal.
      change (kpp (counterpartyInput (itemParams body f) d)) with (option_map trim k).
      destruct k as [c|]; [|reflexivity].
      destruct (Shk c eq_refl) as (Dc & Lc). cbn [option_map]. rewrite (trim_digits c Dc).
      destruct c as [|c0 c']; [discriminate Lc|]. cbn [spreadTrimmed].
      rewrite (trim_digits _ Dc). reflexivity. }
    assert (Sid : exists sid, sessionId (itemParams body f) = Some sid /\ sid <> []).
    { change (sessionId (itemParams body f)) with (body_sessionId body).
      destruct (body_sessionId body) as [[|s0 sid]|]; try discriminate Hs.
      eexists. split; [reflexivity | discriminate]. }
    destruct Sid as (sid & Es & Ns).
    destruct (buildUploadRequest_succeeds env (itemParams body f) w sid d o f _ op
                Es Ns eq_refl Ei Nd Eoi No Kc Ecp Eo) as (req & w1 & B).
    exists req.
    destruct (buildUploadRequest_inr env _ w w1 req B)
      as (_ & _ & ci & cp & _ & _ & _ & _ & Ei' & _ & _ & Ecp' & _ & C & _ & _ & Ecr & _).
    rewrite Ei in Ei'. injection Ei' as <-. rewrite Ecp in Ecp'. injection Ecp' as <-.
    split; [|exact Ecr].
    rewrite (performUpload_after_build env _ w w1 req B).
    destruct (respond env (calls w1) req) as [m|r0].
    + simpl. rewrite C. reflexivity.
    + pose proof (readUploadResponse_world r0 (afterFetch w1 req)) as Wr.
      destruct (readUploadResponse r0 (afterFetch w1 req)) as [[e|res] w2];
        simpl in Wr; subst w2; simpl; rewrite C; reflexivity.
Qed.

End BatchCounterparty.

Lemma X13_batch_unaffected_by_file_without_inn_witness :
  exists results w',
    uploadBatch (RT := sampleRuntime) acceptingEnv sampleBody
      ([fileIndividual] ++ [fileOrganizationNoKpp]) world0
    = (BatchReport (Z.of_nat (List.length ([fileIndividual] ++ [fileOrganizationNoKpp])))
         results, w') /\
    uploadBatch (RT := sampleRuntime) acceptingEnv sampleBody
      ([fileIndividual] ++ fileWithoutInn :: [fileOrganizationNoKpp]) world0
    = (BatchReport
         (Z.of_nat (List.length ([fileIndividual] ++ [fileOrganizationNoKpp])) + 1)
         (firstn (List.length [fileIndividual]) results
          ++ failedEntry fileWithoutInn msg_inn_not_found
          :: skipn (List.length [fileIndividual]) results),
       w').
Proof.
  apply (X13_batch_unaffected_by_file_without_inn (RT := sampleRuntime) acceptingEnv
           sampleBody [fileIndividual] [fileOrganizationNoKpp] fileWithoutInn world0).
  - vm_compute. reflexivity.
  - discriminate.
Defined.

Lemma X17_batch_without_session_witness :
  batchLoop (RT := sampleRuntime) acceptingEnv bodyWithoutSession
    [fileIndividual; fileWithoutInn] [] world0
  = (map (fun f => failedEntry f (if hasInnb f then msg_session_required
                                  else msg_inn_not_found))
         [fileIndividual; fileWithoutInn], world0).
Proof.
  apply (X17_batch_without_session (RT := sampleRuntime) acceptingEnv bodyWithoutSession
           [fileIndividual; fileWithoutInn] world0).
  reflexivity.
Defined.

Lemma X16_batch_counterparty_from_name_witness :
  exists req,
    calls (snd (batchItem (RT := sampleRuntime) acceptingEnv sampleBody sampleFile world0))
    = calls world0 ++ [req] /\
    Контрагент (params_Документ (req_body req))
    = if (List.length (js "7712345678") =? 10)%nat
      then СвЮЛ (js "7712345678")
             (snd (parseInnKppFromFilename (orString (Some (originalname sampleFile)) [])))
      else СвФЛ (js "7712345678") None None None None.
Proof.
  refine (proj2 (X16_batch_counterparty_from_name (RT := sampleRuntime) acceptingEnv
                   sampleBody sampleFile world0 (js "7712345678")
                   (СвЮЛ (js "7707083893") None) _ _ _) (or_intror _)).
  - vm_compute. reflexivity.
  - reflexivity.
  - vm_compute. reflexivity.
  - vm_compute. discriminate.
Defined.

(** ** The authentication endpoint *)

Section AuthExtras.
Context {RT : Runtime}.

(** X20.  Without a login or without a password the authentication
    endpoint answers 400 and sends nothing; the base URL may be missing. *)
Theorem X20_auth_needs_credentials
    (remote : AuthEndpoint.Remote) (b : AuthEndpoint.Body) (sent : list AuthEndpoint.Request) :
  truthy (AuthEndpoint.login b) = false \/ truthy (AuthEndpoint.password b) = false ->
  AuthEndpoint.handler remote b sent
  = (AuthEndpoint.ReplyError 400 AuthEndpoint.msg_credentials, sent).
Proof.
  intros H. unfold AuthEndpoint.handler. cbv zeta.
  destruct (AuthEndpoint.login b) as [[|l0 l]|];
    destruct (AuthEndpoint.password b) as [[|p0 p]|];
    try reflexivity; destruct H as [H|H]; discriminate H.
Qed.

Lemma auth_handler_unfold (remote : AuthEndpoint.Remote) (b : AuthEndpoint.Body)
    (sent : list AuthEndpoint.Request) (login password : jsstring) :
  AuthEndpoint.login b = Some login -> login <> [] ->
  AuthEndpoint.password b = Some password -> password <> [] ->
  AuthEndpoint.handler remote b sent
  = let req := authRequestOf b login password in
    match remote sent req with
    | AuthEndpoint.Rejected e => (AuthEndpoint.ReplyError 500 e, sent ++ [req])
    | AuthEndpoint.Responded response =>
        match AuthEndpoint.text response with
        | inr e => (AuthEndpoint.ReplyError 500 e, sent ++ [req])
        | inl t =>
            let (ourOrgs, sent') :=
              match authResultOf t with
              | Some (JString session) =>
                  AuthEndpoint.listOurOrganizations remote session (sent ++ [req])
              | _ => (JNull, sent ++ [req])
              end in
            (AuthEndpoint.ReplySummary
               {| AuthEndpoint.s_status := AuthEndpoint.status response;
                  AuthEndpoint.s_statusText := AuthEndpoint.statusText response;
                  AuthEndpoint.s_headers := AuthEndpoint.headers response;
                  AuthEndpoint.rawBody := t;
                  AuthEndpoint.jsonBody := match JSON_parse t with
                                           | Some j => j
                                           | None => JNull
                                           end;
                  AuthEndpoint.sessionId := match authResultOf t with
                                            | Some (JString session) => Some session
                                            | _ => None
                                            end;
                  AuthEndpoint.ourOrganizations := ourOrgs |},
             sent')
        end
    end.
Proof.
  intros El Nl Ep Np. unfold AuthEndpoint.handler. rewrite El, Ep.
  destruct login as [|l0 l]; [congruence|]. destruct password as [|p0 p]; [congruence|].
  reflexivity.
Qed.

(** X21.  With a login and a password the endpoint first sends the
    authentication request, to the base URL given or else the default one,
    without a session header.  When that request fails or its body cannot be
    read the answer is 500 and nothing more is sent.  When the remote side
    answers, whatever its status, the endpoint answers with a summary that
    repeats the status and the text; the session id of the summary is the
    string under [result], or under [answer] when [result] is missing or
    [null], and [null] when that is no string; the list of organizations is
    asked for exactly when there is a session id, with it as session header. *)
Theorem X21_auth_summary
    (remote : AuthEndpoint.Remote) (b : AuthEndpoint.Body)
    (sent : list AuthEndpoint.Request) (login password : jsstring) :
  AuthEndpoint.login b = Some login -> login <> [] ->
  AuthEndpoint.password b = Some password -> password <> [] ->
  let req := authRequestOf b login password in
  (forall e, remote sent req = AuthEndpoint.Rejected e ->
     AuthEndpoint.handler remote b sent = (AuthEndpoint.ReplyError 500 e, sent ++ [req])) /\
  (forall r e, remote sent req = AuthEndpoint.Responded r -> AuthEndpoint.text r = inr e ->
     AuthEndpoint.handler remote b sent = (AuthEndpoint.ReplyError 500 e, sent ++ [req])) /\
  (forall r t, remote sent req = AuthEndpoint.Responded r -> AuthEndpoint.text r = inl t ->
     exists s,
       fst (AuthEndpoint.handler remote b sent) = AuthEndpoint.ReplySummary s /\
       AuthEndpoint.s_status s = AuthEndpoint.status r /\
       AuthEndpoint.rawBody s = t /\
       (forall session, authResultOf t = Some (JString session) ->
          AuthEndpoint.sessionId s = Some session /\
          snd (AuthEndpoint.handler remote b sent) = sent ++ [req; orgRequestOf session]) /\
       ((forall session, authResultOf t <> Some (JString session)) ->
          AuthEndpoint.sessionId s = None /\
          AuthEndpoint.ourOrganizations s = JNull /\
          snd (AuthEndpoint.handler remote b sent) = sent ++ [req])).
Proof.
  intros El Nl Ep Np req.
  rewrite (auth_handler_unfold remote b sent login password El Nl Ep Np). cbv zeta.
  fold req. split; [|split].
  - intros e ->. reflexivity.
  - intros r e -> ->. reflexivity.
  - intros r t -> ->.
    destruct (authResultOf t) as [j|] eqn:R.
    + destruct j as [|bv|n|session|items|props];
        try (eexists; split; [reflexivity|]; split; [reflexivity|]; split; [reflexivity|];
             split; [intros session E; discriminate E|];
             intros _; repeat split; reflexivity).
      unfold AuthEndpoint.listOurOrganizations. cbv zeta.
      eexists. split; [reflexivity|]. split; [reflexivity|]. split; [reflexivity|]. split.
      * intros s' E. injection E as <-. split; [reflexivity|].
        simpl snd. rewrite <- app_assoc. reflexivity.
      * intros N. exfalso. apply (N session). reflexivity.
    + eexists. split; [reflexivity|]. split; [reflexivity|]. split; [reflexivity|].
      split; [intros session E; discriminate E|].
      intros _. repeat split; reflexivity.
Qed.

(** X22.  The list of our organizations is asked for on a best-effort
    basis: when the second request fails, or its body cannot be read, or is
    not JSON, or is JSON without [result.НашаОрганизация], the summary has
    [null] for the organizations and is otherwise what it would be; when the
    body has that field, the summary carries it. *)
Theorem X22_auth_organizations_best_effort
    (remote : AuthEndpoint.Remote) (session : jsstring) (sent : list AuthEndpoint.Request) :
  let req := orgRequestOf session in
  (snd (AuthEndpoint.listOurOrganizations remote session sent) = sent ++ [req]) /\
  (forall e, remote sent req = AuthEndpoint.Rejected e ->
     fst (AuthEndpoint.listOurOrganizations remote session sent) = JNull) /\
  (forall r e, remote sent req = AuthEndpoint.Responded r -> AuthEndpoint.text r = inr e ->
     fst (AuthEndpoint.listOurOrganizations remote session sent) = JNull) /\
  (forall r t, remote sent req = AuthEndpoint.Responded r -> AuthEndpoint.text r = inl t ->
     (JSON_parse t = None ->
      fst (AuthEndpoint.listOurOrganizations remote session sent) = JNull) /\
     (forall j, JSON_parse t = Some j ->
        getOpt (getOpt (Some j) (js "result")) (js "НашаОрганизация") = None ->
        fst (AuthEndpoint.listOurOrganizations remote session sent) = JNull) /\
     (forall j v, JSON_parse t = Some j ->
        getOpt (getOpt (Some j) (js "result")) (js "НашаОрганизация") = Some v ->
        fst (AuthEndpoint.listOurOrganizations remote session sent) = v)).
Proof.
  intros req. unfold AuthEndpoint.listOurOrganizations. cbv zeta.
  fold (orgRequestOf session). fold req. simpl fst. simpl snd.
  split; [reflexivity|]. split; [|split].
  - intros e ->. reflexivity.
  - intros r e -> ->. reflexivity.
  - intros r t -> ->. split; [|split].
    + intros ->. reflexivity.
    + intros j -> G. destruct j; try reflexivity.
      cbv beta iota delta [getOpt] in G |- *. rewrite G. reflexivity.
    + intros j v -> G. destruct j; try discriminate G.
      cbv beta iota delta [getOpt] in G |- *. rewrite G.
      destruct v; reflexivity.
Qed.

End AuthExtras.

Lemma X20_auth_needs_credentials_witness :
  AuthEndpoint.handler (RT := authRuntime) authRemote
    {| AuthEndpoint.baseUrl := Some (js "https://example.test/auth");
       AuthEndpoint.login := Some (js "user"); AuthEndpoint.password := Some [] |} []
  = (AuthEndpoint.ReplyError 400 AuthEndpoint.msg_credentials, []).
Proof.
  apply (X20_auth_needs_credentials (RT := authRuntime)). right. reflexivity.
Defined.

Lemma X21_auth_summary_witness :
  exists s,
    fst (AuthEndpoint.handler (RT := authRuntime) authRemote authBody []) = AuthEndpoint.ReplySummary s /\
    AuthEndpoint.sessionId s = Some (js "sid-7") /\
    snd (AuthEndpoint.handler (RT := authRuntime) authRemote authBody [])
    = [] ++ [authRequestOf authBody (js "user") (js "secret"); orgRequestOf (js "sid-7")].
Proof.
  destruct (proj2 (proj2 (X21_auth_summary (RT := authRuntime) authRemote authBody []
                            (js "user") (js "secret") eq_refl ltac:(discriminate)
                            eq_refl ltac:(discriminate)))
              {| AuthEndpoint.status := 200; AuthEndpoint.statusText := js "OK";
                 AuthEndpoint.headers := [(js "content-type", js "application/json")];
                 AuthEndpoint.text := inl sessionBody |}
              sessionBody eq_refl eq_refl) as (s & E & _ & _ & Session & _).
  destruct (Session (js "sid-7")) as (Es & Sent).
  - vm_compute. reflexivity.
  - exists s. split; [exact E|]. split; [exact Es | exact Sent].
Defined.

(** ** [SabyClient] without a token in the cache *)

Section ClientExtras.
Context {RT : Runtime}.

(** [authenticate] without a token in the cache, step by step. *)
Lemma authenticate_uncached (remote : Client.Remote) (st : Client.State) :
  isTruthy (Client.token (Client.self st)) = false ->
  let req := clientAuthRequest (Client.config (Client.self st)) in
  Client.authenticate remote st
  = match remote (Client.calls st) req with
    | Client.Rejected m => (inl (OtherError m), afterRequest st req)
    | Client.Responded res =>
        if Client.ok res then
          match Client.json_ res with
          | inl m => (inl (OtherError m), afterRequest st req)
          | inr JNull =>
              (inl (OtherError (js "Cannot read properties of null (reading 'token')")),
               afterRequest st req)
          | inr data =>
              (inr (getOpt (Some data) (js "token")),
               {| Client.self :=
                    {| Client.config := Client.config (Client.self st);
                       Client.token := getOpt (Some data) (js "token") |};
                  Client.calls := Client.calls st ++ [req] |})
          end
        else (inl (OtherError (js "Saby auth failed: "
                               ++ numberToString (Client.status res)
                               ++ js " " ++ Client.statusText res)),
              afterRequest st req)
    end.
Proof.
  intros T. cbv zeta. unfold clientAuthRequest, afterRequest.
  unfold Client.authenticate, Client.bind at 1, Client.getSelf.
  rewrite T. unfold Client.bind at 1, Client.fetch.
  destruct (remote (Client.calls st) _) as [m|res]; [reflexivity|].
  destruct (Client.ok res); [|reflexivity]. cbn [negb].
  unfold Client.bind at 1, Client.responseJson.
  destruct (Client.json_ res) as [m|data]; [reflexivity|].
  destruct data; reflexivity.
Qed.

Lemma authenticate_inl (remote : Client.Remote) (st st1 : Client.State) (e : Error) :
  Client.authenticate remote st = (inl e, st1) ->
  isTruthy (Client.token (Client.self st)) = false /\
  st1 = afterRequest st (clientAuthRequest (Client.config (Client.self st))).
Proof.
  intros A. destruct (isTruthy (Client.token (Client.self st))) eqn:T.
  - rewrite (authenticate_cached remote st T) in A. discriminate A.
  - split; [reflexivity|]. rewrite (authenticate_uncached remote st T) in A. cbv zeta in A.
    destruct (remote (Client.calls st) _) as [m|res]; [congruence|].
    destruct (Client.ok res); [|congruence].
    destruct (Client.json_ res) as [m|data]; [congruence|].
    destruct data; congruence.
Qed.

Lemma authenticate_config (remote : Client.Remote) (st st1 : Client.State)
    (r : Error + value) :
  Client.authenticate remote st = (r, st1) ->
  Client.config (Client.self st1) = Client.config (Client.self st).
Proof.
  intros A. destruct (isTruthy (Client.token (Client.self st))) eqn:T.
  - rewrite (authenticate_cached remote st T) in A. congruence.
  - rewrite (authenticate_uncached remote st T) in A. cbv zeta in A.
    destruct (remote (Client.calls st) _) as [m|res];
      [injection A as <- <-; reflexivity|].
    destruct (Client.ok res); [|injection A as <- <-; reflexivity].
    destruct (Client.json_ res) as [m|data]; [injection A as <- <-; reflexivity|].
    destruct data; injection A as <- <-; reflexivity.
Qed.

(** The requests of [uploadDraftDocument] after a successful
    [authenticate]. *)
Lemma uploadDraftDocument_state
    (remote : Client.Remote) (st st1 : Client.State) (t : value)
    (meta : json Num) (fileBuffer : list Z) (fileName : jsstring) :
  Client.authenticate remote st = (inr t, st1) ->
  snd (Client.uploadDraftDocument remote meta fileBuffer fileName st)
  = afterRequest st1 (clientUploadRequest (Client.config (Client.self st)) t
                        meta fileBuffer fileName).
Proof.
  intros A. pose proof (authenticate_config remote st st1 _ A) as C.
  unfold Client.uploadDraftDocument, Client.bind at 1. rewrite A.
  unfold Client.bind at 1, Client.getSelf. rewrite C.
  unfold Client.bind at 1, Client.fetch, clientUploadRequest, afterRequest.
  destruct (remote (Client.calls st1) _) as [m|res]; [reflexivity|].
  destruct (negb (Client.ok res)); [reflexivity|].
  unfold Client.responseJson. destruct (Client.json_ res); reflexivity.
Qed.

(** X23.  A failed [authenticate] leaves the client as it was: no token
    is cached.  It has sent the authentication request and nothing else;
    [uploadDraftDocument] in the same state fails with the same error and
    sends no document; and the next [authenticate] sends the authentication
    request again. *)
Theorem X23_failed_authentication_not_cached
    (remote : Client.Remote) (st st1 : Client.State) (e : Error) :
  Client.authenticate remote st = (inl e, st1) ->
  let req := clientAuthRequest (Client.config (Client.self st)) in
  Client.self st1 = Client.self st /\
  Client.calls st1 = Client.calls st ++ [req] /\
  (forall meta fileBuffer fileName,
     Client.uploadDraftDocument remote meta fileBuffer fileName st = (inl e, st1)) /\
  (forall remote', Client.calls (snd (Client.authenticate remote' st1))
                   = Client.calls st ++ [req; req]).
Proof.
  intros A req. destruct (authenticate_inl remote st st1 e A) as (T & ->).
  fold req. split; [reflexivity|]. split; [reflexivity|]. split.
  - intros meta fileBuffer fileName. unfold Client.uploadDraftDocument, Client.bind at 1.
    rewrite A. reflexivity.
  - intros remote'.
    rewrite (authenticate_uncached remote' (afterRequest st req) T). cbv zeta.
    cbn [afterRequest Client.self Client.calls]. fold req.
    destruct (remote' (Client.calls st ++ [req]) req) as [m|res];
      [cbn [snd afterRequest Client.calls]; rewrite <- app_assoc; reflexivity|].
    destruct (Client.ok res);
      [|cbn [snd afterRequest Client.calls]; rewrite <- app_assoc; reflexivity].
    destruct (Client.json_ res) as [m|data];
      [cbn [snd afterRequest Client.calls]; rewrite <- app_assoc; reflexivity|].
    destruct data; cbn [snd afterRequest Client.calls]; rewrite <- app_assoc; reflexivity.
Qed.


(** X25.  An accepted authentication whose JSON is not [null] and has no
    [token] gives no error: [authenticate] returns [undefined], the cache
    stays empty, and [uploadDraftDocument] sends the document with the header
    [Bearer undefined]. *)
Theorem X25_answer_without_token
    (remote : Client.Remote) (st : Client.State) (res : Client.Response) (data : json Num)
    (meta : json Num) (fileBuffer : list Z) (fileName : jsstring) :
  isTruthy (Client.token (Client.self st)) = false ->
  remote (Client.calls st) (clientAuthRequest (Client.config (Client.self st)))
  = Client.Responded res ->
  Client.ok res = true ->
  Client.json_ res = inr data ->
  data <> JNull ->
  getOpt (Some data) (js "token") = None ->
  fst (Client.authenticate remote st) = inr None /\
  isTruthy (Client.token (Client.self (snd (Client.authenticate remote st)))) = false /\
  exists auth upload,
    Client.calls (snd (Client.uploadDraftDocument remote meta fileBuffer fileName st))
    = Client.calls st ++ [auth; upload] /\
    Client.isAuthRequest auth = true /\
    Client.isAuthRequest upload = false /\
    Client.Authorization upload = Some (js "Bearer undefined").
Proof.
  intros T R O J N G.
  assert (A : Client.authenticate remote st
              = (inr None,
                 {| Client.self := {| Client.config := Client.config (Client.self st);
                                      Client.token := None |};
                    Client.calls := Client.calls st
                                    ++ [clientAuthRequest (Client.config (Client.self st))] |})).
  { rewrite (authenticate_uncached remote st T). cbv zeta. rewrite R, O, J.
    destruct data; try (rewrite G; reflexivity). congruence. }
  rewrite A. split; [reflexivity|]. split; [reflexivity|].
  rewrite (uploadDraftDocument_state remote st _ None meta fileBuffer fileName A).
  eexists _, _. split.
  - cbn [afterRequest Client.calls]. rewrite <- app_assoc. reflexivity.
  - split; [reflexivity|]. split; reflexivity.
Qed.

End ClientExtras.

Lemma X23_failed_authentication_not_cached_witness :
  Client.uploadDraftDocument unreachableRemote (JObject []) [104; 105] (js "a.doc") freshClient
  = (inl (OtherError (js "connect ECONNREFUSED")),
     afterRequest freshClient (clientAuthRequest (Client.config (Client.self freshClient)))).
Proof.
  refine (proj1 (proj2 (proj2
           (X23_failed_authentication_not_cached (RT := sampleRuntime) unreachableRemote
              freshClient
              (afterRequest freshClient
                 (clientAuthRequest (Client.config (Client.self freshClient))))
              (OtherError (js "connect ECONNREFUSED")) eq_refl))) _ _ _).
Defined.


Lemma X25_answer_without_token_witness :
  fst (Client.authenticate tokenlessRemote freshClient) = inr None /\
  exists auth upload,
    Client.calls (snd (Client.uploadDraftDocument tokenlessRemote (JObject []) [104; 105]
                         (js "a.doc") freshClient))
    = Client.calls freshClient ++ [auth; upload] /\
    Client.isAuthRequest auth = true /\
    Client.isAuthRequest upload = false /\
    Client.Authorization upload = Some (js "Bearer undefined").
Proof.
  destruct (X25_answer_without_token (RT := sampleRuntime) tokenlessRemote freshClient
              {| Client.status := 200; Client.statusText := js "OK";
                 Client.json_ := inr (JObject []) |}
              (JObject []) (JObject []) [104; 105] (js "a.doc")
              eq_refl eq_refl eq_refl eq_refl ltac:(discriminate) eq_refl)
    as (F & _ & U).
  split; [exact F | exact U].
Defined.

Lemma X22_auth_organizations_best_effort_witness :
  fst (AuthEndpoint.listOurOrganizations (RT := authRuntime) authRemote (js "sid-7") [])
  = JNull.
Proof.
  exact (proj1 (proj2 (X22_auth_organizations_best_effort (RT := authRuntime) authRemote
                         (js "sid-7") []))
           (js "FetchError: network timeout") eq_refl).
Defined.

(** ** The loader and the folder loop *)

Lemma splitBy_length (sep : Z -> bool) (s : jsstring) :
  List.length (Loader.splitBy sep s) = S (List.length (filter sep s)).
Proof.
  induction s as [|c r IH]; [reflexivity|]. simpl.
  destruct (sep c); simpl; [rewrite IH; reflexivity|].
  destruct (Loader.splitBy sep r) as [|p ps]; [discriminate IH | exact IH].
Qed.

Lemma splitBy_no_sep (sep : Z -> bool) (s : jsstring) :
  Forall (fun c => sep c = false) s -> Loader.splitBy sep s = [s].
Proof.
  induction 1 as [|c r Hc _ IH]; [reflexivity|]. simpl. rewrite Hc, IH. reflexivity.
Qed.

Lemma last_splitBy_after (sep : Z -> bool) (a b : jsstring) (c : Z) :
  sep c = true ->
  last (Loader.splitBy sep (a ++ c :: b)) [] = last (Loader.splitBy sep b) [].
Proof.
  intros Hc. induction a as [|x a IH].
  - simpl. rewrite Hc. pose proof (splitBy_length sep b) as L.
    destruct (Loader.splitBy sep b); [discriminate L | reflexivity].
  - pose proof (splitBy_length sep (a ++ c :: b)) as L.
    rewrite filter_app, length_app in L. simpl in L. rewrite Hc in L. simpl in L.
    simpl. destruct (sep x).
    + destruct (Loader.splitBy sep (a ++ c :: b)) as [|p ps]; [discriminate L|].
      exact IH.
    + destruct (Loader.splitBy sep (a ++ c :: b)) as [|p [|q qs]]; simpl in L; [lia | lia |].
      exact IH.
Qed.

Lemma last_splitBy_no_sep (sep : Z -> bool) (s : jsstring) :
  Forall (fun c => sep c = false) (last (Loader.splitBy sep s) []).
Proof.
  induction s as [|x s IH]; [constructor|].
  pose proof (splitBy_length sep s) as L. simpl. destruct (sep x) eqn:Hx.
  - destruct (Loader.splitBy sep s) as [|p ps]; [discriminate L | exact IH].
  - destruct (Loader.splitBy sep s) as [|p [|q qs]]; [discriminate L | | exact IH].
    simpl in IH |- *. constructor; assumption.
Qed.

Lemma orString_nonempty (s d : jsstring) :
  orString (Some s) d = match s with [] => d | _ => s end.
Proof. destruct s; reflexivity. Qed.

(** X26.  The file name taken from a path is never empty and has no
    slash and no backslash.  It is what follows the last of them, or the
    whole path when there is none; when that is empty (the path is empty or
    ends in a separator) the name is [document.doc]. *)
Theorem X26_file_name_of_path (p : jsstring) :
  Loader.fileNameOf p <> [] /\
  Forall (fun c => Loader.isSeparator c = false) (Loader.fileNameOf p) /\
  (forall dir c name,
     p = dir ++ c :: name -> Loader.isSeparator c = true ->
     Forall (fun c => Loader.isSeparator c = false) name ->
     Loader.fileNameOf p = match name with [] => js "document.doc" | _ => name end) /\
  (Forall (fun c => Loader.isSeparator c = false) p ->
   Loader.fileNameOf p = match p with [] => js "document.doc" | _ => p end).
Proof.
  unfold Loader.fileNameOf. split; [|split; [|split]].
  - rewrite orString_nonempty.
    destruct (last (Loader.splitBy Loader.isSeparator p) []); discriminate.
  - rewrite orString_nonempty.
    pose proof (last_splitBy_no_sep Loader.isSeparator p) as F.
    destruct (last (Loader.splitBy Loader.isSeparator p) []); [|exact F].
    apply Forall_forall. intros c I.
    assert (B : forallb (fun c => negb (Loader.isSeparator c)) (js "document.doc") = true)
      by (vm_compute; reflexivity).
    rewrite forallb_forall in B. apply negb_true_iff, B, I.
  - intros dir c name -> Hc F.
    rewrite (last_splitBy_after Loader.isSeparator dir name c Hc).
    rewrite (splitBy_no_sep _ _ F). simpl last. apply orString_nonempty.
  - intros F. rewrite (splitBy_no_sep _ _ F). simpl last. apply orString_nonempty.
Qed.

Section LoaderExtras.
Context {RT : Runtime}.

(** The requests of one [uploadDraftDocument]. *)
Lemma uploadDraftDocument_calls (remote : Client.Remote) (st st' : Client.State)
    (meta : json Num) (fileBuffer : list Z) (name : jsstring) (r : Error + json Num) :
  Client.uploadDraftDocument remote meta fileBuffer name st = (r, st') ->
  exists extra,
    Client.calls st' = Client.calls st ++ extra /\
    (authCount extra <= 1)%nat /\ (uploadCount extra <= 1)%nat /\
    (forall j, r = inr j -> uploadCount extra = 1%nat).
Proof.
  intros U. destruct (Client.authenticate remote st) as [[e|t] st1] eqn:A.
  - destruct (authenticate_inl remote st st1 e A) as (_ & ->).
    unfold Client.uploadDraftDocument, Client.bind at 1 in U. rewrite A in U.
    injection U as <- <-. eexists. split; [reflexivity|].
    split; [cbv; lia|]. split; [cbv; lia|]. intros j E; discriminate E.
  - pose proof (uploadDraftDocument_state remote st st1 t meta fileBuffer name A) as S.
    rewrite U in S. simpl in S. subst st'.
    destruct (authenticate_returns_cache remote st st1 t A) as (_ & [C | (req & C & Ia)]).
    + eexists. cbn [afterRequest Client.calls]. rewrite C. split; [reflexivity|].
      split; [cbv; lia|]. split; [cbv; lia|]. intros j _. reflexivity.
    + eexists. cbn [afterRequest Client.calls]. rewrite C, <- app_assoc.
      split; [reflexivity|]. unfold authCount, uploadCount. simpl. rewrite Ia. simpl.
      split; [lia|]. split; [lia|]. intros j _. reflexivity.
Qed.

Lemma loadDocumentForEdo_calls (fs : Loader.FileSystem) (remote : Client.Remote)
    (p : jsstring) (meta : json Num) (st st' : Client.State) (r : Error + Loader.Loaded) :
  Loader.loadDocumentForEdo fs remote p meta st = (r, st') ->
  exists extra,
    Client.calls st' = Client.calls st ++ extra /\
    (authCount extra <= 1)%nat /\ (uploadCount extra <= 1)%nat /\
    (forall l, r = inr l -> uploadCount extra = 1%nat) /\
    (forall m, fs p = inl m -> r = inl (OtherError m) /\ st' = st).
Proof.
  unfold Loader.loadDocumentForEdo. destruct (fs p) as [m|buffer].
  - intros L. injection L as <- <-. exists []. rewrite app_nil_r.
    split; [reflexivity|]. split; [cbv; lia|]. split; [cbv; lia|].
    split; [intros l E; discriminate E|]. intros m' E. injection E as <-. auto.
  - unfold Client.bind.
    destruct (Client.uploadDraftDocument remote meta buffer (Loader.fileNameOf p) st)
      as [[e|j] st1] eqn:U; intros L; injection L as <- <-;
      destruct (uploadDraftDocument_calls remote st st1 meta buffer _ _ U)
        as (extra & C & Ha & Hu & Hs);
      exists extra; (split; [exact C|]); (split; [exact Ha|]); (split; [exact Hu|]); split.
    + intros l E; discriminate E.
    + intros m E; discriminate E.
    + intros l _. exact (Hs j eq_refl).
    + intros m E; discriminate E.
Qed.

Lemma folderLoop_acc (fs : Loader.FileSystem) (remote : Client.Remote) (meta : json Num)
    (docFiles : list jsstring) (results : list Loader.FolderEntry) (st : Client.State) :
  Loader.folderLoop fs remote meta docFiles results st
  = (results ++ fst (Loader.folderLoop fs remote meta docFiles [] st),
     snd (Loader.folderLoop fs remote meta docFiles [] st)).
Proof.
  revert results st. induction docFiles as [|f rest IH]; intros results st.
  - simpl. rewrite app_nil_r. reflexivity.
  - simpl. destruct (Loader.loadDocumentForEdo fs remote f meta st) as [[e|l] st1];
      rewrite IH; rewrite (IH [_]); simpl; rewrite <- app_assoc; reflexivity.
Qed.

(** X27.  The folder loop records one entry per file, in the order of
    the files, whatever happens to each of them: an entry has an error
    exactly when it is not ok; a file that cannot be read gets the error of
    reading it.  Over the whole loop at most one authentication request and
    at most one document are sent per file, and at least one document per
    entry that is ok. *)
Theorem X27_folder_loop_entries (fs : Loader.FileSystem) (remote : Client.Remote)
    (meta : json Num) (docFiles : list jsstring) (st : Client.State) :
  let out := Loader.folderLoop fs remote meta docFiles [] st in
  map Loader.entry_file (fst out) = docFiles /\
  Forall (fun e => Loader.entry_ok e = true <-> Loader.entry_error e = None) (fst out) /\
  (forall i f m,
     nth_error docFiles i = Some f -> fs f = inl m ->
     nth_error (fst out) i
     = Some {| Loader.entry_file := f; Loader.entry_ok := false;
               Loader.entry_error := Some m |}) /\
  exists extra,
    Client.calls (snd out) = Client.calls st ++ extra /\
    (authCount extra <= List.length docFiles)%nat /\
    (Loader.successCount (fst out) <= uploadCount extra)%nat /\
    (uploadCount extra <= List.length docFiles)%nat.
Proof.
  cbv zeta. revert st. induction docFiles as [|f rest IH]; intros st.
  - simpl. split; [reflexivity|]. split; [constructor|]. split.
    + intros [|i] f m E; discriminate E.
    + exists []. rewrite app_nil_r. split; [reflexivity|]. cbv. lia.
  - simpl.
    destruct (Loader.loadDocumentForEdo fs remote f meta st) as [[e|l] st1] eqn:L;
      rewrite folderLoop_acc; cbn [fst snd app map];
      destruct (IH st1) as (Hn & Hf & Hm & extra1 & C1 & A1 & S1 & U1);
      destruct (loadDocumentForEdo_calls fs remote f meta st st1 _ L)
        as (extra & C & Ha & Hu & Hs & Hr).
    + split; [rewrite Hn; reflexivity|].
      split; [constructor; [cbn; split; discriminate | exact Hf]|].
      split.
      * intros [|i] f' m E R.
        -- injection E as <-. destruct (Hr m R) as (Ee & _). injection Ee as ->.
           reflexivity.
        -- exact (Hm i f' m E R).
      * exists (extra ++ extra1). rewrite C1, C, <- app_assoc. split; [reflexivity|].
        unfold authCount, uploadCount, Loader.successCount in *.
        rewrite !filter_app, !length_app. cbn [filter Loader.entry_ok List.length]. lia.
    + split; [rewrite Hn; reflexivity|].
      split; [constructor; [cbn; split; reflexivity | exact Hf]|].
      split.
      * intros [|i] f' m E R.
        -- injection E as <-. destruct (Hr m R) as (Ee & _). discriminate Ee.
        -- exact (Hm i f' m E R).
      * exists (extra ++ extra1). rewrite C1, C, <- app_assoc. split; [reflexivity|].
        pose proof (Hs l eq_refl) as One.
        unfold authCount, uploadCount, Loader.successCount in *.
        rewrite !filter_app, !length_app. cbn [filter Loader.entry_ok List.length]. lia.
Qed.


End LoaderExtras.


(** ** [decodeFilename] undoes the reading of UTF-8 bytes as code units *)

Lemma land_low (b n : Z) : 0 <= n -> 0 <= b < 2 ^ n -> Z.land b (Z.ones n) = b.
Proof. intros Hn Hb. rewrite Z.land_ones by exact Hn. apply Z.mod_small. exact Hb. Qed.

Lemma lor_shiftl_low (c r : Z) :
  0 <= r < 64 -> Z.lor (Z.shiftl c 6) r = c * 64 + r.
Proof.
  intros Hr.
  assert (D : Z.land (Z.shiftl c 6) r = 0).
  { apply Z.bits_inj'. intros m Hm. rewrite Z.land_spec, Z.bits_0.
    destruct (Z_lt_le_dec m 6) as [L|G].
    - rewrite Z.shiftl_spec_low by exact L. reflexivity.
    - destruct (Z.eq_dec r 0) as [->|N];
        [rewrite Z.bits_0; apply andb_false_r|].
      rewrite (Z.bits_above_log2 r m); [apply andb_false_r | lia |].
      apply Z.log2_lt_pow2; [lia|].
      apply Z.lt_le_trans with (2 ^ 6); [change (2 ^ 6) with 64; lia|].
      apply Z.pow_le_mono_r; lia. }
  pose proof (Z.add_lor_land (Z.shiftl c 6) r) as A. rewrite D in A.
  rewrite Z.shiftl_mul_pow2 in A |- * by lia. change (2 ^ 6) with 64 in A |- *. lia.
Qed.

(** One continuation byte. *)
Lemma utf8_go_continue (c r : Z) (n : nat) (l h : Z) (rest : list Z) :
  0 <= r < 64 -> l <= 0x80 + r <= h ->
  JS.utf8_go ((0x80 + r) :: rest)
    {| JS.cp := c; JS.need := S n; JS.lo := l; JS.hi := h |}
  = match n with
    | O => JS.utf16 (c * 64 + r) ++ JS.utf8_go rest JS.st0
    | S _ => JS.utf8_go rest {| JS.cp := c * 64 + r; JS.need := n;
                                JS.lo := 0x80; JS.hi := 0xBF |}
    end.
Proof.
  intros Hr Hb. cbn [JS.utf8_go JS.need JS.lo JS.hi JS.cp].
  replace ((l <=? 0x80 + r) && (0x80 + r <=? h)) with true
    by (symmetry; apply andb_true_iff; split; apply Z.leb_le; lia).
  cbv zeta.
  assert (V : Z.lor (Z.shiftl c 6) (Z.land (0x80 + r) 0x3F) = c * 64 + r).
  { change 0x3F with (Z.ones 6). rewrite Z.land_ones by lia. change (2 ^ 6) with 64.
    replace ((0x80 + r) mod 64) with r
      by (apply Z.mod_unique with (q := 2); lia).
    apply lor_shiftl_low. exact Hr. }
  rewrite V. reflexivity.
Qed.

Lemma lead_ascii (b : Z) : b < 0x80 -> JS.lead b = ([b], JS.st0).
Proof.
  intros H. unfold JS.lead.
  replace (b <=? 0x7F) with true by (symmetry; apply Z.leb_le; lia). reflexivity.
Qed.

Lemma lead_two (q : Z) :
  2 <= q < 32 ->
  JS.lead (0xC0 + q) = ([], {| JS.cp := q; JS.need := 1; JS.lo := 0x80; JS.hi := 0xBF |}).
Proof.
  intros H. unfold JS.lead.
  replace (0xC0 + q <=? 0x7F) with false by (symmetry; apply Z.leb_gt; lia).
  replace ((0xC2 <=? 0xC0 + q) && (0xC0 + q <=? 0xDF)) with true
    by (symmetry; apply andb_true_iff; split; apply Z.leb_le; lia).
  change 0x1F with (Z.ones 5). rewrite Z.land_ones by lia. change (2 ^ 5) with 32.
  replace ((0xC0 + q) mod 32) with q by (apply Z.mod_unique with (q := 6); lia).
  reflexivity.
Qed.

Lemma lead_three (q : Z) :
  0 <= q < 16 ->
  JS.lead (0xE0 + q)
  = ([], {| JS.cp := q; JS.need := 2;
            JS.lo := if q =? 0 then 0xA0 else 0x80;
            JS.hi := if q =? 13 then 0x9F else 0xBF |}).
Proof.
  intros H. unfold JS.lead.
  replace (0xE0 + q <=? 0x7F) with false by (symmetry; apply Z.leb_gt; lia).
  replace ((0xC2 <=? 0xE0 + q) && (0xE0 + q <=? 0xDF)) with false
    by (symmetry; apply andb_false_iff; right; apply Z.leb_gt; lia).
  replace ((0xE0 <=? 0xE0 + q) && (0xE0 + q <=? 0xEF)) with true
    by (symmetry; apply andb_true_iff; split; apply Z.leb_le; lia).
  change 0xF with (Z.ones 4). rewrite Z.land_ones by lia. change (2 ^ 4) with 16.
  replace ((0xE0 + q) mod 16) with q by (apply Z.mod_unique with (q := 14); lia).
  replace (0xE0 + q =? 0xE0) with (q =? 0)
    by (destruct (Z.eqb_spec q 0); symmetry; [apply Z.eqb_eq | apply Z.eqb_neq]; lia).
  replace (0xE0 + q =? 0xED) with (q =? 13)
    by (destruct (Z.eqb_spec q 13); symmetry; [apply Z.eqb_eq | apply Z.eqb_neq]; lia).
  reflexivity.
Qed.

Lemma lead_four (q : Z) :
  0 <= q < 5 ->
  JS.lead (0xF0 + q)
  = ([], {| JS.cp := q; JS.need := 3;
            JS.lo := if q =? 0 then 0x90 else 0x80;
            JS.hi := if q =? 4 then 0x8F else 0xBF |}).
Proof.
  intros H. unfold JS.lead.
  replace (0xF0 + q <=? 0x7F) with false by (symmetry; apply Z.leb_gt; lia).
  replace ((0xC2 <=? 0xF0 + q) && (0xF0 + q <=? 0xDF)) with false
    by (symmetry; apply andb_false_iff; right; apply Z.leb_gt; lia).
  replace ((0xE0 <=? 0xF0 + q) && (0xF0 + q <=? 0xEF)) with false
    by (symmetry; apply andb_false_iff; right; apply Z.leb_gt; lia).
  replace ((0xF0 <=? 0xF0 + q) && (0xF0 + q <=? 0xF4)) with true
    by (symmetry; apply andb_true_iff; split; apply Z.leb_le; lia).
  change 7 with (Z.ones 3). rewrite Z.land_ones by lia. change (2 ^ 3) with 8.
  replace ((0xF0 + q) mod 8) with q by (apply Z.mod_unique with (q := 30); lia).
  replace (0xF0 + q =? 0xF0) with (q =? 0)
    by (destruct (Z.eqb_spec q 0); symmetry; [apply Z.eqb_eq | apply Z.eqb_neq]; lia).
  replace (0xF0 + q =? 0xF4) with (q =? 4)
    by (destruct (Z.eqb_spec q 4); symmetry; [apply Z.eqb_eq | apply Z.eqb_neq]; lia).
  reflexivity.
Qed.

Lemma utf8_go_lead (b : Z) (rest : list Z) :
  JS.utf8_go (b :: rest) JS.st0
  = let (out, s') := JS.lead b in out ++ JS.utf8_go rest s'.
Proof. reflexivity. Qed.

Lemma isScalar_cases (c : Z) :
  isScalar c = true -> 0 <= c < 0xD800 \/ 0xE000 <= c <= 0x10FFFF.
Proof.
  unfold isScalar. rewrite orb_true_iff, !andb_true_iff, !Z.leb_le, !Z.ltb_lt. tauto.
Qed.

(** The decoder reads the encoding of a scalar value back as that value. *)
Lemma utf8_go_encode (c : Z) (rest : list Z) :
  isScalar c = true ->
  JS.utf8_go (utf8_encode c ++ rest) JS.st0 = JS.utf16 c ++ JS.utf8_go rest JS.st0.
Proof.
  intros Sc. apply isScalar_cases in Sc. unfold utf8_encode.
  destruct (Z.ltb_spec c 0x80) as [A|A].
  - cbn [app]. rewrite utf8_go_lead, lead_ascii by exact A.
    unfold JS.utf16. replace (c <? 0x10000) with true by (symmetry; apply Z.ltb_lt; lia).
    reflexivity.
  - destruct (Z.ltb_spec c 0x800) as [B|B].
    + cbn [app]. rewrite utf8_go_lead, lead_two by (split; [|]; 
        [apply Z.div_le_lower_bound | apply Z.div_lt_upper_bound]; lia).
      cbn [app]. rewrite utf8_go_continue
        by (pose proof (Z.mod_pos_bound c 64); lia).
      replace (c / 64 * 64 + c mod 64) with c
        by (pose proof (Z.div_mod c 64); lia).
      reflexivity.
    + destruct (Z.ltb_spec c 0x10000) as [C|C].
      * cbn [app]. rewrite utf8_go_lead, lead_three
          by (split; [apply Z.div_le_lower_bound | apply Z.div_lt_upper_bound]; lia).
        cbn [app].
        assert (Q : c / 64 = c / 4096 * 64 + (c / 64) mod 64).
        { replace 4096 with (64 * 64) by reflexivity.
          rewrite <- Z.div_div by lia. pose proof (Z.div_mod (c / 64) 64). lia. }
        assert (R2 : 0 <= (c / 64) mod 64 < 64) by (apply Z.mod_pos_bound; lia).
        assert (R1 : 0 <= c mod 64 < 64) by (apply Z.mod_pos_bound; lia).
        assert (Dc : c = c / 64 * 64 + c mod 64) by (pose proof (Z.div_mod c 64); lia).
        rewrite utf8_go_continue.
        -- rewrite <- Q. rewrite utf8_go_continue by lia. rewrite <- Dc. reflexivity.
        -- exact R2.
        -- destruct (Z.eqb_spec (c / 4096) 0) as [E0|N0];
             destruct (Z.eqb_spec (c / 4096) 13) as [E13|N13]; lia.
      * cbn [app]. rewrite utf8_go_lead, lead_four
          by (split; [apply Z.div_le_lower_bound | apply Z.div_lt_upper_bound]; lia).
        cbn [app].
        assert (Q2 : c / 4096 = c / 262144 * 64 + (c / 4096) mod 64).
        { replace 262144 with (4096 * 64) by reflexivity.
          rewrite <- Z.div_div by lia. pose proof (Z.div_mod (c / 4096) 64). lia. }
        assert (Q : c / 64 = c / 4096 * 64 + (c / 64) mod 64).
        { replace 4096 with (64 * 64) by reflexivity.
          rewrite <- Z.div_div by lia. pose proof (Z.div_mod (c / 64) 64). lia. }
        assert (R3 : 0 <= (c / 4096) mod 64 < 64) by (apply Z.mod_pos_bound; lia).
        assert (R2 : 0 <= (c / 64) mod 64 < 64) by (apply Z.mod_pos_bound; lia).
        assert (R1 : 0 <= c mod 64 < 64) by (apply Z.mod_pos_bound; lia).
        assert (Dc : c = c / 64 * 64 + c mod 64) by (pose proof (Z.div_mod c 64); lia).
        rewrite utf8_go_continue.
        -- rewrite <- Q2. rewrite utf8_go_continue by lia.
           rewrite <- Q. rewrite utf8_go_continue by lia. rewrite <- Dc. reflexivity.
        -- exact R3.
        -- destruct (Z.eqb_spec (c / 262144) 0) as [E0|N0];
             destruct (Z.eqb_spec (c / 262144) 4) as [E4|N4]; lia.
Qed.

Lemma utf8_encode_bytes (c : Z) :
  isScalar c = true -> Forall (fun b => 0 <= b < 256) (utf8_encode c).
Proof.
  intros Sc. apply isScalar_cases in Sc. unfold utf8_encode.
  destruct (Z.ltb_spec c 0x80); [repeat constructor; lia|].
  assert (R1 : 0 <= c mod 64 < 64) by (apply Z.mod_pos_bound; lia).
  assert (R2 : 0 <= (c / 64) mod 64 < 64) by (apply Z.mod_pos_bound; lia).
  assert (R3 : 0 <= (c / 4096) mod 64 < 64) by (apply Z.mod_pos_bound; lia).
  destruct (Z.ltb_spec c 0x800); [|destruct (Z.ltb_spec c 0x10000)];
    repeat constructor; try lia;
    try (apply Z.add_nonneg_nonneg; [lia | apply Z.div_pos; lia]);
    try (apply Z.div_lt_upper_bound; lia);
    match goal with
    | |- ?k + c / ?d < 256 =>
        assert (c / d < 256 - k) by (apply Z.div_lt_upper_bound; lia); lia
    end.
Qed.

Lemma latin1_bytes_id (bs : list Z) :
  Forall (fun b => 0 <= b < 256) bs -> JS.latin1_bytes bs = bs.
Proof.
  unfold JS.latin1_bytes. induction 1 as [|b r Hb _ IH]; [reflexivity|].
  simpl. rewrite IH. f_equal. change 0xFF with (Z.ones 8).
  apply land_low; [lia | exact Hb].
Qed.

(** X29.  [decodeFilename] repairs a name whose UTF-8 bytes were read
    as one code unit each: for every text, given as its Unicode scalar values,
    the name made of the bytes of its UTF-8 encoding is decoded to the UTF-16
    form of the text.  In particular a name of ASCII characters is left as it
    is. *)
Theorem X29_decodeFilename_repairs_utf8 (text : list Z) :
  forallb isScalar text = true ->
  decodeFilename (flat_map utf8_encode text) = flat_map JS.utf16 text /\
  (forallb (fun c => c <? 0x80) text = true -> decodeFilename text = text).
Proof.
  intros Sc.
  assert (Bytes : Forall (fun b => 0 <= b < 256) (flat_map utf8_encode text)).
  { induction text as [|c r IH]; [constructor|]. simpl in Sc |- *.
    apply andb_true_iff in Sc. destruct Sc as (Hc & Hr).
    apply Forall_app. split; [apply utf8_encode_bytes; exact Hc | exact (IH Hr)]. }
  assert (Main : decodeFilename (flat_map utf8_encode text) = flat_map JS.utf16 text).
  { unfold decodeFilename, JS.utf8_decode. rewrite (latin1_bytes_id _ Bytes). clear Bytes.
    induction text as [|c r IH]; [reflexivity|]. simpl in Sc |- *.
    apply andb_true_iff in Sc. destruct Sc as (Hc & Hr).
    rewrite (utf8_go_encode c _ Hc), (IH Hr). reflexivity. }
  split; [exact Main|].
  intros Ascii.
  assert (E : flat_map utf8_encode text = text /\ flat_map JS.utf16 text = text).
  { clear Main Bytes Sc. induction text as [|c r IH]; [split; reflexivity|].
    simpl in Ascii |- *. apply andb_true_iff in Ascii. destruct Ascii as (Hc & Hr).
    destruct (IH Hr) as (-> & ->). unfold utf8_encode, JS.utf16. rewrite Hc.
    apply Z.ltb_lt in Hc.
    replace (c <? 0x10000) with true by (symmetry; apply Z.ltb_lt; lia).
    split; reflexivity. }
  destruct E as (E1 & E2). rewrite E1 in Main. rewrite E2 in Main. exact Main.
Qed.

Lemma X29_decodeFilename_repairs_utf8_witness :
  decodeFilename (flat_map utf8_encode reportCodePoints)
  = flat_map JS.utf16 reportCodePoints.
Proof.
  exact (proj1 (X29_decodeFilename_repairs_utf8 reportCodePoints eq_refl)).
Defined.

(** ** The selection of the files of a folder *)

Lemma isDocName_ends (name : jsstring) :
  Loader.isDocName name = true <->
  exists stem ext, name = stem ++ ext /\ isDocExtension ext = true.
Proof.
  split.
  - intros H. unfold Loader.isDocName in H.
    rewrite <- (rev_involutive name).
    destruct (rev name) as [|x [|c [|o [|d [|dot rest]]]]]; try discriminate H.
    + exists [], [d; o; c; x]. split; [reflexivity|].
      rewrite !andb_true_iff in H. destruct H as (((Hc & Ho) & Hd) & Hdot).
      unfold isDocExtension. rewrite Hc, Ho, Hd, Hdot. reflexivity.
    + apply orb_true_iff in H. destruct H as [H|H].
      * exists (rev rest), [dot; d; o; c; x]. split.
        -- simpl. rewrite <- !app_assoc. reflexivity.
        -- rewrite !andb_true_iff in H. destruct H as ((((Hx & Hc) & Ho) & Hd) & Hdot).
           unfold isDocExtension. rewrite Hx, Hc, Ho, Hd, Hdot. reflexivity.
      * exists (rev rest ++ [dot]), [d; o; c; x]. split.
        -- simpl. rewrite <- !app_assoc. reflexivity.
        -- rewrite !andb_true_iff in H. destruct H as (((Hc & Ho) & Hd) & Hdot).
           unfold isDocExtension. rewrite Hc, Ho, Hd, Hdot. reflexivity.
  - intros (stem & ext & -> & H). unfold Loader.isDocName. rewrite rev_app_distr.
    destruct ext as [|dot [|d [|o [|c [|x [|y ext]]]]]]; try discriminate H.
    + unfold isDocExtension in H. rewrite !andb_true_iff in H.
      destruct H as (((Hdot & Hd) & Ho) & Hc). simpl.
      destruct (rev stem) as [|z zs]; simpl; rewrite Hc, Ho, Hd, Hdot;
        [reflexivity | apply orb_true_r].
    + unfold isDocExtension in H. rewrite !andb_true_iff in H.
      destruct H as ((((Hdot & Hd) & Ho) & Hc) & Hx). simpl.
      rewrite Hx, Hc, Ho, Hd, Hdot. reflexivity.
Qed.

(** X30.  From the entries of the folder the command line keeps exactly
    the names that end in [.doc] or [.docx], in any mix of upper and lower
    case, each joined to the folder; nothing is required of what comes before
    the extension.  The names kept stay in the order of the entries. *)
Theorem X30_doc_files_of_folder (joinFolder : jsstring -> jsstring)
    (entries : list jsstring) :
  (forall p, In p (Loader.docFilesOf joinFolder entries) <->
             exists stem ext, In (stem ++ ext) entries /\ isDocExtension ext = true /\
                              p = joinFolder (stem ++ ext)) /\
  (forall before name after,
     entries = before ++ name :: after ->
     Loader.docFilesOf joinFolder entries
     = Loader.docFilesOf joinFolder before
       ++ (if Loader.isDocName name then [joinFolder name] else [])
       ++ Loader.docFilesOf joinFolder after).
Proof.
  split.
  - intros p. unfold Loader.docFilesOf. rewrite in_map_iff. split.
    + intros (name & <- & I). apply filter_In in I. destruct I as (I & D).
      apply isDocName_ends in D. destruct D as (stem & ext & -> & D).
      exists stem, ext. auto.
    + intros (stem & ext & I & D & ->). exists (stem ++ ext). split; [reflexivity|].
      apply filter_In. split; [exact I|]. apply isDocName_ends. exists stem, ext. auto.
  - intros before name after ->. unfold Loader.docFilesOf.
    rewrite filter_app, map_app. simpl. destruct (Loader.isDocName name); reflexivity.
Qed.

